(** * The dog-image notebook: annotations, preprocessing and the GAN training loop

    A shallow embedding of the cells of [dl_final.ipynb] that parse the
    annotation files, crop, resize and normalise the images, and drive the
    adversarial training loop.  Python's effects are made explicit: the file
    system, the hidden state of the numeric libraries and the sequence of
    library calls live in a state that every function threads, and a raised
    exception is a result of its own. *)

From Stdlib Require Import Floats ZArith Uint63 Ascii String List Bool Lia.
From Stdlib.Strings Require Import Byte.
From Stdlib Require Import DecimalString.
From Stdlib Require DecimalZ DecimalPos.
From stdpp Require Import gmap strings list.

Local Open Scope string_scope.
Local Open Scope list_scope.
Local Open Scope Z_scope.

(** ** Exceptions and results *)

Inductive exn : Type :=
| FileNotFoundError
| ParseError
| AttributeError
| TypeError
| ValueError
| KeyError
| IndexError
| ZeroDivisionError
| OSError (what : string).

Inductive Result (A : Type) : Type :=
| Ok (a : A)
| Raise (e : exn).
Arguments Ok {A} a.
Arguments Raise {A} e.

Definition rbind {A B} (r : Result A) (k : A -> Result B) : Result B :=
  match r with
  | Ok a => k a
  | Raise e => Raise e
  end.

Notation "'let?' x := r 'in' k" := (rbind r (fun x => k))
  (at level 10, x pattern, r at level 100, k at level 200).

Definition raises {A} (r : Result A) : Prop := exists e, r = Raise e.

(** ** XML element trees ([xml.etree.ElementTree]) *)

#[warnings="-register-all"]
Inductive Element : Type :=
| Elem (tag : string) (text : option string) (children : list Element).

Definition tag (e : Element) : string := let 'Elem t _ _ := e in t.
Definition text (e : Element) : option string := let 'Elem _ t _ := e in t.
Definition children (e : Element) : list Element := let 'Elem _ _ c := e in c.

(** One step of a path: the children, in document order, that carry the tag. *)
Definition select_child (t : string) (context : list Element) : list Element :=
  flat_map (fun e => List.filter (fun c => String.eqb (tag c) t) (children e)) context.

(** [root.findall('a/b/c')] with the path given by its tags. *)
Definition findall (root : Element) (path : list string) : list Element :=
  fold_left (fun context t => select_child t context) path [root].

(** [root.find(path)]: the first match, [None] when there is none. *)
Definition find (root : Element) (path : list string) : option Element :=
  head (findall root path).

(** [root.find(path).text]: reading an attribute of [None] raises. *)
Definition find_text (root : Element) (path : list string) : Result (option string) :=
  match find root path with
  | Some e => Ok (text e)
  | None => Raise AttributeError
  end.

(** ** [int(...)] on the text of an element (ASCII decimal literals) *)

Definition is_space (c : ascii) : bool :=
  let n := nat_of_ascii c in
  ((9 <=? n) && (n <=? 13) || (28 <=? n) && (n <=? 32))%nat.

Fixpoint lstrip (s : string) : string :=
  match s with
  | String c s' => if is_space c then lstrip s' else s
  | EmptyString => s
  end.

Fixpoint rstrip (s : string) : string :=
  match s with
  | String c s' =>
      match rstrip s' with
      | EmptyString => if is_space c then EmptyString else String c EmptyString
      | r => String c r
      end
  | EmptyString => EmptyString
  end.

Definition digit_of (c : ascii) : option Z :=
  let n := nat_of_ascii c in
  if ((48 <=? n) && (n <=? 57))%nat then Some (Z.of_nat n - 48) else None.

(** Digits with single underscores between them; [prev] tells whether the
    character before was a digit. *)
Fixpoint digits (s : string) (prev : bool) (acc : Z) : option Z :=
  match s with
  | EmptyString => if prev then Some acc else None
  | String c s' =>
      match digit_of c with
      | Some d => digits s' true (10 * acc + d)
      | None =>
          if Ascii.eqb c "_"%char && prev then digits s' false acc else None
      end
  end.

Definition py_int (s : string) : option Z :=
  match rstrip (lstrip s) with
  | String "-" s' => Z.opp <$> digits s' false 0
  | String "+" s' => digits s' false 0
  | s' => digits s' false 0
  end.

(** [int(x)] for [x] the [.text] of an element: [None] is a type error, a
    string that is no integer literal a value error. *)
Definition int_of_text (t : option string) : Result Z :=
  match t with
  | None => Raise TypeError
  | Some s =>
      match py_int s with
      | Some z => Ok z
      | None => Raise ValueError
      end
  end.

(** ** Values and the annotation dictionary *)

Inductive Value : Type :=
| VNone
| VStr (s : string)
| VInt (z : Z).

Definition of_text (t : option string) : Value :=
  match t with
  | Some s => VStr s
  | None => VNone
  end.

Abbreviation Annotation := (gmap string Value).

(** [d[key]] *)
Definition getitem (d : Annotation) (key : string) : Result Value :=
  match d !! key with
  | Some v => Ok v
  | None => Raise KeyError
  end.

(** ** Paths and strings *)

Definition startswith (s p : string) : bool := String.prefix p s.

Fixpoint endswith_slash (s : string) : bool :=
  match s with
  | EmptyString => false
  | String c EmptyString => Ascii.eqb c "/"%char
  | String _ s' => endswith_slash s'
  end.

(** [os.path.join(a, b)] of [posixpath] *)
Definition os_path_join (a b : string) : string :=
  if startswith b "/" then b
  else if String.eqb a "" || endswith_slash a then a +:+ b
  else a +:+ "/" +:+ b.

(** [sub in s] *)
Fixpoint contains (sub s : string) : bool :=
  String.prefix sub s ||
  match s with
  | EmptyString => false
  | String _ s' => contains sub s'
  end.

(** [str(n)] for an integer *)
Definition str_of_int (n : Z) : string := NilZero.string_of_int (Z.to_int n).

(** ** Arrays ([numpy.ndarray]): a shape and the elements in row-major order *)

Record ndarray (A : Type) : Type := mk_ndarray {
  shape : list nat;
  data : list A
}.
Arguments mk_ndarray {A} shape data.
Arguments shape {A} n.
Arguments data {A} n.

Definition size_of (sh : list nat) : nat := fold_right Nat.mul 1%nat sh.

(** Element-wise application of a scalar function. *)
Definition np_map {A B} (f : A -> B) (a : ndarray A) : ndarray B :=
  mk_ndarray (shape a) (map f (data a)).

(** [np.ones((rows, cols))], [np.zeros((rows, cols))]: a negative dimension
    is a value error. *)
Definition np_full (v : float) (rows cols : Z) : Result (ndarray float) :=
  if (rows <? 0) || (cols <? 0) then Raise ValueError
  else Ok (mk_ndarray [Z.to_nat rows; Z.to_nat cols]
                      (repeat v (Z.to_nat rows * Z.to_nat cols))).

Definition np_ones : Z -> Z -> Result (ndarray float) := np_full 1%float.
Definition np_zeros : Z -> Z -> Result (ndarray float) := np_full 0%float.

(** [a[i]] along the first axis; a negative index counts from the end. *)
Definition np_row {A} (a : ndarray A) (i : Z) : Result (ndarray A) :=
  match shape a with
  | [] => Raise IndexError
  | n :: rest =>
      let i' := if i <? 0 then i + Z.of_nat n else i in
      if (i' <? 0) || (Z.of_nat n <=? i') then Raise IndexError
      else let k := size_of rest in
           Ok (mk_ndarray rest (firstn k (skipn (Z.to_nat i' * k) (data a))))
  end.

Fixpoint collect {A} (rs : list (Result A)) : Result (list A) :=
  match rs with
  | [] => Ok []
  | r :: rs' => let? a := r in let? l := collect rs' in Ok (a :: l)
  end.

(** [a[idx]] for an array of indices [idx]: the selected rows, stacked. *)
Definition np_take {A} (a : ndarray A) (idx : list Z) : Result (ndarray A) :=
  let? rows := collect (map (np_row a) idx) in
  Ok (mk_ndarray (length idx :: tl (shape a)) (flat_map data rows)).

(** [a.shape[0]] *)
Definition shape0 {A} (a : ndarray A) : Result Z :=
  match shape a with
  | [] => Raise IndexError
  | n :: _ => Ok (Z.of_nat n)
  end.

Definition same_shape (s1 s2 : list nat) : bool := bool_decide (s1 = s2).

(** [np.array(arrays)] for a list of arrays: they are stacked along a new
    first axis when they all have one shape, and rejected otherwise. *)
Definition np_stack {A} (arrays : list (ndarray A)) : Result (ndarray A) :=
  match arrays with
  | [] => Ok (mk_ndarray [0%nat] [])
  | a :: _ =>
      if forallb (fun b => same_shape (shape b) (shape a)) arrays
      then Ok (mk_ndarray (length arrays :: shape a) (flat_map data arrays))
      else Raise ValueError
  end.

(** ** Images ([PIL.Image]) in the eight-bit modes *)

Inductive Mode : Type := L | P | RGB | RGBA | CMYK | YCbCr | LAB | HSV.

Definition bands (m : Mode) : nat :=
  match m with
  | L | P => 1
  | RGB | YCbCr | LAB | HSV => 3
  | RGBA | CMYK => 4
  end%nat.

Record Image : Type := mk_image {
  mode : Mode;
  width : Z;
  height : Z;
  getpixel : Z -> Z -> nat -> byte      (* column, row, band *)
}.

Definition zero_byte : byte := x00.

(** [image.crop((left, upper, right, lower))]: the region keeps the mode, has
    the size of the box and is black outside the source; a box whose right
    or lower edge precedes the left or upper one is rejected. *)
Definition crop (image : Image) (box : Z * Z * Z * Z) : Result Image :=
  let '(x0, y0, x1, y1) := box in
  if (x1 <? x0) || (y1 <? y0) then Raise ValueError
  else Ok (mk_image (mode image) (x1 - x0) (y1 - y0)
             (fun x y c =>
                let sx := x + x0 in
                let sy := y + y0 in
                if (0 <=? sx) && (sx <? width image) && (0 <=? sy) && (sy <? height image)
                then getpixel image sx sy c
                else zero_byte)).

(** [np.array(image)]: rows, columns and, with more than one band, bands. *)
Definition np_array (image : Image) : ndarray byte :=
  let h := Z.to_nat (height image) in
  let w := Z.to_nat (width image) in
  let b := bands (mode image) in
  mk_ndarray (if (b =? 1)%nat then [h; w] else [h; w; b])
    (flat_map (fun y =>
       flat_map (fun x =>
         map (fun c => getpixel image (Z.of_nat x) (Z.of_nat y) c) (seq 0 b))
         (seq 0 w))
       (seq 0 h)).

(** ** The libraries' side of the notebook

    The state [Rt] stands for what the numeric libraries keep between calls:
    the generator behind [np.random], the weights of the layers, the open
    figures.  Every call may raise. *)

Class Runtime : Type := {
  Rt : Type;
  (** [np.random.randint(low, high, size)] *)
  np_random_randint : Z -> Z -> Z -> Rt -> Result (list Z) * Rt;
  (** [np.random.normal(0, 1, (rows, cols))] *)
  np_random_normal : Z -> Z -> Rt -> Result (ndarray float) * Rt;
  (** [fig.savefig(path)] for a figure showing the given images *)
  fig_savefig : string -> list (ndarray float) -> Rt -> Result unit * Rt;
  (** the filter of [Image.resize]: source, new width and height, then the
      pixel at a column, row and band of the result *)
  resample : Image -> Z -> Z -> Z -> Z -> nat -> byte
}.

(** A Keras model: [predict] and [train_on_batch] act on the shared weights.
    [train_on_batch] returns the loss, followed by the metrics the model was
    compiled with. *)
Inductive Loss : Type :=
| Scalar (l : float)
| Metrics (ls : list float).

Record Model `{Runtime} : Type := mk_model {
  predict : ndarray float -> Rt -> Result (ndarray float) * Rt;
  train_on_batch : ndarray float -> ndarray float -> Rt -> Result Loss * Rt
}.
Arguments mk_model {_} predict train_on_batch.

(** [image.resize((w, h))] *)
Definition resize `{Runtime} (image : Image) (size : Z * Z) : Image :=
  let '(w, h) := size in
  mk_image (mode image) w h (resample image w h).

(** The file system as the notebook reads it. *)
Record FileSystem : Type := mk_fs {
  os_listdir : string -> Result (list string);
  ET_parse : string -> Result Element;        (* [ET.parse(path).getroot()] *)
  Image_open : string -> Result Image
}.

(** What the notebook does to the outside, in order. *)
Inductive Which : Type := Generator | Discriminator | Gan.

Inductive Event : Type :=
| EvRandint (low high size : Z) (idx : list Z)
| EvNormal (rows cols : Z) (noise : ndarray float)
| EvPredict (m : Which) (x out : ndarray float)
| EvTrain (m : Which) (x y : ndarray float) (loss : Loss)
| EvPrint (epoch : Z) (d_loss d_acc : float) (g_loss : Loss)
| EvShow (imgs : list (ndarray float))
| EvSaveFig (path : string).

Record State `{Runtime} : Type := mk_state {
  fs : FileSystem;
  rt : Rt;
  log : list Event
}.
Arguments mk_state {_} fs rt log.

(** ** The notebook's computations: state passing with exceptions *)

Section Notebook.
Context `{Runtime}.

Definition M (A : Type) : Type := State -> Result A * State.

Definition ret {A} (a : A) : M A := fun s => (Ok a, s).

Definition bind {A B} (m : M A) (k : A -> M B) : M B :=
  fun s =>
    match m s with
    | (Ok a, s') => k a s'
    | (Raise e, s') => (Raise e, s')
    end.

(** A pure step that may raise. *)
Definition lift {A} (r : Result A) : M A := fun s => (r, s).

(** A read of the file system. *)
Definition read_fs {A} (f : FileSystem -> Result A) : M A :=
  fun s => (f (fs s), s).

(** A call into a library: it moves the libraries' state and, when it
    returns, is recorded with its result. *)
Definition call {A} (f : Rt -> Result A * Rt) (ev : A -> Event) : M A :=
  fun s =>
    match f (rt s) with
    | (Ok a, rt') => (Ok a, mk_state (fs s) rt' (log s ++ [ev a]))
    | (Raise e, rt') => (Raise e, mk_state (fs s) rt' (log s))
    end.

Definition emit (e : Event) : M unit :=
  fun s => (Ok tt, mk_state (fs s) (rt s) (log s ++ [e])).

End Notebook.

Notation "x <- m ;; k" := (bind m (fun x => k))
  (at level 62, m at next level, right associativity).
Notation "m ;;; k" := (bind m (fun _ => k))
  (at level 62, right associativity).

Section Loops.
Context `{Runtime}.

(** [for x in xs: body(x)] *)
Fixpoint for_each {A} (xs : list A) (body : A -> M unit) : M unit :=
  match xs with
  | [] => ret tt
  | x :: xs' => body x ;;; for_each xs' body
  end.

(** The same loop around lists that the body appends to: they are passed
    from one turn to the next. *)
Fixpoint for_fold {A B} (xs : list A) (acc : B) (body : B -> A -> M B) : M B :=
  match xs with
  | [] => ret acc
  | x :: xs' => acc' <- body acc x ;; for_fold xs' acc' body
  end.

End Loops.

(** [range(n)] *)
Definition py_range (n : Z) : list Z := map Z.of_nat (seq 0 (Z.to_nat n)).

(** ** Parsing the annotation files *)

Section Annotations.
Context `{Runtime}.

Definition parse_annotation (annotation_file : string) : M Annotation :=
  root <- read_fs (fun f => ET_parse f annotation_file) ;;
  lift (
    let? filename := find_text root ["filename"] in
    let? width := (let? t := find_text root ["size"; "width"] in int_of_text t) in
    let? height := (let? t := find_text root ["size"; "height"] in int_of_text t) in
    let? class := find_text root ["object"; "name"] in
    let? xmin := (let? t := find_text root ["object"; "bndbox"; "xmin"] in int_of_text t) in
    let? ymin := (let? t := find_text root ["object"; "bndbox"; "ymin"] in int_of_text t) in
    let? xmax := (let? t := find_text root ["object"; "bndbox"; "xmax"] in int_of_text t) in
    let? ymax := (let? t := find_text root ["object"; "bndbox"; "ymax"] in int_of_text t) in
    Ok (<["filename" := of_text filename]>
        (<["width" := VInt width]>
        (<["height" := VInt height]>
        (<["class" := of_text class]>
        (<["xmin" := VInt xmin]>
        (<["ymin" := VInt ymin]>
        (<["xmax" := VInt xmax]>
        (<["ymax" := VInt ymax]> (∅ : Annotation)))))))))).

(** The cell that loads all annotations: every file of every folder is
    parsed and appended, in the order [os.listdir] gives. *)
Definition load_annotations (annotations_path : string) : M (list Annotation) :=
  folders <- read_fs (fun f => os_listdir f annotations_path) ;;
  for_fold folders [] (fun annotations annotation_folder =>
    let folder_path := os_path_join annotations_path annotation_folder in
    files <- read_fs (fun f => os_listdir f folder_path) ;;
    for_fold files annotations (fun annotations annotation_file =>
      let annotation_path := os_path_join folder_path annotation_file in
      annotation_data <- parse_annotation annotation_path ;;
      ret (annotations ++ [annotation_data]))).

End Annotations.

(** ** Normalisation and preprocessing *)

Definition float_of_byte (b : byte) : float :=
  PrimFloat.of_uint63 (Uint63.of_Z (Z.of_N (Byte.to_N b))).

(** [image / 255.0] on an array of unsigned bytes *)
Definition normalize_image (image : ndarray byte) : ndarray float :=
  np_map (fun v => (float_of_byte v / 255)%float) image.

(** An operand of integer arithmetic. *)
Definition as_int (v : Value) : Result Z :=
  match v with
  | VInt z => Ok z
  | _ => Raise TypeError
  end.

(** [v + suffix] for a string literal [suffix] *)
Definition str_add (v : Value) (suffix : string) : Result string :=
  match v with
  | VStr s => Ok (s +:+ suffix)
  | _ => Raise TypeError
  end.

(** The box of the crop: the bounding box cut to a square from its top-left
    corner.  Coordinates are Python integers. *)
Definition bbox_of (annotation_data : Annotation) : Result (Z * Z * Z * Z) :=
  let? xmin := getitem annotation_data "xmin" in
  let? ymin := getitem annotation_data "ymin" in
  let? xmax := getitem annotation_data "xmax" in
  let? ymax := getitem annotation_data "ymax" in
  let? xmin := as_int xmin in
  let? xmax := as_int xmax in
  let? ymin := as_int ymin in
  let? ymax := as_int ymax in
  let w := Z.min (xmax - xmin) (ymax - ymin) in
  Ok (xmin, ymin, xmin + w, ymin + w).

Section Preprocessing.
Context `{Runtime}.

(** The block under [if image is not None]: crop, resize, normalise. *)
Definition preprocess_image (image : Image) (annotation_data : Annotation)
  : Result (ndarray float) :=
  let? bbox := bbox_of annotation_data in
  let? cropped_image := crop image bbox in
  let resized_image := resize cropped_image (128, 128) in
  Ok (normalize_image (np_array resized_image)).

(** [try: image = Image.open(image_path) / except FileNotFoundError]:
    [None] stands for the handled exception. *)
Definition try_open (image_path : string) : M (option Image) :=
  fun s =>
    match Image_open (fs s) image_path with
    | Ok image => (Ok (Some image), s)
    | Raise FileNotFoundError => (Ok None, s)
    | Raise e => (Raise e, s)
    end.

(** One turn of the inner loop, for the annotation file at [annotation_path];
    [acc] holds the lists [processed_images] and [annotations]. *)
Definition preprocess_record (images_path : string)
    (acc : list (ndarray float) * list Annotation) (annotation_path : string)
  : M (list (ndarray float) * list Annotation) :=
  annotation_data <- parse_annotation annotation_path ;;
  filename <- lift (getitem annotation_data "filename") ;;
  image_file <- lift (str_add filename ".jpg") ;;
  let image_path := os_path_join images_path image_file in
  if contains "%s" image_path then ret acc
  else
    opened <- try_open image_path ;;
    match opened with
    | None => ret acc
    | Some image =>
        normalized_image <- lift (preprocess_image image annotation_data) ;;
        ret ((fst acc ++ [normalized_image]), (snd acc ++ [annotation_data]))
    end.

Definition preprocess_all (images_path annotations_path : string)
  : M (list (ndarray float) * list Annotation) :=
  folders <- read_fs (fun f => os_listdir f annotations_path) ;;
  for_fold folders ([], []) (fun acc annotation_folder =>
    let folder_path := os_path_join annotations_path annotation_folder in
    files <- read_fs (fun f => os_listdir f folder_path) ;;
    for_fold files acc (fun acc annotation_file =>
      preprocess_record images_path acc (os_path_join folder_path annotation_file))).

Definition load_and_preprocess_images (images_path annotations_path : string)
  : M (ndarray float * list Annotation) :=
  acc <- preprocess_all images_path annotations_path ;;
  processed_images <- lift (np_stack (fst acc)) ;;
  ret (processed_images, snd acc).

End Preprocessing.

(** ** The training loop *)

(** [np.add] on what [train_on_batch] returns, with broadcasting. *)
Definition np_add (a b : Loss) : Result Loss :=
  match a, b with
  | Scalar x, Scalar y => Ok (Scalar (x + y)%float)
  | Scalar x, Metrics ys => Ok (Metrics (map (fun y => (x + y)%float) ys))
  | Metrics xs, Scalar y => Ok (Metrics (map (fun x => (x + y)%float) xs))
  | Metrics xs, Metrics ys =>
      if (length xs =? length ys)%nat
      then Ok (Metrics (map (fun p => (fst p + snd p)%float) (combine xs ys)))
      else match xs, ys with
           | [x], _ => Ok (Metrics (map (fun y => (x + y)%float) ys))
           | _, [y] => Ok (Metrics (map (fun x => (x + y)%float) xs))
           | _, _ => Raise ValueError
           end
  end.

(** [k * l] *)
Definition np_scale (k : float) (l : Loss) : Loss :=
  match l with
  | Scalar x => Scalar (k * x)%float
  | Metrics xs => Metrics (map (fun x => (k * x)%float) xs)
  end.

(** [l[i]] *)
Definition loss_item (l : Loss) (i : nat) : Result float :=
  match l with
  | Scalar _ => Raise IndexError
  | Metrics xs =>
      match nth_error xs i with
      | Some x => Ok x
      | None => Raise IndexError
      end
  end.

(** [a % b] *)
Definition py_mod (a b : Z) : Result Z :=
  if b =? 0 then Raise ZeroDivisionError else Ok (a mod b).

(** [f"{folder}/gan_generated_image_epoch_{epoch}.png"] *)
Definition image_name (folder : string) (epoch : Z) : string :=
  folder +:+ "/gan_generated_image_epoch_" +:+ str_of_int epoch +:+ ".png".

Section Training.
Context `{Runtime}.

Definition save_images (generator : Model) (epoch : Z) (folder : string) : M unit :=
  noise <- call (np_random_normal 25 100) (EvNormal 25 100) ;;
  gen_imgs <- call (predict generator noise) (EvPredict Generator noise) ;;
  let gen_imgs := np_map (fun x => (0.5 * x + 0.5)%float) gen_imgs in
  (* the 5 x 5 grid shows gen_imgs[0] .. gen_imgs[24], row by row *)
  shown <- lift (collect (map (np_row gen_imgs)
                   (flat_map (fun i => map (fun j => 5 * i + j) (py_range 5)) (py_range 5)))) ;;
  emit (EvShow shown) ;;;
  call (fig_savefig (image_name folder epoch) shown)
       (fun _ => EvSaveFig (image_name folder epoch)).

(** The training part of one turn of the loop; [processed_images] is the
    notebook's global array. *)
Definition train_step (processed_images : ndarray float)
    (gan generator discriminator : Model) (batch_size : Z)
    (valid fake : ndarray float) : M (Loss * Loss) :=
  n <- lift (shape0 processed_images) ;;
  idx <- call (np_random_randint 0 n batch_size) (EvRandint 0 n batch_size) ;;
  real_imgs <- lift (np_take processed_images idx) ;;
  noise <- call (np_random_normal batch_size 100) (EvNormal batch_size 100) ;;
  gen_imgs <- call (predict generator noise) (EvPredict Generator noise) ;;
  d_loss_real <- call (train_on_batch discriminator real_imgs valid)
                      (EvTrain Discriminator real_imgs valid) ;;
  d_loss_fake <- call (train_on_batch discriminator gen_imgs fake)
                      (EvTrain Discriminator gen_imgs fake) ;;
  d_loss <- lift (let? sum := np_add d_loss_real d_loss_fake in Ok (np_scale 0.5 sum)) ;;
  noise <- call (np_random_normal batch_size 100) (EvNormal batch_size 100) ;;
  g_loss <- call (train_on_batch gan noise valid) (EvTrain Gan noise valid) ;;
  ret (d_loss, g_loss).

(** The report at the end of a turn. *)
Definition report (generator : Model) (save_interval epoch : Z) (d_loss g_loss : Loss)
  : M unit :=
  r <- lift (py_mod epoch save_interval) ;;
  if (r =? 0) || (epoch =? 0) then
    d0 <- lift (loss_item d_loss 0) ;;
    d1 <- lift (loss_item d_loss 1) ;;
    emit (EvPrint epoch d0 (100 * d1)%float g_loss) ;;;
    save_images generator epoch "images/"
  else ret tt.

Definition train_iteration (processed_images : ndarray float)
    (gan generator discriminator : Model) (batch_size save_interval : Z)
    (valid fake : ndarray float) (epoch : Z) : M unit :=
  losses <- train_step processed_images gan generator discriminator batch_size valid fake ;;
  report generator save_interval epoch (fst losses) (snd losses).

Definition train_gan (processed_images : ndarray float)
    (gan generator discriminator : Model) (epochs batch_size save_interval : Z) : M unit :=
  valid <- lift (np_ones batch_size 1) ;;
  fake <- lift (np_zeros batch_size 1) ;;
  for_each (py_range epochs)
    (train_iteration processed_images gan generator discriminator
       batch_size save_interval valid fake).

End Training.

(** ** What a run shows: projections of the log *)

(** The grids of samples: shown, then written to a file. *)
Inductive Grid : Type :=
| Shown
| Saved (path : string).

Definition grid_of (e : Event) : option Grid :=
  match e with
  | EvShow _ => Some Shown
  | EvSaveFig path => Some (Saved path)
  | _ => None
  end.

(** The model and the target array of a training call. *)
Definition trained (e : Event) : option (Which * ndarray float) :=
  match e with
  | EvTrain m _ y _ => Some (m, y)
  | _ => None
  end.

(** A turn of the loop opens with its draw of indices and closes its
    training part with the update of the generator. *)
Definition turn_started (e : Event) : option unit :=
  match e with
  | EvRandint _ _ _ _ => Some tt
  | _ => None
  end.

Definition turn_trained (e : Event) : option unit :=
  match e with
  | EvTrain Gan _ _ _ => Some tt
  | _ => None
  end.

(** The label arrays of [train_gan]. *)
Definition column (v : float) (batch_size : Z) : ndarray float :=
  mk_ndarray [Z.to_nat batch_size; 1%nat] (repeat v (Z.to_nat batch_size * 1)).

(** A value of a normalised image lies between 0 and 1. *)
Definition unit_interval (x : float) : Prop :=
  PrimFloat.leb 0 x = true /\ PrimFloat.leb x 1 = true.

(** A computation that only reads the file system: its result is a function
    of the files and it leaves the state as it found it. *)
Definition reads_files `{Runtime} {A} (m : M A) : Prop :=
  forall s, snd (m s) = s /\ forall s', fs s' = fs s -> fst (m s') = fst (m s).

(** [m] appends to the log events whose projection under [f] is [pat] when
    it returns, and an initial part of [pat] when it raises. *)
Definition emits `{Runtime} {A B} (f : Event -> option B) (pat : list B) (m : M A) : Prop :=
  forall s, exists d,
    log (snd (m s)) = (log s ++ d) /\
    match fst (m s) with
    | Ok _ => omap f d = pat
    | Raise _ => omap f d `prefix_of` pat
    end.

(** ** A small world to run the notebook in *)

Module Sample.

(** Draws are replaced by a counter: the indices walk through the range and
    the noise is constant. *)
Definition noise (rows cols : Z) : ndarray float :=
  mk_ndarray [Z.to_nat rows; Z.to_nat cols]
    (repeat 0.25%float (Z.to_nat rows * Z.to_nat cols)).

#[export] Instance runtime : Runtime := {|
  Rt := nat;
  np_random_randint low high size rt :=
    if high <=? low then (Raise ValueError, rt)
    else (Ok (map (fun k => low + Z.of_nat (rt + k) mod (high - low))
                  (seq 0 (Z.to_nat size))), S rt);
  np_random_normal rows cols rt := (Ok (noise rows cols), S rt);
  fig_savefig path imgs rt := (Ok tt, rt);
  resample image w h x y c :=
    getpixel image (x * width image / w) (y * height image / h) c
|}.

(** The models answer with one value for each row they are given and
    report constant losses. *)
Definition rows_of (x : ndarray float) : nat := hd 0%nat (shape x).

Definition answer (x : ndarray float) : ndarray float :=
  mk_ndarray [rows_of x; 1%nat] (repeat 0.5%float (rows_of x)).

Definition generator : Model :=
  mk_model (fun x rt => (Ok (answer x), rt)) (fun x y rt => (Ok (Scalar 0%float), rt)).

Definition discriminator : Model :=
  mk_model (fun x rt => (Ok (answer x), rt))
           (fun x y rt => (Ok (Metrics [0.75%float; 0.5%float]), rt)).

Definition gan : Model :=
  mk_model (fun x rt => (Ok (answer x), rt)) (fun x y rt => (Ok (Scalar 1.5%float), rt)).

(** Three training images of two values each. *)
Definition processed_images : ndarray float :=
  mk_ndarray [3%nat; 2%nat] [0; 0.125; 0.25; 0.375; 0.5; 0.625]%float.

Definition annotation_xml (filename : string) (xmin ymin xmax ymax : string) : Element :=
  Elem "annotation" None
    [ Elem "folder" (Some "02085620") [];
      Elem "filename" (Some filename) [];
      Elem "size" None
        [ Elem "width" (Some "500") []; Elem "height" (Some "375") [];
          Elem "depth" (Some "3") [] ];
      Elem "object" None
        [ Elem "name" (Some "Chihuahua") [];
          Elem "bndbox" None
            [ Elem "xmin" (Some xmin) []; Elem "ymin" (Some ymin) [];
              Elem "xmax" (Some xmax) []; Elem "ymax" (Some ymax) [] ] ] ].

(** The same file without its bounding box. *)
Definition no_box_xml : Element :=
  Elem "annotation" None
    [ Elem "filename" (Some "n02085620_7") [];
      Elem "size" None [ Elem "width" (Some "500") []; Elem "height" (Some "375") [] ];
      Elem "object" None [ Elem "name" (Some "Chihuahua") [] ] ].

Definition shade (x y : Z) (c : nat) : byte :=
  match Byte.of_N (Z.to_N ((x + 2 * y + 40 * Z.of_nat c) mod 256)) with
  | Some b => b
  | None => x00
  end.

Definition colour_image : Image := mk_image RGB 500 375 shade.
Definition grey_image : Image := mk_image L 500 375 shade.

(** Look-up in a table of paths. *)
Fixpoint at_path {A} (table : list (string * Result A)) (path : string) : Result A :=
  match table with
  | [] => Raise FileNotFoundError
  | (p, r) :: table' => if String.eqb p path then r else at_path table' path
  end.

(** [Annotation/] is in order; one file of [Damaged/] is no XML and one has
    lost its bounding box.  Of the four images named, one is in colour, one
    is grey, one is missing and one has the placeholder name [%s]. *)
Definition files : FileSystem := {|
  os_listdir := at_path
    [ ("Annotation/", Ok ["n02085620-Chihuahua"]);
      ("Annotation/n02085620-Chihuahua",
        Ok ["n02085620_7"; "n02085620_199"; "n02085620_242"; "n02085620_275"]);
      ("Damaged/", Ok ["n02085620-Chihuahua"]);
      ("Damaged/n02085620-Chihuahua", Ok ["n02085620_242"; "n02085620_500"; "n02085620_7"]) ];
  ET_parse := at_path
    [ ("Annotation/n02085620-Chihuahua/n02085620_7",
        Ok (annotation_xml "n02085620_7" "71" "1" "192" "180"));
      ("Annotation/n02085620-Chihuahua/n02085620_199",
        Ok (annotation_xml "n02085620_199" "25" "10" "276" "498"));
      ("Annotation/n02085620-Chihuahua/n02085620_242",
        Ok (annotation_xml "n02085620_242" "0" "0" "100" "90"));
      ("Annotation/n02085620-Chihuahua/n02085620_275",
        Ok (annotation_xml "%s" "0" "0" "100" "90"));
      ("Annotation/n02085620-Chihuahua/n02085620_326",
        Ok (annotation_xml "n02085620_326" "0" "0" "100" "90"));
      ("Damaged/n02085620-Chihuahua/n02085620_242",
        Ok (annotation_xml "n02085620_242" "0" "0" "100" "90"));
      ("Damaged/n02085620-Chihuahua/n02085620_500", Raise ParseError);
      ("Damaged/n02085620-Chihuahua/n02085620_7", Ok no_box_xml) ];
  Image_open := at_path
    [ ("all-dogs/n02085620_7.jpg", Ok colour_image);
      ("all-dogs/n02085620_199.jpg", Ok grey_image);
      ("all-dogs/n02085620_326.jpg", Raise (OSError "cannot identify image file")) ]
|}.

(** The record [parse_annotation] makes of a file of [annotation_xml]. *)
Definition record (filename : string) (xmin ymin xmax ymax : Z) : Annotation :=
  <["filename" := VStr filename]>
  (<["width" := VInt 500]>
  (<["height" := VInt 375]>
  (<["class" := VStr "Chihuahua"]>
  (<["xmin" := VInt xmin]>
  (<["ymin" := VInt ymin]>
  (<["xmax" := VInt xmax]>
  (<["ymax" := VInt ymax]> ∅))))))).

Definition start : State := mk_state files 0%nat [].

(** The same files seen after the libraries have been used. *)
Definition later : State :=
  mk_state files 7%nat [EvSaveFig "images//gan_generated_image_epoch_0.png"].

End Sample.

(** ** Well-formed and malformed annotation files *)

(** The element a path finds has the given text. *)
Definition text_at (root : Element) (path : list string) (t : option string) : Prop :=
  exists e, find root path = Some e /\ text e = t.

(** The element a path finds holds the given integer. *)
Definition int_at (root : Element) (path : list string) (z : Z) : Prop :=
  exists e t, find root path = Some e /\ text e = Some t /\ py_int t = Some z.

(** The eight elements [parse_annotation] reads, in the order it reads them. *)
Definition required_paths : list (list string) :=
  [ ["filename"]; ["size"; "width"]; ["size"; "height"]; ["object"; "name"];
    ["object"; "bndbox"; "xmin"]; ["object"; "bndbox"; "ymin"];
    ["object"; "bndbox"; "xmax"]; ["object"; "bndbox"; "ymax"] ].

(** A file that is no XML, or whose tree lacks a required element. *)
Definition malformed (files : FileSystem) (annotation_file : string) : Prop :=
  raises (ET_parse files annotation_file) \/
  exists root path,
    ET_parse files annotation_file = Ok root /\ In path required_paths /\ find root path = None.

(** The annotation file [file] of the folder [folder] is met when the folders
    of [annotations_path] are walked. *)
Definition listed (files : FileSystem) (annotations_path folder file : string) : Prop :=
  exists folders names,
    os_listdir files annotations_path = Ok folders /\ In folder folders /\
    os_listdir files (os_path_join annotations_path folder) = Ok names /\ In file names.

(** The annotation files in the order in which the two loops meet them. *)
Definition annotation_paths (files : FileSystem) (annotations_path : string)
  : Result (list string) :=
  let? folders := os_listdir files annotations_path in
  let? per_folder :=
    collect (map (fun annotation_folder =>
                    let folder_path := os_path_join annotations_path annotation_folder in
                    let? names := os_listdir files folder_path in
                    Ok (map (os_path_join folder_path) names))
                 folders) in
  Ok (concat per_folder).

(** ** What the training loop is expected to show *)

(** The labels of the three training calls of a turn. *)
Definition labels_of_turn (batch_size : Z) : list (Which * ndarray float) :=
  [ (Discriminator, column 1 batch_size);
    (Discriminator, column 0 batch_size);
    (Gan, column 1 batch_size) ].

(** The epochs at the end of which a grid of samples is saved. *)
Definition saving_epochs (epochs save_interval : Z) : list Z :=
  List.filter (fun epoch => epoch mod save_interval =? 0) (py_range epochs).

(** What saving the grid of an epoch shows. *)
Definition grid_of_epoch (epoch : Z) : list Grid :=
  [Shown; Saved (image_name "images/" epoch)].

(** [m] always returns, with a value that satisfies [P]. *)
Definition yields `{Runtime} {A} (P : A -> Prop) (m : M A) : Prop :=
  forall s, exists a s', m s = (Ok a, s') /\ P a.

(** Libraries and models that keep their contracts: the draws succeed, with
    indices inside the range and noise of the shape asked for; the generator
    answers with one row for each row it is given; the discriminator, compiled
    with a metric, returns its loss and its accuracy; writing the figure
    succeeds. *)
Record dependable `{Runtime} (processed_images : ndarray float)
    (gan generator discriminator : Model) (batch_size : Z) : Prop := {
  images_have_rows : exists n, shape0 processed_images = Ok n;
  randint_in_range : forall n rt,
    shape0 processed_images = Ok n ->
    exists idx rt',
      np_random_randint 0 n batch_size rt = (Ok idx, rt') /\
      Forall (fun i => 0 <= i < n) idx;
  normal_shape : forall rows cols rt,
    exists noise rt',
      np_random_normal rows cols rt = (Ok noise, rt') /\
      shape noise = [Z.to_nat rows; Z.to_nat cols];
  predict_rows : forall x rt,
    exists out rt' rest,
      predict generator x rt = (Ok out, rt') /\ shape out = hd 0%nat (shape x) :: rest;
  discriminator_metrics : forall x y rt,
    exists loss acc rt',
      train_on_batch discriminator x y rt = (Ok (Metrics [loss; acc]), rt');
  gan_loss : forall x y rt,
    exists loss rt', train_on_batch gan x y rt = (Ok loss, rt');
  savefig_writes : forall path imgs rt,
    exists rt', fig_savefig path imgs rt = (Ok tt, rt')
}.

(** ** The table of annotations ([pandas.DataFrame])

    A table has its columns and its rows; the rows are dictionaries that
    hold a value for every column, as the records of [parse_annotation] do,
    and the cells read by the cleaning cell are integers. *)

Record DataFrame : Type := mk_frame {
  df_columns : gset string;
  df_rows : list Annotation
}.

(** [pd.DataFrame(records)]: the columns are the keys of the records. *)
Definition pd_DataFrame (records : list Annotation) : DataFrame :=
  mk_frame (⋃ (dom <$> records)) records.

(** The integer in a cell. *)
Definition int_cell (row : Annotation) (name : string) : Result Z :=
  let? v := getitem row name in as_int v.

(** [df[name]] for a column of integers; a name that is no column is a key
    error. *)
Definition int_column (df : DataFrame) (name : string) : Result (list Z) :=
  if bool_decide (name ∈ df_columns df)
  then collect (map (fun row => int_cell row name) (df_rows df))
  else Raise KeyError.

(** [df[[a, b]].min(axis=1)]: the smaller of two columns, row by row. *)
Definition min_of_columns (df : DataFrame) (a b : string) : Result (list Z) :=
  if bool_decide (a ∈ df_columns df) && bool_decide (b ∈ df_columns df)
  then collect (map (fun row =>
                       let? x := int_cell row a in
                       let? y := int_cell row b in
                       Ok (Z.min x y)) (df_rows df))
  else Raise KeyError.

(** [df[name] = values], the values being in the order of the rows. *)
Definition set_column (df : DataFrame) (name : string) (values : list Z) : DataFrame :=
  mk_frame ({[name]} ∪ df_columns df)
           (zip_with (fun row v => <[name := VInt v]> row) (df_rows df) values).

(** [df[mask]]: the rows at which the mask holds. *)
Fixpoint select_rows (rows : list Annotation) (mask : list bool) : list Annotation :=
  match rows, mask with
  | row :: rows', keep :: mask' =>
      if keep then row :: select_rows rows' mask' else select_rows rows' mask'
  | _, _ => []
  end.

(** [s1 & s2] *)
Definition mask_and (m1 m2 : list bool) : list bool := zip_with andb m1 m2.

(** The cell "Data Cleaning and Transformation": the four coordinates are
    cut to the size of the image, then the rows that fail one of the four
    tests are dropped. *)
Definition clean_annotations (annotations_df : DataFrame) : Result DataFrame :=
  let? xmin := min_of_columns annotations_df "xmin" "width" in
  let annotations_df := set_column annotations_df "xmin" xmin in
  let? ymin := min_of_columns annotations_df "ymin" "height" in
  let annotations_df := set_column annotations_df "ymin" ymin in
  let? xmax := min_of_columns annotations_df "xmax" "width" in
  let annotations_df := set_column annotations_df "xmax" xmax in
  let? ymax := min_of_columns annotations_df "ymax" "height" in
  let annotations_df := set_column annotations_df "ymax" ymax in
  let? xmin := int_column annotations_df "xmin" in
  let? ymin := int_column annotations_df "ymin" in
  let? xmax := int_column annotations_df "xmax" in
  let? width := int_column annotations_df "width" in
  let? ymax := int_column annotations_df "ymax" in
  let? height := int_column annotations_df "height" in
  let mask :=
    mask_and (mask_and (mask_and (map (fun x => 0 <=? x) xmin) (map (fun y => 0 <=? y) ymin))
                       (zip_with Z.leb xmax width))
             (zip_with Z.leb ymax height) in
  Ok (mk_frame (df_columns annotations_df) (select_rows (df_rows annotations_df) mask)).

(** A row with its six integers. *)
Definition boxed (row : Annotation) (width height xmin ymin xmax ymax : Z) : Prop :=
  row !! "width" = Some (VInt width) /\ row !! "height" = Some (VInt height) /\
  row !! "xmin" = Some (VInt xmin) /\ row !! "ymin" = Some (VInt ymin) /\
  row !! "xmax" = Some (VInt xmax) /\ row !! "ymax" = Some (VInt ymax).

Definition has_box (row : Annotation) : Prop :=
  exists width height xmin ymin xmax ymax, boxed row width height xmin ymin xmax ymax.

(** The six columns the cleaning cell reads. *)
Definition box_columns : gset string :=
  {[ "width"; "height"; "xmin"; "ymin"; "xmax"; "ymax" ]}.

(** A table the cleaning cell can work on. *)
Definition table_of_boxes (df : DataFrame) : Prop :=
  box_columns ⊆ df_columns df /\ Forall has_box (df_rows df).

(** What the cell makes of a row, and the rows it keeps. *)
Definition clamp_row (row : Annotation) : Annotation :=
  match int_cell row "width", int_cell row "height", int_cell row "xmin",
        int_cell row "ymin", int_cell row "xmax", int_cell row "ymax" with
  | Ok width, Ok height, Ok xmin, Ok ymin, Ok xmax, Ok ymax =>
      <["ymax" := VInt (Z.min ymax height)]>
      (<["xmax" := VInt (Z.min xmax width)]>
      (<["ymin" := VInt (Z.min ymin height)]>
      (<["xmin" := VInt (Z.min xmin width)]> row)))
  | _, _, _, _, _, _ => row
  end.

Definition kept_row (row : Annotation) : bool :=
  match int_cell row "width", int_cell row "height", int_cell row "xmin",
        int_cell row "ymin" with
  | Ok width, Ok height, Ok xmin, Ok ymin =>
      (0 <=? width) && (0 <=? height) && (0 <=? xmin) && (0 <=? ymin)
  | _, _, _, _ => false
  end.

(** A box inside its image. *)
Definition within_image (row : Annotation) : Prop :=
  exists width height xmin ymin xmax ymax,
    boxed row width height xmin ymin xmax ymax /\
    0 <= xmin <= width /\ 0 <= ymin <= height /\ xmax <= width /\ ymax <= height.

(** The integer of a cell, 0 where there is none. *)
Definition z_of (row : Annotation) (name : string) : Z :=
  match row !! name with
  | Some (VInt z) => z
  | _ => 0
  end.

(** The names of [box_columns]. *)
Definition box_names : list string := ["width"; "height"; "xmin"; "ymin"; "xmax"; "ymax"].

(** Rows with an integer in each of the six cells. *)
Definition has_ints (row : Annotation) : Prop :=
  Forall (fun name => exists z, row !! name = Some (VInt z)) box_names.

(** One assignment of the cell: a column is replaced by its minimum with
    another. *)
Definition cut (name bound : string) (row : Annotation) : Annotation :=
  <[name := VInt (Z.min (z_of row name) (z_of row bound))]> row.

(** A record that [parse_annotation] has returned. *)
Definition parsed `{Runtime} (d : Annotation) : Prop :=
  exists annotation_file s, fst (parse_annotation annotation_file s) = Ok d.

(** Tables to try the cleaning on. *)
Module Tables.

(** A box inside its image, a negative xmin, an xmin beyond the width with
    an xmax before it, a ymax beyond the height. *)
Definition raw : DataFrame :=
  pd_DataFrame [ Sample.record "n02085620_7" 71 1 192 180;
                 Sample.record "n02085620_199" (-3) 10 276 300;
                 Sample.record "n02085620_242" 700 10 20 30;
                 Sample.record "n02085620_275" 5 6 90 400 ].

Definition cleaned : DataFrame :=
  mk_frame (df_columns raw)
    [ Sample.record "n02085620_7" 71 1 192 180;
      Sample.record "n02085620_242" 500 10 20 30;
      Sample.record "n02085620_275" 5 6 90 375 ].

End Tables.

(** An array and the record it was made for: the record was parsed from a
    file and the array is the processed form of some image. *)
Definition processed `{Runtime} (a : ndarray float) (d : Annotation) : Prop :=
  parsed d /\ exists image, preprocess_image image d = Ok a.

(** An array whose data fill its shape. *)
Definition well_shaped {A} (a : ndarray A) : Prop := length (data a) = size_of (shape a).

(** A folder of annotations whose images, where they exist, are in colour. *)
Module Colour.

Definition files : FileSystem := {|
  os_listdir := Sample.at_path
    [ ("Annotation/", Ok ["n02085620-Chihuahua"]);
      ("Annotation/n02085620-Chihuahua",
        Ok ["n02085620_7"; "n02085620_242"; "n02085620_368"]) ];
  ET_parse := Sample.at_path
    [ ("Annotation/n02085620-Chihuahua/n02085620_7",
        Ok (Sample.annotation_xml "n02085620_7" "71" "1" "192" "180"));
      ("Annotation/n02085620-Chihuahua/n02085620_242",
        Ok (Sample.annotation_xml "n02085620_242" "0" "0" "100" "90"));
      ("Annotation/n02085620-Chihuahua/n02085620_368",
        Ok (Sample.annotation_xml "n02085620_368" "10" "20" "300" "200")) ];
  Image_open := Sample.at_path
    [ ("all-dogs/n02085620_7.jpg", Ok Sample.colour_image);
      ("all-dogs/n02085620_368.jpg", Ok Sample.colour_image) ]
|}.

Definition start : @State Sample.runtime := @mk_state Sample.runtime files 0%nat [].

End Colour.

(** An annotation file that describes two dogs. *)
Module TwoDogs.

Definition second_dog : Element :=
  Elem "object" None
    [ Elem "name" (Some "Pekinese") [];
      Elem "bndbox" None
        [ Elem "xmin" (Some "200") []; Elem "ymin" (Some "30") [];
          Elem "xmax" (Some "420") []; Elem "ymax" (Some "310") [] ] ].

Definition two_dogs_xml : Element :=
  let 'Elem tag text children := Sample.annotation_xml "n02085620_7" "71" "1" "192" "180" in
  Elem tag text (children ++ [second_dog]).

Definition files : FileSystem := {|
  os_listdir := Sample.at_path [];
  ET_parse := Sample.at_path
    [ ("Annotation/n02085620-Chihuahua/n02085620_7", Ok two_dogs_xml) ];
  Image_open := Sample.at_path []
|}.

Definition start : @State Sample.runtime := @mk_state Sample.runtime files 0%nat [].

End TwoDogs.

(** ** The preview of the first processed image *)

(** The integer part of a float, where it has one. *)
Definition trunc (x : float) : option Z :=
  match Prim2SF x with
  | S754_zero _ => Some 0
  | S754_finite negative m e =>
      let magnitude :=
        match e with
        | Z0 => Zpos m
        | Zpos p => Z.shiftl (Zpos m) (Zpos p)
        | Zneg p => Z.shiftr (Zpos m) (Zpos p)
        end in
      Some (if negative then - magnitude else magnitude)
  | S754_infinity _ | S754_nan => None
  end.

Definition byte_of_Z (z : Z) : byte :=
  match Byte.of_N (Z.to_N z) with
  | Some b => b
  | None => x00
  end.

(** [x.astype('uint8')] on a float: the fraction is cut off.  What a value
    outside 0..255 becomes is left to the platform; [overflow] stands for
    it. *)
Definition astype_uint8 (overflow : float -> byte) (x : float) : byte :=
  match trunc x with
  | Some z => if (0 <=? z) && (z <=? 255) then byte_of_Z z else overflow x
  | None => overflow x
  end.

(** The pixels of [cv2.cvtColor(a, cv2.COLOR_BGR2RGB)]: the first and third
    channel change places, a fourth one is dropped. *)
Fixpoint bgr2rgb3 (l : list byte) : list byte :=
  match l with
  | b :: g :: r :: l' => r :: g :: b :: bgr2rgb3 l'
  | _ => []
  end.

Fixpoint bgr2rgb4 (l : list byte) : list byte :=
  match l with
  | b :: g :: r :: _ :: l' => r :: g :: b :: bgr2rgb4 l'
  | _ => []
  end.

(** [cv2.cvtColor(a, cv2.COLOR_BGR2RGB)]; [None] stands for the [cv2.error]
    raised for an empty array or one without three or four channels. *)
Definition cv2_cvtColor_BGR2RGB (a : ndarray byte) : option (ndarray byte) :=
  match shape a with
  | [h; w; 3%nat] =>
      if ((h =? 0) || (w =? 0))%nat then None
      else Some (mk_ndarray [h; w; 3%nat] (bgr2rgb3 (data a)))
  | [h; w; 4%nat] =>
      if ((h =? 0) || (w =? 0))%nat then None
      else Some (mk_ndarray [h; w; 3%nat] (bgr2rgb4 (data a)))
  | _ => None
  end.

(** [len(a)] *)
Definition np_len {A} (a : ndarray A) : Result Z :=
  match shape a with
  | [] => Raise TypeError
  | n :: _ => Ok (Z.of_nat n)
  end.

(** What the preview comes to: nothing is shown, an array is given to
    [plt.imshow], or [cv2.error] is raised. *)
Inductive Preview : Type :=
| NoPreview
| Previewed (shown : ndarray byte)
| Cv2Error.

(** The cell "Display the first image as a preview", up to the array handed
    to [plt.imshow]. *)
Definition preview (overflow : float -> byte) (processed_images : ndarray float)
  : Result Preview :=
  let? n := np_len processed_images in
  if 0 <? n then
    let? processed_image := np_row processed_images 0 in
    let processed_image_uint8 :=
      np_map (fun x => astype_uint8 overflow (x * 255)%float) processed_image in
    match cv2_cvtColor_BGR2RGB processed_image_uint8 with
    | Some shown => Ok (Previewed shown)
    | None => Ok Cv2Error
    end
  else Ok NoPreview.

(** The 256 bytes. *)
Definition all_bytes : list byte := map (fun k => byte_of_Z (Z.of_nat k)) (seq 0 256).

(** The files a run writes. *)
Definition written (e : Event) : option string :=
  match e with
  | EvSaveFig path => Some path
  | _ => None
  end.

(** The events of the training part of a turn. *)
Definition turn_events (batch_size n : Z) (idx : list Z)
    (real_imgs noise gen_imgs noise' valid fake : ndarray float)
    (d_loss_real d_loss_fake g_loss : Loss) : list Event :=
  [ EvRandint 0 n batch_size idx;
    EvNormal batch_size 100 noise;
    EvPredict Generator noise gen_imgs;
    EvTrain Discriminator real_imgs valid d_loss_real;
    EvTrain Discriminator gen_imgs fake d_loss_fake;
    EvNormal batch_size 100 noise';
    EvTrain Gan noise' valid g_loss ].

(** ** The search for hyperparameters *)

(** The numbers of a grid: integers and floats. *)
Inductive Num : Type :=
| Int (z : Z)
| Float (x : float).

Abbreviation Params := (gmap string Num).

(** [params[key]] *)
Definition param (params : Params) (key : string) : Result Num :=
  match params !! key with
  | Some v => Ok v
  | None => Raise KeyError
  end.

(** A dimension of an array is an integer: [np.ones((64.0, 1))] is a type
    error. *)
Definition as_dim (v : Num) : Result Z :=
  match v with
  | Int z => Ok z
  | Float _ => Raise TypeError
  end.

(** The libraries of the search: [random.choice], [random.random], and
    Keras, which builds and compiles the three models for a learning rate
    and a [beta_1] and hands back the combined model, the generator and the
    discriminator. *)
Class Search `{Runtime} : Type := {
  random_choice : list Num -> Rt -> Result Num * Rt;
  random_random : Rt -> Result float * Rt;
  build_models : Num -> Num -> Rt -> Result (Model * Model * Model) * Rt
}.

Section Tuning.
Context `{Search}.

(** A call into a library that the log does not record. *)
Definition quiet {A} (f : Rt -> Result A * Rt) : M A :=
  fun s => let (r, rt') := f (rt s) in (r, mk_state (fs s) rt' (log s)).

Definition train_gan_with_params (processed_images : ndarray float) (params : Params)
  : M float :=
  learning_rate <- lift (param params "learning_rate") ;;
  beta1 <- lift (param params "beta1") ;;
  batch_size <- lift (param params "batch_size") ;;
  models <- quiet (build_models learning_rate beta1) ;;
  let '(gan, generator, discriminator) := models in
  batch_size <- lift (as_dim batch_size) ;;
  train_gan processed_images gan generator discriminator 5000 batch_size 1000 ;;;
  quiet random_random.

(** [{key: random.choice(values) for key, values in param_grid.items()}] *)
Definition choose_params (param_grid : list (string * list Num)) : M Params :=
  for_fold param_grid ∅ (fun params item =>
    value <- quiet (random_choice (snd item)) ;;
    ret (<[fst item := value]> params)).

(** The pair of [best_params] and [best_performance] is passed from one
    trial to the next. *)
Definition random_search (processed_images : ndarray float)
    (param_grid : list (string * list Num)) (n_iter : Z) : M (option Params) :=
  best <- for_fold (py_range n_iter) (None, infinity) (fun best _ =>
    params <- choose_params param_grid ;;
    performance <- train_gan_with_params processed_images params ;;
    if (performance <? snd best)%float
    then ret (Some params, performance)
    else ret best) ;;
  ret (fst best).

(** The trials of a search, with what each one drew and measured. *)
Definition trials (processed_images : ndarray float)
    (param_grid : list (string * list Num)) (n_iter : Z) : M (list (Params * float)) :=
  for_fold (py_range n_iter) [] (fun done _ =>
    params <- choose_params param_grid ;;
    performance <- train_gan_with_params processed_images params ;;
    ret (done ++ [(params, performance)])).

End Tuning.

(** One step of the selection. *)
Definition keep_best (best : option Params * float) (trial : Params * float)
  : option Params * float :=
  if (snd trial <? snd best)%float then (Some (fst trial), snd trial) else best.

(** [best] is the choice among the trials [done]: none when no measure was
    below infinity, else the first trial whose measure no other is below. *)
Definition first_best (done : list (Params * float)) (best : option Params) : Prop :=
  match best with
  | None => Forall (fun trial => (snd trial <? infinity)%float = false) done
  | Some params =>
      exists k x,
        nth_error done k = Some (params, x) /\
        (x <? infinity)%float = true /\
        (forall j trial, nth_error done j = Some trial -> (snd trial <? x)%float = false) /\
        (forall j trial,
           nth_error done j = Some trial -> (j < k)%nat ->
           (x <? snd trial)%float = true \/ (snd trial <? infinity)%float = false)
  end.

(** A point of the grid: a value of each list, and nothing else. *)
Definition grid_point (param_grid : list (string * list Num)) (params : Params) : Prop :=
  forall key,
    match params !! key with
    | Some v => exists values, In (key, values) param_grid /\ In v values
    | None => forall values, ~ In (key, values) param_grid
    end.

(** Libraries of the search that keep their contracts: a choice among the
    values of a list that is not empty, a measure in [0, 1), and models that
    are dependable for every batch size. *)
Record search_dependable `{Search} (processed_images : ndarray float) : Prop := {
  choice_in_values : forall values rt,
    values <> [] ->
    exists v rt', random_choice values rt = (Ok v, rt') /\ In v values;
  measure_in_unit : forall rt,
    exists x rt',
      random_random rt = (Ok x, rt') /\ (0 <=? x)%float = true /\ (x <? 1)%float = true;
  models_dependable : forall learning_rate beta1 rt,
    exists gan generator discriminator rt',
      build_models learning_rate beta1 rt = (Ok (gan, generator, discriminator), rt') /\
      forall batch_size, dependable processed_images gan generator discriminator batch_size
}.

(** A grid that [train_gan_with_params] can read: no list is empty, the
    three keys are there, and the batch sizes are natural numbers. *)
Definition has_key (param_grid : list (string * list Num)) (key : string) : bool :=
  existsb (fun item => String.eqb (fst item) key) param_grid.

Definition is_size (v : Num) : bool :=
  match v with
  | Int z => 0 <=? z
  | Float _ => false
  end.

Definition searchable (param_grid : list (string * list Num)) : bool :=
  forallb (fun item => negb (Nat.eqb (length (snd item)) 0)) param_grid
  && forallb (has_key param_grid) ["learning_rate"; "beta1"; "batch_size"]
  && forallb (fun item => negb (String.eqb (fst item) "batch_size")
                          || forallb is_size (snd item)) param_grid.

(** A grid to search. *)
Module Searching.

(** The draws walk through the lists, the measures through the eighths. *)
Definition choice (values : list Num) (rt : nat) : Result Num * nat :=
  match nth_error values (Nat.modulo rt (length values)) with
  | Some v => (Ok v, S rt)
  | None => (Raise IndexError, rt)
  end.

Definition measure (rt : nat) : Result float * nat :=
  (Ok (PrimFloat.of_uint63 (Uint63.of_Z (Z.of_nat (Nat.modulo (5 * rt) 8))) / 8)%float, S rt).

Definition models (learning_rate beta1 : Num) (rt : nat)
  : Result (@Model Sample.runtime * @Model Sample.runtime * @Model Sample.runtime) * nat :=
  (Ok (Sample.gan, Sample.generator, Sample.discriminator), rt).

#[export] Instance search : @Search Sample.runtime :=
  @Build_Search Sample.runtime
    (choice : list Num -> @Rt Sample.runtime -> Result Num * @Rt Sample.runtime)
    (measure : @Rt Sample.runtime -> Result float * @Rt Sample.runtime)
    models.

Definition param_grid : list (string * list Num) :=
  [ ("learning_rate", [Float 0.5; Float 0.25; Float 0.125]);
    ("beta1", [Float 0.5; Float 0.375; Float 0.625]);
    ("batch_size", [Int 64; Int 128; Int 256]) ].

End Searching.

(** * Properties *)

(** ** The model at work on the sample *)

Example py_int_literals :
  map py_int ["500"; " 12_3 "; "-0042"; "+7"; ""; "1__2"; "12a"; "1 2"; "3.5"]
  = [Some 500; Some 123; Some (-42); Some 7; None; None; None; None; None].
Proof. reflexivity. Qed.

Example os_path_join_cases :
  os_path_join "Annotation/" "n02085620-Chihuahua" = "Annotation/n02085620-Chihuahua" /\
  os_path_join "Annotation/n02085620-Chihuahua" "n02085620_7"
    = "Annotation/n02085620-Chihuahua/n02085620_7" /\
  os_path_join "all-dogs/" "/tmp/x.jpg" = "/tmp/x.jpg".
Proof. repeat split. Qed.

Example image_name_of_epoch :
  image_name "images/" 1000 = "images//gan_generated_image_epoch_1000.png".
Proof. reflexivity. Qed.

Example find_second_object :
  find (Elem "annotation" None
          [Elem "object" None []; Elem "object" None [Elem "name" (Some "pug") []]])
       ["object"; "name"]
  = Some (Elem "name" (Some "pug") []).
Proof. reflexivity. Qed.

Example parse_sample_annotation :
  fst (parse_annotation "Annotation/n02085620-Chihuahua/n02085620_7" Sample.start)
  = Ok (Sample.record "n02085620_7" 71 1 192 180).
Proof. reflexivity. Qed.

Example parse_without_box :
  fst (parse_annotation "Damaged/n02085620-Chihuahua/n02085620_7" Sample.start)
  = Raise AttributeError.
Proof. reflexivity. Qed.

Example skip_placeholder_name :
  fst (preprocess_record "all-dogs/" ([], [])
         "Annotation/n02085620-Chihuahua/n02085620_275" Sample.start)
  = Ok ([], []).
Proof. reflexivity. Qed.

Example unidentified_image_raises :
  fst (preprocess_record "all-dogs/" ([], [])
         "Annotation/n02085620-Chihuahua/n02085620_326" Sample.start)
  = Raise (OSError "cannot identify image file").
Proof. reflexivity. Qed.

Example two_turns_of_training :
  let run := train_gan Sample.processed_images Sample.gan Sample.generator
               Sample.discriminator 2 2 5 Sample.start in
  fst run = Ok tt /\
  omap trained (log (snd run)) = labels_of_turn 2 ++ labels_of_turn 2 /\
  omap grid_of (log (snd run)) = grid_of_epoch 0.
Proof. vm_compute. repeat split; reflexivity. Qed.

(** ** Computations that only read files *)

Section ReadsFiles.
Context `{Runtime}.

Lemma reads_files_ret {A} (a : A) : reads_files (ret a).
Proof. now intros s. Qed.

Lemma reads_files_lift {A} (r : Result A) : reads_files (lift r).
Proof. now intros s. Qed.

Lemma reads_files_read_fs {A} (f : FileSystem -> Result A) : reads_files (read_fs f).
Proof. intros s. split; [reflexivity | intros s' E; unfold read_fs; simpl; now rewrite E]. Qed.

Lemma reads_files_bind {A B} (m : M A) (k : A -> M B) :
  reads_files m -> (forall a, reads_files (k a)) -> reads_files (bind m k).
Proof.
  intros Hm Hk s. destruct (Hm s) as [Hs Hf]. unfold bind.
  destruct (m s) as [r s1] eqn:E. simpl in Hs. subst s1. split.
  - destruct r; [apply Hk | reflexivity].
  - intros s' Efs. specialize (Hf s' Efs). destruct (Hm s') as [Hs' _].
    destruct (m s') as [r' s1'] eqn:E'. simpl in *. subst.
    destruct r; [now apply Hk | reflexivity].
Qed.

Lemma reads_files_try_open (image_path : string) : reads_files (try_open image_path).
Proof.
  intros s. unfold try_open. split.
  - now destruct (Image_open (fs s) image_path) as [|[]].
  - intros s' E. rewrite E. now destruct (Image_open (fs s) image_path) as [|[]].
Qed.

Lemma reads_files_for_fold {A B} (body : B -> A -> M B) (xs : list A) :
  (forall acc x, reads_files (body acc x)) -> forall acc, reads_files (for_fold xs acc body).
Proof.
  intros Hb. induction xs as [|x xs IH]; intros acc; simpl.
  - apply reads_files_ret.
  - apply reads_files_bind; [apply Hb | intros a; apply IH].
Qed.

Lemma reads_files_parse_annotation (annotation_file : string) :
  reads_files (parse_annotation annotation_file).
Proof.
  apply reads_files_bind; [apply reads_files_read_fs | intros root; apply reads_files_lift].
Qed.

Lemma reads_files_preprocess_record images_path acc annotation_path :
  reads_files (preprocess_record images_path acc annotation_path).
Proof.
  unfold preprocess_record.
  apply reads_files_bind; [apply reads_files_parse_annotation | intros d].
  apply reads_files_bind; [apply reads_files_lift | intros filename].
  apply reads_files_bind; [apply reads_files_lift | intros image_file].
  destruct (contains _ _); [apply reads_files_ret |].
  apply reads_files_bind; [apply reads_files_try_open | intros [image|]].
  - apply reads_files_bind; [apply reads_files_lift | intros a; apply reads_files_ret].
  - apply reads_files_ret.
Qed.

Lemma reads_files_load_annotations annotations_path :
  reads_files (load_annotations annotations_path).
Proof.
  apply reads_files_bind; [apply reads_files_read_fs | intros folders].
  apply reads_files_for_fold. intros acc folder.
  apply reads_files_bind; [apply reads_files_read_fs | intros files].
  apply reads_files_for_fold. intros acc' file.
  apply reads_files_bind; [apply reads_files_parse_annotation | intros d; apply reads_files_ret].
Qed.

Lemma reads_files_preprocess_all images_path annotations_path :
  reads_files (preprocess_all images_path annotations_path).
Proof.
  apply reads_files_bind; [apply reads_files_read_fs | intros folders].
  apply reads_files_for_fold. intros acc folder.
  apply reads_files_bind; [apply reads_files_read_fs | intros files].
  apply reads_files_for_fold. intros acc' file. apply reads_files_preprocess_record.
Qed.

Lemma reads_files_load_and_preprocess_images images_path annotations_path :
  reads_files (load_and_preprocess_images images_path annotations_path).
Proof.
  apply reads_files_bind; [apply reads_files_preprocess_all | intros acc].
  apply reads_files_bind; [apply reads_files_lift | intros a; apply reads_files_ret].
Qed.

(** A loop whose body only reads files raises as soon as one of its turns
    is bound to raise. *)
Lemma for_fold_raises {A B} (body : B -> A -> M B) (xs : list A) (x0 : A) (s : State) :
  (forall acc x, reads_files (body acc x)) ->
  In x0 xs ->
  (forall acc, raises (fst (body acc x0 s))) ->
  forall acc, raises (fst (for_fold xs acc body s)).
Proof.
  intros Hb Hin Hx0. induction xs as [|x xs IH]; intros acc; [destruct Hin |].
  simpl. unfold bind. destruct (Hb acc x s) as [Hs _].
  destruct (body acc x s) as [r s1] eqn:E. simpl in Hs. subst s1.
  destruct r as [acc'|e].
  - destruct Hin as [->|Hin]; [| now apply IH].
    specialize (Hx0 acc). rewrite E in Hx0. destruct Hx0 as [e He]. discriminate.
  - now exists e.
Qed.

End ReadsFiles.

(** ** Parsing *)

Section Parsing.
Context `{Runtime}.

Lemma find_text_at root path t : text_at root path t -> find_text root path = Ok t.
Proof. intros (e & Hf & <-). unfold find_text. now rewrite Hf. Qed.

Lemma find_int_at root path z :
  int_at root path z -> (let? t := find_text root path in int_of_text t) = Ok z.
Proof.
  intros (e & t & Hf & Ht & Hz). unfold find_text. rewrite Hf. simpl.
  rewrite Ht. simpl. now rewrite Hz.
Qed.

(** C5: on a valid annotation file [parse_annotation] returns a dictionary
    with exactly the keys filename, width, height, class, xmin, ymin, xmax
    and ymax; filename and class hold the texts of their elements, the other
    six the integers read from theirs. *)
Theorem parse_annotation_valid (annotation_file : string) (s : State) (root : Element)
    (filename class : option string) (width height xmin ymin xmax ymax : Z) :
  ET_parse (fs s) annotation_file = Ok root ->
  text_at root ["filename"] filename ->
  int_at root ["size"; "width"] width ->
  int_at root ["size"; "height"] height ->
  text_at root ["object"; "name"] class ->
  int_at root ["object"; "bndbox"; "xmin"] xmin ->
  int_at root ["object"; "bndbox"; "ymin"] ymin ->
  int_at root ["object"; "bndbox"; "xmax"] xmax ->
  int_at root ["object"; "bndbox"; "ymax"] ymax ->
  exists d : Annotation,
    parse_annotation annotation_file s = (Ok d, s) /\
    dom d = {[ "filename"; "width"; "height"; "class"; "xmin"; "ymin"; "xmax"; "ymax" ]} /\
    d !! "filename" = Some (of_text filename) /\
    d !! "width" = Some (VInt width) /\
    d !! "height" = Some (VInt height) /\
    d !! "class" = Some (of_text class) /\
    d !! "xmin" = Some (VInt xmin) /\
    d !! "ymin" = Some (VInt ymin) /\
    d !! "xmax" = Some (VInt xmax) /\
    d !! "ymax" = Some (VInt ymax).
Proof.
  intros Hroot Hf Hw Hh Hc Hx0 Hy0 Hx1 Hy1.
  unfold parse_annotation, bind, read_fs, lift. rewrite Hroot.
  rewrite (find_text_at _ _ _ Hf), (find_text_at _ _ _ Hc). cbn [rbind].
  rewrite (find_int_at _ _ _ Hw). cbn [rbind].
  rewrite (find_int_at _ _ _ Hh). cbn [rbind].
  rewrite (find_int_at _ _ _ Hx0). cbn [rbind].
  rewrite (find_int_at _ _ _ Hy0). cbn [rbind].
  rewrite (find_int_at _ _ _ Hx1). cbn [rbind].
  rewrite (find_int_at _ _ _ Hy1). cbn [rbind].
  eexists. split; [reflexivity |]. split.
  - rewrite !dom_insert_L, dom_empty_L. set_solver.
  - repeat split; now simplify_map_eq.
Qed.

(** Whatever [parse_annotation] returns is such a dictionary: its bounding
    box is made of four integers. *)
Lemma parse_annotation_record (annotation_file : string) (s : State) (d : Annotation) :
  fst (parse_annotation annotation_file s) = Ok d ->
  exists filename class width height xmin ymin xmax ymax,
    d = <["filename" := of_text filename]>
        (<["width" := VInt width]>
        (<["height" := VInt height]>
        (<["class" := of_text class]>
        (<["xmin" := VInt xmin]>
        (<["ymin" := VInt ymin]>
        (<["xmax" := VInt xmax]>
        (<["ymax" := VInt ymax]> ∅))))))).
Proof.
  unfold parse_annotation, bind, read_fs, lift.
  destruct (ET_parse (fs s) annotation_file) as [root|]; [| discriminate].
  repeat (cbn [rbind fst];
          match goal with
          | |- Raise _ = Ok _ -> _ => discriminate
          | |- context [rbind (rbind ?r _) _] => destruct r as [?|?]
          | |- context [rbind (int_of_text ?t) _] => destruct (int_of_text t) as [?|?]
          | |- context [rbind ?r _] => destruct r as [?|?]
          end).
  intros [= <-]. do 8 eexists. reflexivity.
Qed.

End Parsing.

Lemma parse_annotation_valid_witness :
  exists d : Annotation,
    parse_annotation "Annotation/n02085620-Chihuahua/n02085620_7" Sample.start
      = (Ok d, Sample.start) /\
    dom d = {[ "filename"; "width"; "height"; "class"; "xmin"; "ymin"; "xmax"; "ymax" ]} /\
    d !! "filename" = Some (VStr "n02085620_7") /\
    d !! "width" = Some (VInt 500) /\
    d !! "height" = Some (VInt 375) /\
    d !! "class" = Some (VStr "Chihuahua") /\
    d !! "xmin" = Some (VInt 71) /\
    d !! "ymin" = Some (VInt 1) /\
    d !! "xmax" = Some (VInt 192) /\
    d !! "ymax" = Some (VInt 180).
Proof.
  apply (parse_annotation_valid "Annotation/n02085620-Chihuahua/n02085620_7" Sample.start
           (Sample.annotation_xml "n02085620_7" "71" "1" "192" "180")
           (Some "n02085620_7") (Some "Chihuahua") 500 375 71 1 192 180).
  - reflexivity.
  - eexists; split; reflexivity.
  - do 2 eexists; repeat split; reflexivity.
  - do 2 eexists; repeat split; reflexivity.
  - eexists; split; reflexivity.
  - do 2 eexists; repeat split; reflexivity.
  - do 2 eexists; repeat split; reflexivity.
  - do 2 eexists; repeat split; reflexivity.
  - do 2 eexists; repeat split; reflexivity.
Defined.

(** ** Failures while the annotation files are read *)

Section Failures.
Context `{Runtime}.

(** Walk down a chain of fallible steps, splitting on each in turn. *)
Ltac walk_chain :=
  repeat (cbn [rbind];
          match goal with
          | |- exists e, (Raise ?e', ?s) = (Raise e, ?s) => now exists e'
          | |- context [rbind (rbind ?r _) _] => destruct r as [?|?]
          | |- context [rbind (int_of_text ?t) _] => destruct (int_of_text t) as [?|?]
          | |- context [rbind ?r _] => destruct r as [?|?]
          end).

Lemma parse_annotation_malformed (annotation_file : string) (s : State) :
  malformed (fs s) annotation_file ->
  exists e, parse_annotation annotation_file s = (Raise e, s).
Proof.
  intros [[e He] | (root & path & Hroot & Hin & Hnone)];
    unfold parse_annotation, bind, read_fs, lift.
  - rewrite He. now exists e.
  - rewrite Hroot.
    assert (Hraise : find_text root path = Raise AttributeError)
      by (unfold find_text; now rewrite Hnone).
    unfold required_paths in Hin. simpl in Hin.
    repeat (destruct Hin as [<- | Hin]; [rewrite Hraise; walk_chain |]).
    destruct Hin.
Qed.

Lemma preprocess_record_parse_raises images_path acc annotation_path s e :
  parse_annotation annotation_path s = (Raise e, s) ->
  preprocess_record images_path acc annotation_path s = (Raise e, s).
Proof. intros E. unfold preprocess_record, bind. now rewrite E. Qed.

End Failures.

Section Propagation.
Context `{Runtime}.

Lemma raises_bind {A B} (m : M A) (k : A -> M B) (s : State) :
  raises (fst (m s)) -> raises (fst (bind m k s)).
Proof.
  intros [e He]. unfold bind. destruct (m s) as [r s1]. simpl in He. subst r. now exists e.
Qed.

Lemma walk_raises {B} (body : B -> string -> M B) annotations_path folder file s :
  (forall acc annotation_path, reads_files (body acc annotation_path)) ->
  listed (fs s) annotations_path folder file ->
  (forall acc,
     raises (fst (body acc (os_path_join (os_path_join annotations_path folder) file) s))) ->
  forall acc0,
  raises (fst ((folders <- read_fs (fun f => os_listdir f annotations_path) ;;
                for_fold folders acc0 (fun acc annotation_folder =>
                  let folder_path := os_path_join annotations_path annotation_folder in
                  files <- read_fs (fun f => os_listdir f folder_path) ;;
                  for_fold files acc (fun acc annotation_file =>
                    body acc (os_path_join folder_path annotation_file)))) s)).
Proof.
  intros Hreads (folders & names & Hfolders & Hfolder & Hnames & Hfile) Hbody acc0.
  unfold bind at 1. unfold read_fs at 1. rewrite Hfolders.
  apply for_fold_raises with (x0 := folder); [| exact Hfolder |].
  - intros acc x. apply reads_files_bind; [apply reads_files_read_fs | intros l].
    apply reads_files_for_fold. intros acc' y. apply Hreads.
  - intros acc. cbv zeta. unfold bind at 1. unfold read_fs at 1. rewrite Hnames.
    apply for_fold_raises with (x0 := file); [| exact Hfile | exact Hbody].
    intros acc' y. apply Hreads.
Qed.

(** C4: an annotation file that is no well-formed XML, or that lacks one of
    the required elements, makes [parse_annotation] raise; no record comes
    back, the turn of the preprocessing loop raises the same exception, and
    both the loop that collects the annotations and
    [load_and_preprocess_images] raise when they meet such a file. *)
Theorem malformed_annotation_propagates
    (images_path annotations_path folder file : string) (s : State) :
  malformed (fs s) (os_path_join (os_path_join annotations_path folder) file) ->
  listed (fs s) annotations_path folder file ->
  (exists e,
     parse_annotation (os_path_join (os_path_join annotations_path folder) file) s
       = (Raise e, s) /\
     forall acc,
       preprocess_record images_path acc
         (os_path_join (os_path_join annotations_path folder) file) s = (Raise e, s)) /\
  raises (fst (load_annotations annotations_path s)) /\
  raises (fst (load_and_preprocess_images images_path annotations_path s)).
Proof.
  intros Hbad Hlisted.
  destruct (parse_annotation_malformed _ _ Hbad) as [e He].
  split; [exists e; split; [exact He | intros acc; now apply preprocess_record_parse_raises] |].
  split.
  - unfold load_annotations.
    apply (walk_raises (fun annotations annotation_path =>
             annotation_data <- parse_annotation annotation_path ;;
             ret (annotations ++ [annotation_data]))
             annotations_path folder file s); [| exact Hlisted |].
    + intros acc p. apply reads_files_bind; [apply reads_files_parse_annotation |].
      intros d. apply reads_files_ret.
    + intros acc. apply raises_bind. rewrite He. now exists e.
  - unfold load_and_preprocess_images. apply raises_bind. unfold preprocess_all.
    apply (walk_raises (preprocess_record images_path) annotations_path folder file s);
      [| exact Hlisted |].
    + intros acc p. apply reads_files_preprocess_record.
    + intros acc. rewrite (preprocess_record_parse_raises _ _ _ _ _ He). now exists e.
Qed.

End Propagation.

Lemma malformed_annotation_propagates_witness :
  (exists e,
     parse_annotation "Damaged/n02085620-Chihuahua/n02085620_500" Sample.start
       = (Raise e, Sample.start) /\
     forall acc,
       preprocess_record "all-dogs/" acc "Damaged/n02085620-Chihuahua/n02085620_500"
         Sample.start = (Raise e, Sample.start)) /\
  raises (fst (load_annotations "Damaged/" Sample.start)) /\
  raises (fst (load_and_preprocess_images "all-dogs/" "Damaged/" Sample.start)).
Proof.
  apply (malformed_annotation_propagates "all-dogs/" "Damaged/" "n02085620-Chihuahua"
           "n02085620_500" Sample.start).
  - left. now exists ParseError.
  - exists ["n02085620-Chihuahua"], ["n02085620_242"; "n02085620_500"; "n02085620_7"].
    repeat split; try reflexivity; simpl; tauto.
Defined.

(** ** Images that cannot be opened *)

Section MissingImages.
Context `{Runtime}.

Lemma parse_annotation_state annotation_path s d :
  fst (parse_annotation annotation_path s) = Ok d ->
  parse_annotation annotation_path s = (Ok d, s).
Proof.
  intros E. destruct (reads_files_parse_annotation annotation_path s) as [Hs _].
  destruct (parse_annotation annotation_path s) as [r s1]. simpl in *. now subst.
Qed.

(** The turn of the loop up to the opening of the image. *)
Lemma preprocess_record_open images_path acc annotation_path s d filename :
  fst (parse_annotation annotation_path s) = Ok d ->
  d !! "filename" = Some (VStr filename) ->
  preprocess_record images_path acc annotation_path s =
    if contains "%s" (os_path_join images_path (filename +:+ ".jpg")) then (Ok acc, s)
    else match Image_open (fs s) (os_path_join images_path (filename +:+ ".jpg")) with
         | Ok image =>
             match preprocess_image image d with
             | Ok a => (Ok ((fst acc ++ [a]), (snd acc ++ [d])), s)
             | Raise e => (Raise e, s)
             end
         | Raise FileNotFoundError => (Ok acc, s)
         | Raise e => (Raise e, s)
         end.
Proof.
  intros Hd Hname. unfold preprocess_record, bind at 1.
  rewrite (parse_annotation_state _ _ _ Hd).
  unfold bind at 1, lift at 1, getitem. rewrite Hname.
  unfold bind at 1, lift at 1, str_add.
  destruct (contains _ _); [reflexivity |].
  unfold bind, try_open, lift, ret.
  destruct (Image_open (fs s) _) as [image | []]; try reflexivity.
  all: now destruct (preprocess_image image d).
Qed.

(** C3: when the image of an annotation record does not exist, the turn of
    the loop returns without an error and with both lists as they were, and
    the loop goes on with the remaining files; an image that fails to open
    for any other reason is not handled. *)
Theorem missing_image_skipped
    (images_path folder_path file : string) (rest : list string)
    (acc : list (ndarray float) * list Annotation) (s : State)
    (d : Annotation) (filename : string) :
  fst (parse_annotation (os_path_join folder_path file) s) = Ok d ->
  d !! "filename" = Some (VStr filename) ->
  Image_open (fs s) (os_path_join images_path (filename +:+ ".jpg")) = Raise FileNotFoundError ->
  preprocess_record images_path acc (os_path_join folder_path file) s = (Ok acc, s) /\
  for_fold (file :: rest) acc
      (fun acc f => preprocess_record images_path acc (os_path_join folder_path f)) s
    = for_fold rest acc
        (fun acc f => preprocess_record images_path acc (os_path_join folder_path f)) s /\
  (forall s' d' filename' e,
     fst (parse_annotation (os_path_join folder_path file) s') = Ok d' ->
     d' !! "filename" = Some (VStr filename') ->
     contains "%s" (os_path_join images_path (filename' +:+ ".jpg")) = false ->
     Image_open (fs s') (os_path_join images_path (filename' +:+ ".jpg")) = Raise e ->
     e <> FileNotFoundError ->
     preprocess_record images_path acc (os_path_join folder_path file) s' = (Raise e, s')).
Proof.
  intros Hd Hname Hopen.
  assert (Hskip : preprocess_record images_path acc (os_path_join folder_path file) s
                  = (Ok acc, s)).
  { rewrite (preprocess_record_open _ _ _ _ _ _ Hd Hname), Hopen.
    now destruct (contains _ _). }
  split; [exact Hskip |]. split.
  - simpl. unfold bind at 1. now rewrite Hskip.
  - intros s' d' filename' e Hd' Hname' Hpct Hopen' Hne.
    rewrite (preprocess_record_open _ _ _ _ _ _ Hd' Hname'), Hpct, Hopen'.
    now destruct e.
Qed.

End MissingImages.

Lemma missing_image_skipped_witness :
  preprocess_record "all-dogs/" ([], [])
      (os_path_join "Annotation/n02085620-Chihuahua" "n02085620_242") Sample.start
    = (Ok ([], []), Sample.start) /\
  for_fold ("n02085620_242" :: ["n02085620_275"]) ([], [])
      (fun acc f => preprocess_record "all-dogs/" acc
                      (os_path_join "Annotation/n02085620-Chihuahua" f)) Sample.start
    = for_fold ["n02085620_275"] ([], [])
        (fun acc f => preprocess_record "all-dogs/" acc
                        (os_path_join "Annotation/n02085620-Chihuahua" f)) Sample.start /\
  (forall (s' : @State Sample.runtime) (d' : Annotation) filename' e,
     fst (parse_annotation (os_path_join "Annotation/n02085620-Chihuahua" "n02085620_242") s')
       = Ok d' ->
     d' !! "filename" = Some (VStr filename') ->
     contains "%s" (os_path_join "all-dogs/" (filename' +:+ ".jpg")) = false ->
     Image_open (fs s') (os_path_join "all-dogs/" (filename' +:+ ".jpg")) = Raise e ->
     e <> FileNotFoundError ->
     preprocess_record "all-dogs/" ([], [])
       (os_path_join "Annotation/n02085620-Chihuahua" "n02085620_242") s' = (Raise e, s')).
Proof.
  eapply (missing_image_skipped "all-dogs/" "Annotation/n02085620-Chihuahua" "n02085620_242"
            ["n02085620_275"] ([], []) Sample.start _ "n02085620_242").
  - reflexivity.
  - reflexivity.
  - reflexivity.
Defined.

(** ** The crop box *)

Section CropBox.
Context `{Runtime}.

Lemma bbox_of_ints (d : Annotation) (xmin ymin xmax ymax : Z) :
  d !! "xmin" = Some (VInt xmin) ->
  d !! "ymin" = Some (VInt ymin) ->
  d !! "xmax" = Some (VInt xmax) ->
  d !! "ymax" = Some (VInt ymax) ->
  bbox_of d = Ok (xmin, ymin, xmin + Z.min (xmax - xmin) (ymax - ymin),
                  ymin + Z.min (xmax - xmin) (ymax - ymin)).
Proof.
  intros Hx0 Hy0 Hx1 Hy1. unfold bbox_of, getitem. now rewrite Hx0, Hy0, Hx1, Hy1.
Qed.

Lemma crop_square (image : Image) (x0 y0 w : Z) (cropped : Image) :
  crop image (x0, y0, x0 + w, y0 + w) = Ok cropped ->
  mode cropped = mode image /\ width cropped = w /\ height cropped = w /\
  forall x y c,
    0 <= x0 + x < width image -> 0 <= y0 + y < height image ->
    getpixel cropped x y c = getpixel image (x0 + x) (y0 + y) c.
Proof.
  unfold crop. destruct (_ || _); [discriminate |]. intros [= <-]. simpl.
  repeat split; try lia. intros x y c Hx Hy.
  replace (x + x0) with (x0 + x) by lia. replace (y + y0) with (y0 + y) by lia.
  destruct (0 <=? x0 + x) eqn:E1; [| lia].
  destruct (x0 + x <? width image) eqn:E2; [| lia].
  destruct (0 <=? y0 + y) eqn:E3; [| lia].
  destruct (y0 + y <? height image) eqn:E4; [| lia].
  reflexivity.
Qed.


End CropBox.

Section CropBoxRun.
Import Sample.


End CropBoxRun.

(** ** Shape and range of a processed image *)

Lemma normalized_byte_in_unit_interval (v : byte) :
  unit_interval (float_of_byte v / 255)%float.
Proof. destruct v; split; vm_compute; reflexivity. Qed.

Lemma length_flat_map_const {A B} (f : A -> list B) (l : list A) (k : nat) :
  (forall x, length (f x) = k) -> length (flat_map f l) = (length l * k)%nat.
Proof.
  intros Hf. induction l as [|x l IH]; simpl; [reflexivity |].
  rewrite length_app, Hf, IH. lia.
Qed.

Lemma np_array_length (image : Image) :
  length (data (np_array image))
  = (Z.to_nat (height image) * (Z.to_nat (width image) * bands (mode image)))%nat.
Proof.
  unfold np_array. simpl.
  rewrite (length_flat_map_const _ _ (Z.to_nat (width image) * bands (mode image))).
  - now rewrite length_seq.
  - intros y. rewrite (length_flat_map_const _ _ (bands (mode image))).
    + now rewrite length_seq.
    + intros x. now rewrite length_map, length_seq.
Qed.

Section ProcessedImage.
Context `{Runtime}.

(** Whatever the image and the box, a processed image is 128 by 128, with a
    third axis for the bands when there are several, and holds values
    between 0 and 1. *)
Lemma preprocess_image_shape_range (image : Image) (d : Annotation) (a : ndarray float) :
  preprocess_image image d = Ok a ->
  shape a = (if (bands (mode image) =? 1)%nat then [128; 128]
             else [128; 128; bands (mode image)])%nat /\
  length (data a) = (128 * (128 * bands (mode image)))%nat /\
  Forall unit_interval (data a).
Proof.
  unfold preprocess_image.
  destruct (bbox_of d) as [[[[x0 y0] x1] y1]|]; cbn [rbind]; [| discriminate].
  destruct (crop image (x0, y0, x1, y1)) as [cropped|] eqn:Hcrop; cbn [rbind]; [| discriminate].
  intros [= <-].
  assert (Hmode : mode cropped = mode image).
  { revert Hcrop. unfold crop. destruct (_ || _); [discriminate |]. now intros [= <-]. }
  split; [| split].
  - simpl. now rewrite Hmode.
  - unfold normalize_image, np_map. cbn [data]. rewrite length_map, np_array_length.
    simpl. now rewrite Hmode.
  - unfold normalize_image, np_map. cbn [data]. apply List.Forall_map.
    apply Forall_true. exact normalized_byte_in_unit_interval.
Qed.

(** C1, for images of three bands: when the image of a record opens in a
    mode of three eight-bit bands, as a colour JPEG does, the array the turn
    of the loop appends has shape 128 x 128 x 3 and all its elements lie
    between 0 and 1. *)
Theorem processed_image_shape_range
    (images_path annotation_path : string)
    (acc acc' : list (ndarray float) * list Annotation) (s : State)
    (d : Annotation) (filename : string) (image : Image) :
  fst (parse_annotation annotation_path s) = Ok d ->
  d !! "filename" = Some (VStr filename) ->
  Image_open (fs s) (os_path_join images_path (filename +:+ ".jpg")) = Ok image ->
  bands (mode image) = 3%nat ->
  fst (preprocess_record images_path acc annotation_path s) = Ok acc' ->
  acc' = acc \/
  exists a : ndarray float,
    acc' = ((fst acc ++ [a]), (snd acc ++ [d])) /\
    shape a = [128; 128; 3]%nat /\
    length (data a) = (128 * 128 * 3)%nat /\
    Forall unit_interval (data a).
Proof.
  intros Hd Hname Hopen Hbands.
  rewrite (preprocess_record_open _ _ _ _ _ _ Hd Hname), Hopen.
  destruct (contains _ _); [intros [= <-]; now left |].
  destruct (preprocess_image image d) as [a|] eqn:Ha; [| discriminate].
  intros [= <-]. right. exists a. split; [reflexivity |].
  destruct (preprocess_image_shape_range _ _ _ Ha) as (Hshape & Hlen & Hrange).
  rewrite Hbands in Hshape, Hlen. now repeat split.
Qed.

End ProcessedImage.

Section ProcessedImageRun.
Import Sample.

Lemma processed_image_shape_range_witness :
  exists acc',
    fst (preprocess_record "all-dogs/" ([], [])
           "Annotation/n02085620-Chihuahua/n02085620_7" start) = Ok acc' /\
    (acc' = ([], []) \/
     exists a : ndarray float,
       acc' = ([a], [record "n02085620_7" 71 1 192 180]) /\
       shape a = [128; 128; 3]%nat /\
       length (data a) = (128 * 128 * 3)%nat /\
       Forall unit_interval (data a)).
Proof.
  eexists. split; [reflexivity |].
  apply (processed_image_shape_range "all-dogs/"
           "Annotation/n02085620-Chihuahua/n02085620_7" ([], []) _ start
           (record "n02085620_7" 71 1 192 180) "n02085620_7" colour_image);
    reflexivity.
Defined.

(** C1 as it is stated fails for an image that does not open in three
    bands: the grey image of the sample yields an array of shape 128 x 128. *)
Lemma grey_image_is_two_dimensional :
  ~ (forall (images_path annotation_path : string)
            (acc acc' : list (ndarray float) * list Annotation) (s : State)
            (d : Annotation) (filename : string) (image : Image),
       fst (parse_annotation annotation_path s) = Ok d ->
       d !! "filename" = Some (VStr filename) ->
       Image_open (fs s) (os_path_join images_path (filename +:+ ".jpg")) = Ok image ->
       fst (preprocess_record images_path acc annotation_path s) = Ok acc' ->
       acc' = acc \/
       exists a : ndarray float,
         acc' = ((fst acc ++ [a]), (snd acc ++ [d])) /\
         shape a = [128; 128; 3]%nat /\
         Forall unit_interval (data a)).
Proof.
  intros Hclaim.
  destruct (preprocess_image grey_image (record "n02085620_199" 25 10 276 498))
    as [grey|] eqn:Hgrey; [| discriminate].
  destruct (preprocess_image_shape_range _ _ _ Hgrey) as (Hshape & _).
  assert (Hd : fst (parse_annotation "Annotation/n02085620-Chihuahua/n02085620_199" start)
               = Ok (record "n02085620_199" 25 10 276 498)) by reflexivity.
  assert (Hname : record "n02085620_199" 25 10 276 498 !! "filename"
                  = Some (VStr "n02085620_199")) by reflexivity.
  assert (Hopen : Image_open (fs start) (os_path_join "all-dogs/" ("n02085620_199" +:+ ".jpg"))
                  = Ok grey_image) by reflexivity.
  assert (Hrun : fst (preprocess_record "all-dogs/" ([], [])
                        "Annotation/n02085620-Chihuahua/n02085620_199" start)
                 = Ok ([grey], [record "n02085620_199" 25 10 276 498])).
  { rewrite (preprocess_record_open _ _ _ _ _ _ Hd Hname), Hopen, Hgrey. reflexivity. }
  destruct (Hclaim _ _ _ _ _ _ _ _ Hd Hname Hopen Hrun) as [Heq | (a & Heq & Hshape3 & _)].
  - discriminate.
  - simpl in Heq. assert (Ha : a = grey) by congruence. subst a.
    simpl in Hshape. congruence.
Qed.

End ProcessedImageRun.

(** ** Preprocessing does not depend on chance *)

Section Determinism.
Context `{Runtime}.

(** C9: two runs of the preprocessing of a record over the same files give
    the same result, array for array and element for element, whatever the
    state of the random generator and of the other libraries; the run draws
    nothing from them and leaves them as they were.  The same holds for the
    whole of [load_and_preprocess_images]. *)
Theorem preprocessing_deterministic
    (images_path annotations_path annotation_path : string)
    (acc : list (ndarray float) * list Annotation) (s1 s2 : State) :
  fs s1 = fs s2 ->
  fst (preprocess_record images_path acc annotation_path s1)
    = fst (preprocess_record images_path acc annotation_path s2) /\
  snd (preprocess_record images_path acc annotation_path s1) = s1 /\
  fst (load_and_preprocess_images images_path annotations_path s1)
    = fst (load_and_preprocess_images images_path annotations_path s2) /\
  snd (load_and_preprocess_images images_path annotations_path s1) = s1.
Proof.
  intros Hfs.
  destruct (reads_files_preprocess_record images_path acc annotation_path s2) as [_ Hsame].
  destruct (reads_files_preprocess_record images_path acc annotation_path s1) as [Hstate _].
  destruct (reads_files_load_and_preprocess_images images_path annotations_path s2)
    as [_ Hsame'].
  destruct (reads_files_load_and_preprocess_images images_path annotations_path s1)
    as [Hstate' _].
  repeat split; auto.
Qed.

End Determinism.

Section DeterminismRun.
Import Sample.

Lemma preprocessing_deterministic_witness :
  fst (preprocess_record "all-dogs/" ([], [])
         "Annotation/n02085620-Chihuahua/n02085620_7" start)
    = fst (preprocess_record "all-dogs/" ([], [])
             "Annotation/n02085620-Chihuahua/n02085620_7" later) /\
  snd (preprocess_record "all-dogs/" ([], [])
         "Annotation/n02085620-Chihuahua/n02085620_7" start) = start /\
  fst (load_and_preprocess_images "all-dogs/" "Annotation/" start)
    = fst (load_and_preprocess_images "all-dogs/" "Annotation/" later) /\
  snd (load_and_preprocess_images "all-dogs/" "Annotation/" start) = start.
Proof.
  apply (preprocessing_deterministic "all-dogs/" "Annotation/"
           "Annotation/n02085620-Chihuahua/n02085620_7" ([], []) start later).
  reflexivity.
Defined.

End DeterminismRun.

(** ** What a computation appends to the log *)

Section Emits.
Context `{Runtime} {B : Type} (f : Event -> option B).

Lemma emits_ret {A} (a : A) : emits f [] (ret a).
Proof. intros s. exists []. simpl. now rewrite app_nil_r. Qed.

Lemma emits_lift {A} (r : Result A) : emits f [] (lift r).
Proof.
  intros s. exists []. simpl. rewrite app_nil_r. split; [reflexivity |].
  destruct r; [reflexivity | apply prefix_nil].
Qed.

Lemma emits_call_none {A} (g : Rt -> Result A * Rt) (ev : A -> Event) :
  (forall a, f (ev a) = None) -> emits f [] (call g ev).
Proof.
  intros Hev s. unfold call. destruct (g (rt s)) as [[a|e] rt']; simpl.
  - exists [ev a]. split; [reflexivity |]. simpl. now rewrite Hev.
  - exists []. rewrite app_nil_r. split; [reflexivity | apply prefix_nil].
Qed.

Lemma emits_call_some {A} (g : Rt -> Result A * Rt) (ev : A -> Event) (b : B) :
  (forall a, f (ev a) = Some b) -> emits f [b] (call g ev).
Proof.
  intros Hev s. unfold call. destruct (g (rt s)) as [[a|e] rt']; simpl.
  - exists [ev a]. split; [reflexivity |]. simpl. now rewrite Hev.
  - exists []. rewrite app_nil_r. split; [reflexivity | apply prefix_nil].
Qed.

Lemma emits_emit_none (e : Event) : f e = None -> emits f [] (emit e).
Proof. intros He s. exists [e]. simpl. now rewrite He. Qed.

Lemma emits_emit_some (e : Event) (b : B) : f e = Some b -> emits f [b] (emit e).
Proof. intros He s. exists [e]. simpl. now rewrite He. Qed.

Lemma emits_bind {A C} (m : M A) (k : A -> M C) (p1 p2 : list B) :
  emits f p1 m -> (forall a, emits f p2 (k a)) -> emits f (p1 ++ p2) (bind m k).
Proof.
  intros Hm Hk s. destruct (Hm s) as (d1 & Hlog1 & Hres1). unfold bind.
  destruct (m s) as [[a|e] s1]; simpl in *.
  - destruct (Hk a s1) as (d2 & Hlog2 & Hres2). exists (d1 ++ d2).
    rewrite Hlog2, Hlog1, <- app_assoc. split; [reflexivity |].
    rewrite omap_app, Hres1.
    destruct (fst (k a s1)); [now rewrite Hres2 | now apply prefix_app].
  - exists d1. split; [assumption | now apply prefix_app_r].
Qed.

Lemma emits_bind_none {A C} (m : M A) (k : A -> M C) (p : list B) :
  emits f [] m -> (forall a, emits f p (k a)) -> emits f p (bind m k).
Proof. intros Hm Hk. now apply (emits_bind m k [] p). Qed.

Lemma emits_bind_some {A C} (m : M A) (k : A -> M C) (b : B) (p : list B) :
  emits f [b] m -> (forall a, emits f p (k a)) -> emits f (b :: p) (bind m k).
Proof. intros Hm Hk. now apply (emits_bind m k [b] p). Qed.

(** After a pure step only its value matters. *)
Lemma emits_bind_lift {A C} (r : Result A) (k : A -> M C) (p : list B) :
  (forall a, r = Ok a -> emits f p (k a)) -> emits f p (bind (lift r) k).
Proof.
  intros Hk s. unfold bind, lift. destruct r as [a|e].
  - now apply Hk.
  - exists []. simpl. rewrite app_nil_r. split; [reflexivity | apply prefix_nil].
Qed.

Lemma emits_for_each {A} (xs : list A) (body : A -> M unit) (pat : A -> list B) :
  (forall x, emits f (pat x) (body x)) -> emits f (flat_map pat xs) (for_each xs body).
Proof.
  intros Hbody. induction xs as [|x xs IH]; simpl.
  - apply emits_ret.
  - apply emits_bind; [apply Hbody | intros _; exact IH].
Qed.

End Emits.

(** Walk through a sequence of steps none or one of which is seen by the
    projection at hand. *)
Ltac emits_one :=
  first [ apply emits_ret
        | apply emits_lift
        | apply emits_call_none; intros; reflexivity
        | apply emits_call_some; intros; reflexivity
        | apply emits_emit_none; reflexivity
        | apply emits_emit_some; reflexivity ].

Ltac emits_walk :=
  repeat first [ emits_one
               | apply emits_bind_none; [solve [emits_one] | intros ?]
               | apply emits_bind_some; [solve [emits_one] | intros ?] ].

(** ** The log of the training loop *)

Section TrainingLog.
Context `{Runtime}.
Variables (processed_images : ndarray float) (gan generator discriminator : Model).
Variables (batch_size save_interval : Z).

Lemma np_full_column (v : float) (a : ndarray float) :
  np_full v batch_size 1 = Ok a -> a = column v batch_size.
Proof. unfold np_full. destruct (_ || _); [discriminate | now intros [= <-]]. Qed.

(** The labels. *)
Lemma train_step_trained (valid fake : ndarray float) :
  emits trained [(Discriminator, valid); (Discriminator, fake); (Gan, valid)]
    (train_step processed_images gan generator discriminator batch_size valid fake).
Proof. unfold train_step. emits_walk. Qed.

Lemma report_trained epoch d_loss g_loss :
  emits trained [] (report generator save_interval epoch d_loss g_loss).
Proof.
  unfold report. apply emits_bind_none; [emits_one | intros r].
  destruct (_ || _); [| emits_one]. emits_walk.
Qed.

Lemma train_gan_trained (epochs : Z) :
  emits trained (flat_map (fun _ => labels_of_turn batch_size) (py_range epochs))
    (train_gan processed_images gan generator discriminator epochs batch_size save_interval).
Proof.
  unfold train_gan.
  apply emits_bind_lift. intros valid ->%np_full_column.
  apply emits_bind_lift. intros fake ->%np_full_column.
  apply emits_for_each. intros epoch. unfold train_iteration.
  apply (emits_bind _ _ _ (labels_of_turn batch_size) []);
    [apply train_step_trained | intros losses; apply report_trained].
Qed.

(** The turns. *)
Lemma train_step_started (valid fake : ndarray float) :
  emits turn_started [tt]
    (train_step processed_images gan generator discriminator batch_size valid fake).
Proof. unfold train_step. emits_walk. Qed.

Lemma train_step_turn_trained (valid fake : ndarray float) :
  emits turn_trained [tt]
    (train_step processed_images gan generator discriminator batch_size valid fake).
Proof. unfold train_step. emits_walk. Qed.

Lemma report_started epoch d_loss g_loss :
  emits turn_started [] (report generator save_interval epoch d_loss g_loss).
Proof.
  unfold report. apply emits_bind_none; [emits_one | intros r].
  destruct (_ || _); [| emits_one]. emits_walk.
Qed.

Lemma report_turn_trained epoch d_loss g_loss :
  emits turn_trained [] (report generator save_interval epoch d_loss g_loss).
Proof.
  unfold report. apply emits_bind_none; [emits_one | intros r].
  destruct (_ || _); [| emits_one]. emits_walk.
Qed.

Lemma train_gan_turns (mark : Event -> option unit) (epochs : Z) :
  (forall valid fake,
     emits mark [tt]
       (train_step processed_images gan generator discriminator batch_size valid fake)) ->
  (forall epoch d_loss g_loss,
     emits mark [] (report generator save_interval epoch d_loss g_loss)) ->
  emits mark (flat_map (fun _ => [tt]) (py_range epochs))
    (train_gan processed_images gan generator discriminator epochs batch_size save_interval).
Proof.
  intros Hstep Hreport. unfold train_gan.
  apply emits_bind_none; [emits_one | intros valid].
  apply emits_bind_none; [emits_one | intros fake].
  apply emits_for_each. intros epoch. unfold train_iteration.
  apply (emits_bind _ _ _ [tt] []); [apply Hstep | intros losses; apply Hreport].
Qed.

Lemma length_turns (epochs : Z) :
  length (flat_map (fun _ : Z => [tt]) (py_range epochs)) = Z.to_nat epochs.
Proof.
  rewrite (length_flat_map_const _ _ 1%nat) by reflexivity.
  unfold py_range. rewrite length_map, length_seq. lia.
Qed.

(** The files. *)
Lemma report_saved epoch d_loss g_loss :
  save_interval <> 0 ->
  emits grid_of
    (if epoch mod save_interval =? 0 then grid_of_epoch epoch else [])
    (report generator save_interval epoch d_loss g_loss).
Proof.
  intros Hsi. unfold report. apply emits_bind_lift. intros r. unfold py_mod.
  destruct (save_interval =? 0) eqn:E; [lia |]. intros [= <-].
  assert (Hcond : (epoch mod save_interval =? 0) || (epoch =? 0)
                  = (epoch mod save_interval =? 0)).
  { destruct (epoch =? 0) eqn:E0; [| apply orb_false_r].
    apply Z.eqb_eq in E0. subst epoch. now rewrite Z.mod_0_l. }
  rewrite Hcond. destruct (epoch mod save_interval =? 0); [| emits_one]. emits_walk.
Qed.

Lemma train_step_saved (valid fake : ndarray float) :
  emits grid_of []
    (train_step processed_images gan generator discriminator batch_size valid fake).
Proof. unfold train_step. emits_walk. Qed.

Lemma saving_epochs_names (epochs : Z) :
  flat_map (fun epoch => if epoch mod save_interval =? 0 then grid_of_epoch epoch else [])
           (py_range epochs)
  = flat_map grid_of_epoch (saving_epochs epochs save_interval).
Proof.
  unfold saving_epochs. induction (py_range epochs) as [|epoch l IH]; simpl; [reflexivity |].
  rewrite IH. now destruct (epoch mod save_interval =? 0).
Qed.

Lemma train_gan_saved (epochs : Z) :
  save_interval <> 0 ->
  emits grid_of (flat_map grid_of_epoch (saving_epochs epochs save_interval))
    (train_gan processed_images gan generator discriminator epochs batch_size save_interval).
Proof.
  intros Hsi. rewrite <- saving_epochs_names. unfold train_gan.
  apply emits_bind_none; [emits_one | intros valid].
  apply emits_bind_none; [emits_one | intros fake].
  apply emits_for_each. intros epoch. unfold train_iteration.
  apply (emits_bind _ _ _ [] _); [apply train_step_saved | intros losses].
  now apply report_saved.
Qed.



End TrainingLog.

Section SavedRun.
Import Sample.


End SavedRun.

(** ** Runs that return *)

Section Yields.
Context `{Runtime}.

Lemma yields_ret {A} (P : A -> Prop) (a : A) : P a -> yields P (ret a).
Proof. intros Ha s. now exists a, s. Qed.

Lemma yields_lift {A} (P : A -> Prop) (r : Result A) (a : A) :
  r = Ok a -> P a -> yields P (lift r).
Proof. intros -> Ha s. now exists a, s. Qed.

Lemma yields_call {A} (P : A -> Prop) (g : Rt -> Result A * Rt) (ev : A -> Event) :
  (forall rt, exists a rt', g rt = (Ok a, rt') /\ P a) -> yields P (call g ev).
Proof.
  intros Hg s. destruct (Hg (rt s)) as (a & rt' & Hcall & Ha).
  exists a, (mk_state (fs s) rt' (log s ++ [ev a])). unfold call. now rewrite Hcall.
Qed.

Lemma yields_emit (e : Event) : yields (fun _ => True) (emit e).
Proof. intros s. now exists tt, (mk_state (fs s) (rt s) (log s ++ [e])). Qed.

Lemma yields_bind {A C} (P : A -> Prop) (Q : C -> Prop) (m : M A) (k : A -> M C) :
  yields P m -> (forall a, P a -> yields Q (k a)) -> yields Q (bind m k).
Proof.
  intros Hm Hk s. destruct (Hm s) as (a & s1 & Hrun & Ha).
  destruct (Hk a Ha s1) as (c & s2 & Hrun' & Hc).
  exists c, s2. unfold bind. now rewrite Hrun.
Qed.

Lemma yields_for_each {A} (xs : list A) (body : A -> M unit) :
  (forall x, yields (fun _ => True) (body x)) -> yields (fun _ => True) (for_each xs body).
Proof.
  intros Hbody. induction xs as [|x xs IH]; simpl.
  - now apply yields_ret.
  - apply (yields_bind (fun _ => True)); [apply Hbody | intros _ _; exact IH].
Qed.

Lemma collect_ok {A} (rs : list (Result A)) :
  Forall (fun r => exists a, r = Ok a) rs -> exists l, collect rs = Ok l.
Proof.
  induction 1 as [|r rs [a ->] _ [l IH]]; simpl; [now exists [] |].
  rewrite IH. simpl. now exists (a :: l).
Qed.

Lemma np_row_in_range {A} (a : ndarray A) (n : nat) (rest : list nat) (i : Z) :
  shape a = n :: rest -> 0 <= i < Z.of_nat n -> exists row, np_row a i = Ok row.
Proof.
  intros Hshape Hi. unfold np_row. rewrite Hshape.
  destruct (i <? 0) eqn:E; [lia |].
  destruct ((i <? 0) || (Z.of_nat n <=? i)) eqn:E'; [| eauto].
  apply orb_true_iff in E'. destruct E' as [E' | E']; lia.
Qed.

Lemma np_rows_in_range {A} (a : ndarray A) (n : nat) (rest : list nat) (idx : list Z) :
  shape a = n :: rest -> Forall (fun i => 0 <= i < Z.of_nat n) idx ->
  exists rows, collect (map (np_row a) idx) = Ok rows.
Proof.
  intros Hshape Hidx. apply collect_ok. apply List.Forall_map.
  eapply Forall_impl; [exact Hidx |]. intros i Hi. now apply (np_row_in_range a n rest).
Qed.

Lemma np_take_in_range {A} (a : ndarray A) (n : Z) (idx : list Z) :
  shape0 a = Ok n -> Forall (fun i => 0 <= i < n) idx -> exists rows, np_take a idx = Ok rows.
Proof.
  unfold shape0. destruct (shape a) as [|m rest] eqn:Hshape; [discriminate |].
  intros [= <-] Hidx. unfold np_take.
  destruct (np_rows_in_range a m rest idx Hshape Hidx) as [rows ->]. simpl. eauto.
Qed.

End Yields.

Section Returns.
Context `{Runtime}.
Variables (processed_images : ndarray float) (gan generator discriminator : Model).
Variables (batch_size save_interval : Z).
Hypothesis contracts : dependable processed_images gan generator discriminator batch_size.

Lemma train_step_yields (valid fake : ndarray float) :
  yields (fun losses => exists d0 d1, fst losses = Metrics [d0; d1])
    (train_step processed_images gan generator discriminator batch_size valid fake).
Proof.
  destruct (images_have_rows _ _ _ _ _ contracts) as [n Hn]. unfold train_step.
  apply (yields_bind (fun n' => n' = n)); [now apply (yields_lift _ _ n) | intros ? ->].
  apply (yields_bind (fun idx => Forall (fun i => 0 <= i < n) idx)).
  { apply yields_call. intros rt0.
    destruct (randint_in_range _ _ _ _ _ contracts n rt0 Hn) as (idx & rt' & Hcall & Hidx).
    now exists idx, rt'. }
  intros idx Hidx. destruct (np_take_in_range _ _ _ Hn Hidx) as [real_imgs Hreal].
  apply (yields_bind (fun _ => True)); [now apply (yields_lift _ _ real_imgs) | intros ? _].
  apply (yields_bind (fun _ => True)).
  { apply yields_call. intros rt0.
    destruct (normal_shape _ _ _ _ _ contracts batch_size 100 rt0) as (x & rt' & Hcall & _).
    now exists x, rt'. }
  intros noise _. apply (yields_bind (fun _ => True)).
  { apply yields_call. intros rt0.
    destruct (predict_rows _ _ _ _ _ contracts noise rt0) as (out & rt' & rest & Hcall & _).
    now exists out, rt'. }
  intros gen_imgs _.
  apply (yields_bind (fun l => exists loss acc, l = Metrics [loss; acc])).
  { apply yields_call. intros rt0.
    destruct (discriminator_metrics _ _ _ _ _ contracts a valid rt0)
      as (loss & acc & rt' & Hcall).
    exists (Metrics [loss; acc]), rt'. eauto. }
  intros ? (loss_real & acc_real & ->).
  apply (yields_bind (fun l => exists loss acc, l = Metrics [loss; acc])).
  { apply yields_call. intros rt0.
    destruct (discriminator_metrics _ _ _ _ _ contracts gen_imgs fake rt0)
      as (loss & acc & rt' & Hcall).
    exists (Metrics [loss; acc]), rt'. eauto. }
  intros ? (loss_fake & acc_fake & ->).
  apply (yields_bind (fun l => exists d0 d1, l = Metrics [d0; d1])).
  { eapply yields_lift; [reflexivity |]. simpl. eauto. }
  intros d_loss Hd. apply (yields_bind (fun _ => True)).
  { apply yields_call. intros rt0.
    destruct (normal_shape _ _ _ _ _ contracts batch_size 100 rt0) as (x & rt' & Hcall & _).
    now exists x, rt'. }
  intros noise' _. apply (yields_bind (fun _ => True)).
  { apply yields_call. intros rt0.
    destruct (gan_loss _ _ _ _ _ contracts noise' valid rt0) as (loss & rt' & Hcall).
    now exists loss, rt'. }
  intros g_loss _. now apply yields_ret.
Qed.

Lemma save_images_yields (epoch : Z) (folder : string) :
  yields (fun _ => True) (save_images generator epoch folder).
Proof.
  unfold save_images.
  apply (yields_bind (fun noise => shape noise = [25; 100]%nat)).
  { apply yields_call. intros rt0.
    destruct (normal_shape _ _ _ _ _ contracts 25 100 rt0) as (x & rt' & Hcall & Hshape).
    now exists x, rt'. }
  intros noise Hnoise.
  apply (yields_bind (fun out => exists rest, shape out = 25%nat :: rest)).
  { apply yields_call. intros rt0.
    destruct (predict_rows _ _ _ _ _ contracts noise rt0) as (out & rt' & rest & Hcall & Hout).
    exists out, rt'. split; [exact Hcall |]. exists rest. now rewrite Hout, Hnoise. }
  intros gen_imgs [rest Hgen]. cbv zeta.
  destruct (np_rows_in_range (np_map (fun x => (0.5 * x + 0.5)%float) gen_imgs) 25 rest
              (flat_map (fun i => map (fun j => 5 * i + j) (py_range 5)) (py_range 5)))
    as [shown Hshown]; [exact Hgen | |].
  { vm_compute. repeat constructor; discriminate. }
  apply (yields_bind (fun _ => True)); [now apply (yields_lift _ _ shown) | intros ? _].
  apply (yields_bind (fun _ => True)); [apply yields_emit | intros _ _].
  apply yields_call. intros rt0.
  destruct (savefig_writes _ _ _ _ _ contracts (image_name folder epoch) a rt0) as [rt' Hcall].
  now exists tt, rt'.
Qed.

Lemma report_yields (epoch : Z) (d0 d1 : float) (g_loss : Loss) :
  save_interval <> 0 ->
  yields (fun _ => True) (report generator save_interval epoch (Metrics [d0; d1]) g_loss).
Proof.
  intros Hsi. unfold report.
  apply (yields_bind (fun _ => True)).
  { apply (yields_lift _ _ (epoch mod save_interval)); [| exact I].
    unfold py_mod. destruct (save_interval =? 0) eqn:E; [lia | reflexivity]. }
  intros r _. destruct (_ || _); [| now apply yields_ret].
  apply (yields_bind (fun _ => True)); [now apply (yields_lift _ _ d0) | intros ? _].
  apply (yields_bind (fun _ => True)); [now apply (yields_lift _ _ d1) | intros ? _].
  apply (yields_bind (fun _ => True)); [apply yields_emit | intros _ _].
  apply save_images_yields.
Qed.

Lemma train_gan_yields (epochs : Z) :
  0 <= batch_size -> save_interval <> 0 ->
  yields (fun _ => True)
    (train_gan processed_images gan generator discriminator epochs batch_size save_interval).
Proof.
  intros Hbs Hsi. unfold train_gan.
  assert (Hfull : forall v, np_full v batch_size 1 = Ok (column v batch_size)).
  { intros v. unfold np_full. destruct (batch_size <? 0) eqn:E; [lia | reflexivity]. }
  apply (yields_bind (fun _ => True)); [now apply (yields_lift _ _ _ (Hfull _)) | intros valid _].
  apply (yields_bind (fun _ => True)); [now apply (yields_lift _ _ _ (Hfull _)) | intros fake _].
  apply yields_for_each. intros epoch. unfold train_iteration.
  eapply yields_bind; [apply train_step_yields |].
  intros [d_loss g_loss] (d0 & d1 & Hd). simpl in Hd. subst d_loss. now apply report_yields.
Qed.

End Returns.

(** ** The number of turns and their order *)

Section Turns.
Context `{Runtime}.
Variables (processed_images : ndarray float) (gan generator discriminator : Model).
Variables (batch_size save_interval : Z).


(** C7: the training part of a turn draws the indices of the real batch
    among the rows of [processed_images], draws a batch of noise vectors of
    length 100, lets the generator turn it into images, trains the
    discriminator on the real batch and then on the generated one, draws
    fresh noise and only then trains the generator through the combined
    model; nothing else happens in between, and the report follows. *)
Theorem train_step_order
    (valid fake : ndarray float) (save_epoch : Z) (s : State)
    (n : Z) (idx : list Z) (real_imgs noise gen_imgs noise' : ndarray float)
    (d_loss_real d_loss_fake d_sum g_loss : Loss) (rt1 rt2 rt3 rt4 rt5 rt6 rt7 : Rt) :
  shape0 processed_images = Ok n ->
  np_random_randint 0 n batch_size (rt s) = (Ok idx, rt1) ->
  np_take processed_images idx = Ok real_imgs ->
  np_random_normal batch_size 100 rt1 = (Ok noise, rt2) ->
  predict generator noise rt2 = (Ok gen_imgs, rt3) ->
  train_on_batch discriminator real_imgs valid rt3 = (Ok d_loss_real, rt4) ->
  train_on_batch discriminator gen_imgs fake rt4 = (Ok d_loss_fake, rt5) ->
  np_add d_loss_real d_loss_fake = Ok d_sum ->
  np_random_normal batch_size 100 rt5 = (Ok noise', rt6) ->
  train_on_batch gan noise' valid rt6 = (Ok g_loss, rt7) ->
  let after :=
    mk_state (fs s) rt7
      (log s ++ [ EvRandint 0 n batch_size idx;
                  EvNormal batch_size 100 noise;
                  EvPredict Generator noise gen_imgs;
                  EvTrain Discriminator real_imgs valid d_loss_real;
                  EvTrain Discriminator gen_imgs fake d_loss_fake;
                  EvNormal batch_size 100 noise';
                  EvTrain Gan noise' valid g_loss ]) in
  shape real_imgs = length idx :: tl (shape processed_images) /\
  train_step processed_images gan generator discriminator batch_size valid fake s
    = (Ok (np_scale 0.5 d_sum, g_loss), after) /\
  train_iteration processed_images gan generator discriminator batch_size save_interval
      valid fake save_epoch s
    = report generator save_interval save_epoch (np_scale 0.5 d_sum) g_loss after.
Proof.
  intros Hn Hidx Hreal Hnoise Hgen Hd_real Hd_fake Hsum Hnoise' Hg after.
  assert (Hstep : train_step processed_images gan generator discriminator
                    batch_size valid fake s = (Ok (np_scale 0.5 d_sum, g_loss), after)).
  { unfold train_step, bind, lift, call, ret. rewrite Hn. cbn [rt fs log].
    rewrite Hidx, Hreal. cbn [rt fs log].
    rewrite Hnoise. cbn [rt fs log]. rewrite Hgen. cbn [rt fs log].
    rewrite Hd_real. cbn [rt fs log]. rewrite Hd_fake, Hsum. cbn [rt fs log rbind].
    rewrite Hnoise'. cbn [rt fs log]. rewrite Hg. cbn [rt fs log].
    unfold after. repeat rewrite <- app_assoc. reflexivity. }
  split; [| split; [exact Hstep |]].
  - revert Hreal. unfold np_take.
    destruct (collect (map (np_row processed_images) idx)); [| discriminate].
    now intros [= <-].
  - unfold train_iteration, bind. now rewrite Hstep.
Qed.

End Turns.

Section TurnsRun.
Import Sample.

Lemma sample_dependable (batch_size : Z) :
  dependable processed_images gan generator discriminator batch_size.
Proof.
  split.
  - now exists 3.
  - intros n rt0 [= <-]. eexists _, _. split; [reflexivity |].
    apply List.Forall_map, Forall_true. intros k.
    pose proof (Z.mod_pos_bound (Z.of_nat (rt0 + k)) (3 - 0)). lia.
  - intros rows cols rt0. now exists (noise rows cols), (S rt0).
  - intros x rt0. now exists (answer x), rt0, [1%nat].
  - intros x y rt0. now exists 0.75%float, 0.5%float, rt0.
  - intros x y rt0. now exists (Scalar 1.5), rt0.
  - intros path imgs rt0. now exists rt0.
Qed.



(** What that run does: the first turn trains both models, then the report
    raises. *)
Example zero_save_interval_run :
  let run := train_gan processed_images gan generator discriminator 2 2 0 start in
  fst run = Raise ZeroDivisionError /\
  omap turn_started (log (snd run)) = [tt] /\
  omap turn_trained (log (snd run)) = [tt] /\
  omap grid_of (log (snd run)) = [].
Proof. vm_compute. repeat split; reflexivity. Qed.

Lemma train_step_order_witness :
  let valid := column 1 2 in
  let fake := column 0 2 in
  let real_imgs := mk_ndarray [2; 2]%nat [0; 0.125; 0.25; 0.375]%float in
  let after :=
    mk_state files 3%nat
      [ EvRandint 0 3 2 [0; 1];
        EvNormal 2 100 (noise 2 100);
        EvPredict Generator (noise 2 100) (answer (noise 2 100));
        EvTrain Discriminator real_imgs valid (Metrics [0.75; 0.5]%float);
        EvTrain Discriminator (answer (noise 2 100)) fake (Metrics [0.75; 0.5]%float);
        EvNormal 2 100 (noise 2 100);
        EvTrain Gan (noise 2 100) valid (Scalar 1.5) ] in
  shape real_imgs = length [0; 1] :: tl (shape processed_images) /\
  train_step processed_images gan generator discriminator 2 valid fake start
    = (Ok (Metrics [0.75; 0.5]%float, Scalar 1.5), after) /\
  train_iteration processed_images gan generator discriminator 2 2 valid fake 0 start
    = report generator 2 0 (Metrics [0.75; 0.5]%float) (Scalar 1.5) after.
Proof.
  exact (train_step_order processed_images gan generator discriminator 2 2
           (column 1 2) (column 0 2) 0 start
           3 [0; 1] (mk_ndarray [2; 2]%nat [0; 0.125; 0.25; 0.375]%float)
           (noise 2 100) (answer (noise 2 100)) (noise 2 100)
           (Metrics [0.75; 0.5]%float) (Metrics [0.75; 0.5]%float)
           (Metrics [1.5; 1]%float) (Scalar 1.5)
           1%nat 2%nat 2%nat 2%nat 2%nat 3%nat 3%nat
           eq_refl eq_refl eq_refl eq_refl eq_refl eq_refl eq_refl eq_refl eq_refl eq_refl).
Defined.

End TurnsRun.

(** * Further properties of the notebook *)

(** ** The cleaning of the table *)

Section Cleaning.

Lemma collect_map_ok {A B} (f : A -> Result B) (g : A -> B) (l : list A) :
  Forall (fun x => f x = Ok (g x)) l -> collect (map f l) = Ok (map g l).
Proof.
  induction 1 as [|x l Hx _ IH]; simpl; [reflexivity |]. now rewrite Hx, IH.
Qed.

Lemma zip_with_map_both {A B C D} (f : B -> C -> D) (g : A -> B) (h : A -> C) (l : list A) :
  zip_with f (map g l) (map h l) = map (fun x => f (g x) (h x)) l.
Proof. induction l as [|x l IH]; simpl; [reflexivity | now rewrite IH]. Qed.

Lemma zip_with_map_right {A C D} (f : A -> C -> D) (h : A -> C) (l : list A) :
  zip_with f l (map h l) = map (fun x => f x (h x)) l.
Proof. induction l as [|x l IH]; simpl; [reflexivity | now rewrite IH]. Qed.

Lemma select_rows_map {A} (g : A -> Annotation) (test : A -> bool) (l : list A) :
  select_rows (map g l) (map test l) = map g (List.filter test l).
Proof.
  induction l as [|x l IH]; simpl; [reflexivity |].
  rewrite IH. now destruct (test x).
Qed.

Lemma has_box_ints (row : Annotation) : has_box row <-> has_ints row.
Proof.
  unfold has_box, boxed, has_ints, box_names. split.
  - intros (w & h & x0 & y0 & x1 & y1 & Hw & Hh & Hx0 & Hy0 & Hx1 & Hy1).
    repeat constructor; eauto.
  - intros H.
    repeat match goal with
           | H : Forall _ (_ :: _) |- _ => apply Forall_cons in H; destruct H as [[? ?] H]
           end.
    do 6 eexists. repeat split; eassumption.
Qed.

Lemma has_ints_insert (row : Annotation) (name : string) (v : Z) :
  has_ints row -> has_ints (<[name := VInt v]> row).
Proof.
  unfold has_ints. intros H. eapply Forall_impl; [exact H |].
  intros n [z Hz]. destruct (decide (name = n)) as [->|Hne].
  - exists v. apply lookup_insert_eq.
  - exists z. now rewrite lookup_insert_ne.
Qed.

Lemma int_cell_z_of (row : Annotation) (name : string) :
  has_ints row -> In name box_names -> int_cell row name = Ok (z_of row name).
Proof.
  unfold has_ints. intros H Hin. rewrite List.Forall_forall in H.
  destruct (H name Hin) as [z Hz]. unfold int_cell, getitem, z_of. now rewrite Hz.
Qed.

Lemma int_column_ints (df : DataFrame) (name : string) :
  name ∈ df_columns df -> In name box_names -> Forall has_ints (df_rows df) ->
  int_column df name = Ok (map (fun row => z_of row name) (df_rows df)).
Proof.
  intros Hcol Hin Hrows. unfold int_column. rewrite bool_decide_eq_true_2 by exact Hcol.
  apply collect_map_ok. eapply Forall_impl; [exact Hrows |].
  intros row Hrow. now apply int_cell_z_of.
Qed.

Lemma min_of_columns_ints (df : DataFrame) (a b : string) :
  a ∈ df_columns df -> b ∈ df_columns df -> In a box_names -> In b box_names ->
  Forall has_ints (df_rows df) ->
  min_of_columns df a b
  = Ok (map (fun row => Z.min (z_of row a) (z_of row b)) (df_rows df)).
Proof.
  intros Ha Hb Hina Hinb Hrows. unfold min_of_columns.
  rewrite !bool_decide_eq_true_2 by assumption. simpl.
  apply collect_map_ok. eapply Forall_impl; [exact Hrows |].
  intros row Hrow. now rewrite !int_cell_z_of.
Qed.

Lemma cut_column (df : DataFrame) (name bound : string) :
  box_columns ⊆ df_columns df -> In name box_names -> In bound box_names ->
  name ∈ box_columns -> bound ∈ box_columns ->
  Forall has_ints (df_rows df) ->
  exists values,
    min_of_columns df name bound = Ok values /\
    set_column df name values = mk_frame (df_columns df) (map (cut name bound) (df_rows df)) /\
    Forall has_ints (map (cut name bound) (df_rows df)).
Proof.
  intros Hcols Hname Hbound Hname' Hbound' Hrows.
  pose proof (Hcols name Hname') as Hname_col. pose proof (Hcols bound Hbound') as Hbound_col.
  eexists. split; [now apply min_of_columns_ints |].
  split.
  - unfold set_column. rewrite zip_with_map_right. f_equal.
    apply leibniz_equiv, subseteq_union_1. now apply singleton_subseteq_l.
  - apply List.Forall_map. eapply Forall_impl; [exact Hrows |].
    intros row Hrow. now apply has_ints_insert.
Qed.

Lemma cleaned_row (row : Annotation) :
  has_ints row ->
  cut "ymax" "height" (cut "xmax" "width" (cut "ymin" "height" (cut "xmin" "width" row)))
    = clamp_row row /\
  (let row' := clamp_row row in
   (0 <=? z_of row' "xmin") && (0 <=? z_of row' "ymin")
   && (z_of row' "xmax" <=? z_of row' "width")
   && (z_of row' "ymax" <=? z_of row' "height")) = kept_row row.
Proof.
  intros Hrow. apply has_box_ints in Hrow.
  destruct Hrow as (w & h & x0 & y0 & x1 & y1 & Hw & Hh & Hx0 & Hy0 & Hx1 & Hy1).
  assert (Hclamp : clamp_row row
                   = <["ymax" := VInt (Z.min y1 h)]>
                     (<["xmax" := VInt (Z.min x1 w)]>
                     (<["ymin" := VInt (Z.min y0 h)]>
                     (<["xmin" := VInt (Z.min x0 w)]> row)))).
  { unfold clamp_row, int_cell, getitem. now rewrite Hw, Hh, Hx0, Hy0, Hx1, Hy1. }
  split.
  - rewrite Hclamp. unfold cut, z_of. now simplify_map_eq.
  - cbv zeta. rewrite Hclamp. unfold kept_row, int_cell, getitem, z_of.
    rewrite Hw, Hh, Hx0, Hy0. simplify_map_eq. simpl.
    repeat match goal with
           | |- context [?a <=? ?b] => destruct (Z.leb_spec a b)
           end; simpl; try reflexivity; lia.
Qed.

(** What the cell computes: the rows with a negative width, height, xmin or
    ymin are dropped, the others are kept in their order with the four
    coordinates cut to the image. *)
Lemma clean_annotations_rows (df : DataFrame) :
  table_of_boxes df ->
  clean_annotations df
  = Ok (mk_frame (df_columns df) (map clamp_row (List.filter kept_row (df_rows df)))).
Proof.
  intros [Hcols Hrows].
  assert (Hints : Forall has_ints (df_rows df)).
  { eapply Forall_impl; [exact Hrows |]. intros row. apply has_box_ints. }
  assert (Hin : forall name, In name box_names -> name ∈ box_columns).
  { unfold box_names, box_columns. simpl. intros name Hname.
    repeat destruct Hname as [<- | Hname]; [set_solver .. | destruct Hname]. }
  assert (Hnames : In "width" box_names /\ In "height" box_names /\ In "xmin" box_names /\
                   In "ymin" box_names /\ In "xmax" box_names /\ In "ymax" box_names)
    by (unfold box_names; simpl; tauto).
  destruct Hnames as (Nw & Nh & Nx0 & Ny0 & Nx1 & Ny1).
  unfold clean_annotations.
  destruct (cut_column df "xmin" "width") as (v1 & Hmin1 & Hset1 & Hints1); auto.
  rewrite Hmin1. cbn [rbind]. rewrite Hset1.
  destruct (cut_column (mk_frame (df_columns df) (map (cut "xmin" "width") (df_rows df)))
              "ymin" "height") as (v2 & Hmin2 & Hset2 & Hints2); auto.
  rewrite Hmin2. cbn [rbind]. rewrite Hset2. cbn [df_columns df_rows] in *.
  destruct (cut_column (mk_frame (df_columns df)
                          (map (cut "ymin" "height") (map (cut "xmin" "width") (df_rows df))))
              "xmax" "width") as (v3 & Hmin3 & Hset3 & Hints3); auto.
  rewrite Hmin3. cbn [rbind]. rewrite Hset3. cbn [df_columns df_rows] in *.
  destruct (cut_column (mk_frame (df_columns df)
                          (map (cut "xmax" "width")
                             (map (cut "ymin" "height")
                                (map (cut "xmin" "width") (df_rows df)))))
              "ymax" "height") as (v4 & Hmin4 & Hset4 & Hints4); auto.
  rewrite Hmin4. cbn [rbind]. rewrite Hset4. cbn [df_columns df_rows] in *.
  rewrite !(int_column_ints (mk_frame _ _)) by (cbn [df_columns df_rows]; auto).
  cbn [rbind df_columns df_rows]. f_equal. f_equal.
  unfold mask_and. rewrite !map_map, !zip_with_map_both, select_rows_map.
  assert (Hrow : forall row, In row (df_rows df) ->
            cut "ymax" "height"
              (cut "xmax" "width" (cut "ymin" "height" (cut "xmin" "width" row)))
            = clamp_row row /\
            ((0 <=? z_of (clamp_row row) "xmin") && (0 <=? z_of (clamp_row row) "ymin")
             && (z_of (clamp_row row) "xmax" <=? z_of (clamp_row row) "width")
             && (z_of (clamp_row row) "ymax" <=? z_of (clamp_row row) "height"))
            = kept_row row).
  { intros row Hinrow. apply cleaned_row.
    rewrite List.Forall_forall in Hints. now apply Hints. }
  rewrite (filter_ext_in _ kept_row).
  - apply map_ext_in. intros row Hinrow. apply filter_In in Hinrow. now apply Hrow.
  - intros row Hinrow. destruct (Hrow row Hinrow) as [-> Htest]. exact Htest.
Qed.

Lemma boxed_kept (row : Annotation) (w h x0 y0 x1 y1 : Z) :
  boxed row w h x0 y0 x1 y1 ->
  kept_row row = (0 <=? w) && (0 <=? h) && (0 <=? x0) && (0 <=? y0).
Proof.
  intros (Hw & Hh & Hx0 & Hy0 & _). unfold kept_row, int_cell, getitem.
  now rewrite Hw, Hh, Hx0, Hy0.
Qed.

Lemma boxed_clamp (row : Annotation) (w h x0 y0 x1 y1 : Z) :
  boxed row w h x0 y0 x1 y1 ->
  clamp_row row
  = <["ymax" := VInt (Z.min y1 h)]>
    (<["xmax" := VInt (Z.min x1 w)]>
    (<["ymin" := VInt (Z.min y0 h)]>
    (<["xmin" := VInt (Z.min x0 w)]> row))) /\
  boxed (clamp_row row) w h (Z.min x0 w) (Z.min y0 h) (Z.min x1 w) (Z.min y1 h).
Proof.
  intros (Hw & Hh & Hx0 & Hy0 & Hx1 & Hy1).
  assert (Hclamp : clamp_row row
                   = <["ymax" := VInt (Z.min y1 h)]>
                     (<["xmax" := VInt (Z.min x1 w)]>
                     (<["ymin" := VInt (Z.min y0 h)]>
                     (<["xmin" := VInt (Z.min x0 w)]> row)))).
  { unfold clamp_row, int_cell, getitem. now rewrite Hw, Hh, Hx0, Hy0, Hx1, Hy1. }
  split; [exact Hclamp |]. rewrite Hclamp. unfold boxed. now simplify_map_eq.
Qed.

Lemma within_image_fixed (row : Annotation) :
  within_image row -> kept_row row = true /\ clamp_row row = row.
Proof.
  intros (w & h & x0 & y0 & x1 & y1 & Hbox & Hx & Hy & Hx1 & Hy1).
  rewrite (boxed_kept _ _ _ _ _ _ _ Hbox).
  destruct (boxed_clamp _ _ _ _ _ _ _ Hbox) as [-> _].
  destruct Hbox as (Hw & Hh & Hx0 & Hy0 & Hx1' & Hy1'). split.
  - repeat (apply andb_true_intro; split); apply Z.leb_le; lia.
  - rewrite !Z.min_l by lia.
    rewrite (insert_id row "xmin") by exact Hx0.
    rewrite (insert_id row "ymin") by exact Hy0.
    rewrite (insert_id row "xmax") by exact Hx1'.
    now rewrite (insert_id row "ymax") by exact Hy1'.
Qed.

Lemma kept_row_within (row : Annotation) :
  has_box row -> kept_row row = true -> within_image (clamp_row row).
Proof.
  intros (w & h & x0 & y0 & x1 & y1 & Hbox) Hkept.
  rewrite (boxed_kept _ _ _ _ _ _ _ Hbox) in Hkept.
  repeat (apply andb_prop in Hkept; destruct Hkept as [Hkept ?]).
  destruct (boxed_clamp _ _ _ _ _ _ _ Hbox) as [_ Hbox'].
  exists w, h, (Z.min x0 w), (Z.min y0 h), (Z.min x1 w), (Z.min y1 h).
  split; [exact Hbox' | lia].
Qed.

Lemma within_image_has_box (row : Annotation) : within_image row -> has_box row.
Proof. intros (w & h & x0 & y0 & x1 & y1 & Hbox & _). now exists w, h, x0, y0, x1, y1. Qed.


Lemma kept_rows_within (rows : list Annotation) :
  Forall has_box rows -> Forall within_image (map clamp_row (List.filter kept_row rows)).
Proof.
  intros Hrows. apply List.Forall_forall. intros row' Hin. apply in_map_iff in Hin.
  destruct Hin as (row & <- & Hin). apply filter_In in Hin. destruct Hin as [Hin Hkept].
  rewrite List.Forall_forall in Hrows. now apply kept_row_within; [apply Hrows |].
Qed.

Lemma within_rows_fixed (rows : list Annotation) :
  Forall within_image rows -> map clamp_row (List.filter kept_row rows) = rows.
Proof.
  induction 1 as [|row rows Hrow _ IH]; simpl; [reflexivity |].
  destruct (within_image_fixed row Hrow) as [-> Hfixed]. simpl. now rewrite Hfixed, IH.
Qed.



(** X4: the cleaning is idempotent: cleaning a cleaned table changes
    nothing. *)
Theorem cleaning_idempotent (df df' : DataFrame) :
  table_of_boxes df ->
  clean_annotations df = Ok df' ->
  clean_annotations df' = Ok df'.
Proof.
  intros Htable. rewrite (clean_annotations_rows df Htable). intros [= <-].
  destruct Htable as [Hcols Hrows].
  pose proof (kept_rows_within _ Hrows) as Hwithin.
  assert (Htable' : table_of_boxes
            (mk_frame (df_columns df) (map clamp_row (List.filter kept_row (df_rows df))))).
  { split; [exact Hcols |]. simpl. eapply Forall_impl; [exact Hwithin |].
    exact within_image_has_box. }
  rewrite (clean_annotations_rows _ Htable'). simpl.
  now rewrite (within_rows_fixed _ Hwithin).
Qed.

End Cleaning.

Section CleaningRun.
Import Tables.

Lemma raw_table_of_boxes : table_of_boxes raw.
Proof.
  split.
  - apply (bool_decide_unpack _). vm_compute. exact I.
  - repeat constructor; do 6 eexists; repeat split; reflexivity.
Qed.

Lemma cleaned_rows_within : Forall within_image (df_rows cleaned).
Proof.
  repeat constructor; do 6 eexists; (split; [repeat split; reflexivity | lia]).
Qed.




Lemma cleaning_idempotent_witness : clean_annotations cleaned = Ok cleaned.
Proof.
  apply (cleaning_idempotent raw cleaned raw_table_of_boxes). reflexivity.
Defined.

End CleaningRun.

(** ** What the loading functions return *)

Section Loading.
Context `{Runtime}.

Lemma for_fold_invariant {A B} (P : B -> Prop) (body : B -> A -> M B) (xs : list A) :
  (forall acc x s acc' s', P acc -> body acc x s = (Ok acc', s') -> P acc') ->
  forall acc s acc' s', P acc -> for_fold xs acc body s = (Ok acc', s') -> P acc'.
Proof.
  intros Hbody. induction xs as [|x xs IH]; intros acc s acc' s' Hacc; simpl.
  - unfold ret. now intros [= <- _].
  - unfold bind. destruct (body acc x s) as [[acc1|e] s1] eqn:Hrun; [| discriminate].
    apply IH. now apply (Hbody acc x s acc1 s1).
Qed.

(** The two nested loops over the folders and their files keep what every
    turn keeps. *)
Lemma walk_invariant {B} (P : B -> Prop) (body : B -> string -> M B)
    (annotations_path : string) :
  (forall acc annotation_path s acc' s',
     P acc -> body acc annotation_path s = (Ok acc', s') -> P acc') ->
  forall acc0 s acc' s',
    P acc0 ->
    (folders <- read_fs (fun f => os_listdir f annotations_path) ;;
     for_fold folders acc0 (fun acc annotation_folder =>
       let folder_path := os_path_join annotations_path annotation_folder in
       files <- read_fs (fun f => os_listdir f folder_path) ;;
       for_fold files acc (fun acc annotation_file =>
         body acc (os_path_join folder_path annotation_file)))) s = (Ok acc', s') ->
    P acc'.
Proof.
  intros Hbody acc0 s acc' s' Hacc0. unfold bind at 1, read_fs at 1.
  destruct (os_listdir (fs s) annotations_path) as [folders|]; [| discriminate].
  apply for_fold_invariant; [| exact Hacc0].
  intros acc folder s1 acc1 s1' Hacc. cbv zeta. unfold bind at 1, read_fs at 1.
  destruct (os_listdir (fs s1) _) as [files|]; [| discriminate].
  apply for_fold_invariant; [| exact Hacc].
  intros acc2 file s2 acc2' s2'. apply Hbody.
Qed.

Lemma load_annotations_parsed (annotations_path : string) (s : State)
    (records : list Annotation) :
  fst (load_annotations annotations_path s) = Ok records -> Forall parsed records.
Proof.
  intros Hrun. destruct (load_annotations annotations_path s) as [r s'] eqn:Hload.
  simpl in Hrun. subst r. revert Hload. unfold load_annotations.
  apply (walk_invariant (Forall parsed)
           (fun annotations annotation_path =>
              annotation_data <- parse_annotation annotation_path ;;
              ret (annotations ++ [annotation_data]))); [| constructor].
  intros acc p s1 acc1 s1' Hacc. unfold bind, ret.
  destruct (parse_annotation p s1) as [[d|e] s2] eqn:Hparse; [| discriminate].
  intros [= <- _]. apply Forall_app. split; [exact Hacc |].
  repeat constructor. exists p, s1. now rewrite Hparse.
Qed.

Lemma parsed_has_box (d : Annotation) : parsed d -> has_box d /\ box_columns ⊆ dom d.
Proof.
  intros (p & s & Hd).
  destruct (parse_annotation_record p s d Hd)
    as (filename & class & w & h & x0 & y0 & x1 & y1 & ->).
  split.
  - exists w, h, x0, y0, x1, y1. unfold boxed. now simplify_map_eq.
  - rewrite !dom_insert_L, dom_empty_L. apply (bool_decide_unpack _). vm_compute. exact I.
Qed.

Lemma loaded_table_of_boxes (records : list Annotation) :
  Forall parsed records -> records <> [] -> table_of_boxes (pd_DataFrame records).
Proof.
  intros Hparsed Hne. split.
  - destruct Hparsed as [|d records Hd _]; [congruence |].
    destruct (parsed_has_box d Hd) as [_ Hdom]. simpl.
    intros name Hname. apply elem_of_union. left. now apply Hdom.
  - simpl. eapply Forall_impl; [exact Hparsed |]. intros d Hd. now apply parsed_has_box.
Qed.


(** What a turn of the preprocessing loop that returns has done. *)
Lemma preprocess_record_result images_path acc annotation_path s acc' s' :
  preprocess_record images_path acc annotation_path s = (Ok acc', s') ->
  acc' = acc \/
  exists d image a,
    fst (parse_annotation annotation_path s) = Ok d /\
    preprocess_image image d = Ok a /\
    acc' = (fst acc ++ [a], snd acc ++ [d]).
Proof.
  unfold preprocess_record, bind at 1.
  destruct (parse_annotation annotation_path s) as [[d|e] s1] eqn:Hparse; [| discriminate].
  unfold bind at 1, lift at 1. destruct (getitem d "filename") as [v|]; [| discriminate].
  unfold bind at 1, lift at 1. destruct (str_add v ".jpg") as [image_file|]; [| discriminate].
  destruct (contains _ _); [unfold ret; intros [= <- _]; now left |].
  unfold bind, try_open, lift, ret.
  destruct (Image_open (fs s1) _) as [image | []]; try discriminate.
  - destruct (preprocess_image image d) as [a|] eqn:Ha; [| discriminate].
    intros [= <- _]. right. now exists d, image, a.
  - intros [= <- _]. now left.
Qed.

Lemma preprocess_all_processed images_path annotations_path s imgs anns :
  fst (preprocess_all images_path annotations_path s) = Ok (imgs, anns) ->
  Forall2 processed imgs anns.
Proof.
  intros Hrun. destruct (preprocess_all images_path annotations_path s) as [r s'] eqn:Hall.
  simpl in Hrun. subst r. revert Hall. unfold preprocess_all.
  intros Hall.
  apply (walk_invariant (fun acc => Forall2 processed (fst acc) (snd acc))
           (preprocess_record images_path) annotations_path) in Hall;
    [exact Hall | | constructor].
  intros acc p s1 acc1 s1' Hacc Hstep.
  destruct (preprocess_record_result _ _ _ _ _ _ Hstep)
    as [-> | (d & image & a & Hd & Ha & ->)]; [exact Hacc |].
  simpl. apply Forall2_app; [exact Hacc |]. repeat constructor.
  - now exists p, s1.
  - now exists image.
Qed.

Lemma processed_well_shaped (a : ndarray float) (d : Annotation) :
  processed a d -> well_shaped a.
Proof.
  intros [_ [image Ha]].
  destruct (preprocess_image_shape_range image d a Ha) as (Hshape & Hlen & _).
  unfold well_shaped. rewrite Hshape, Hlen.
  destruct (Nat.eqb_spec (bands (mode image)) 1) as [E|E]; unfold size_of, fold_right; lia.
Qed.

(** The rows of a stack are the arrays stacked. *)
Lemma slice_flat_map {A} (arrays : list (ndarray A)) (k i : nat) (a : ndarray A) :
  Forall (fun b => length (data b) = k) arrays ->
  nth_error arrays i = Some a ->
  firstn k (skipn (i * k) (flat_map data arrays)) = data a.
Proof.
  intros Hlen. revert i. induction Hlen as [|b arrays Hb _ IH]; intros i Hi.
  - now destruct i.
  - destruct i as [|i]; simpl in *.
    + injection Hi as ->. now apply take_app_length'.
    + rewrite drop_app_add' by (symmetry; exact Hb). now apply IH.
Qed.

Lemma np_stack_shapes {A} (arrays : list (ndarray A)) (stacked : ndarray A) :
  np_stack arrays = Ok stacked ->
  stacked = mk_ndarray (length arrays :: match arrays with [] => [] | a :: _ => shape a end)
                       (flat_map data arrays) /\
  forall a b, In a arrays -> In b arrays -> shape a = shape b.
Proof.
  unfold np_stack. destruct arrays as [|a0 arrays]; [intros [= <-]; now split |].
  destruct (forallb _ _) eqn:Hall; [| discriminate]. intros [= <-]. split; [reflexivity |].
  rewrite forallb_forall in Hall.
  assert (Hshape : forall a, In a (a0 :: arrays) -> shape a = shape a0).
  { intros a Ha. specialize (Hall a Ha). unfold same_shape in Hall.
    now apply bool_decide_eq_true in Hall. }
  intros a b Ha Hb. now rewrite (Hshape a Ha), (Hshape b Hb).
Qed.

Lemma np_row_stack {A} (arrays : list (ndarray A)) (stacked a : ndarray A) (i : nat) :
  np_stack arrays = Ok stacked ->
  Forall well_shaped arrays ->
  nth_error arrays i = Some a ->
  np_row stacked (Z.of_nat i) = Ok a.
Proof.
  intros Hstack Hwell Hi.
  destruct (np_stack_shapes _ _ Hstack) as [-> Hshapes].
  destruct arrays as [|a0 arrays]; [now destruct i |].
  assert (Hin : In a (a0 :: arrays)) by (eapply nth_error_In; exact Hi).
  assert (Hshape : shape a = shape a0) by (apply Hshapes; [exact Hin | now left]).
  assert (Hlt : (i < length (a0 :: arrays))%nat) by (apply nth_error_Some; congruence).
  unfold np_row. cbn [shape data].
  destruct (Z.of_nat i <? 0) eqn:E; [lia |].
  destruct ((Z.of_nat i <? 0) || (Z.of_nat (length (a0 :: arrays)) <=? Z.of_nat i)) eqn:E'.
  { apply orb_true_iff in E'. destruct E' as [E' | E']; lia. }
  rewrite Nat2Z.id, (slice_flat_map (a0 :: arrays) (size_of (shape a0)) i a).
  - rewrite <- Hshape. now destruct a.
  - apply List.Forall_forall. intros b Hb.
    rewrite List.Forall_forall in Hwell. rewrite (Hwell b Hb).
    f_equal. apply Hshapes; [exact Hb | now left].
  - exact Hi.
Qed.

Lemma np_stack_mixed {A} (arrays : list (ndarray A)) (a b : ndarray A) :
  In a arrays -> In b arrays -> shape a <> shape b -> np_stack arrays = Raise ValueError.
Proof.
  intros Ha Hb Hne. destruct (np_stack arrays) as [stacked|e] eqn:Hstack.
  - destruct (np_stack_shapes _ _ Hstack) as [_ Hshapes]. now destruct (Hne (Hshapes a b Ha Hb)).
  - revert Hstack. unfold np_stack. destruct arrays; [destruct Ha |].
    destruct (forallb _ _); [discriminate | now intros [= <-]].
Qed.

Lemma load_and_preprocess_images_stack images_path annotations_path s imgs anns :
  fst (preprocess_all images_path annotations_path s) = Ok (imgs, anns) ->
  fst (load_and_preprocess_images images_path annotations_path s)
  = (let? processed_images := np_stack imgs in Ok (processed_images, anns)).
Proof.
  intros Hall. unfold load_and_preprocess_images, bind at 1.
  destruct (preprocess_all images_path annotations_path s) as [r s1]. simpl in Hall. subst r.
  unfold bind, lift, ret. simpl. now destruct (np_stack imgs).
Qed.

Lemma load_and_preprocess_images_inv images_path annotations_path s arr anns :
  fst (load_and_preprocess_images images_path annotations_path s) = Ok (arr, anns) ->
  exists imgs,
    fst (preprocess_all images_path annotations_path s) = Ok (imgs, anns) /\
    np_stack imgs = Ok arr.
Proof.
  unfold load_and_preprocess_images, bind at 1.
  destruct (preprocess_all images_path annotations_path s) as [[[imgs anns']|e] s1];
    [| discriminate].
  unfold bind, lift, ret. simpl.
  destruct (np_stack imgs) as [stacked|] eqn:Hstack; [| discriminate].
  simpl. intros [= <- <-]. now exists imgs.
Qed.

Lemma processed_all_well_shaped (imgs : list (ndarray float)) (anns : list Annotation) :
  Forall2 processed imgs anns -> Forall well_shaped imgs.
Proof.
  induction 1 as [|a d imgs anns Ha _ IH]; constructor; [| exact IH].
  now apply (processed_well_shaped a d).
Qed.


(** X7: images of different numbers of bands cannot be loaded together: as
    soon as the images processed include two whose modes differ in their
    bands, a grey one among colour ones say, [load_and_preprocess_images]
    ends in a value error instead of returning the array. *)
Theorem mixed_bands_fail
    (images_path annotations_path : string) (s : State)
    (imgs : list (ndarray float)) (anns : list Annotation)
    (a b : ndarray float) (image_a image_b : Image) (d_a d_b : Annotation) :
  fst (preprocess_all images_path annotations_path s) = Ok (imgs, anns) ->
  In a imgs -> In b imgs ->
  preprocess_image image_a d_a = Ok a ->
  preprocess_image image_b d_b = Ok b ->
  bands (mode image_a) <> bands (mode image_b) ->
  fst (load_and_preprocess_images images_path annotations_path s) = Raise ValueError.
Proof.
  intros Hall Ha Hb Himg_a Himg_b Hbands.
  rewrite (load_and_preprocess_images_stack _ _ _ _ _ Hall).
  rewrite (np_stack_mixed imgs a b Ha Hb); [reflexivity |].
  destruct (preprocess_image_shape_range _ _ _ Himg_a) as (-> & _).
  destruct (preprocess_image_shape_range _ _ _ Himg_b) as (-> & _).
  destruct (Nat.eqb_spec (bands (mode image_a)) 1) as [Ea|Ea];
    destruct (Nat.eqb_spec (bands (mode image_b)) 1) as [Eb|Eb]; congruence.
Qed.

(** Two loops over the same list, run from the same state, keep a relation
    between what they gather when each of their turns does. *)
Lemma for_fold_related {A B1 B2} (R : B1 -> B2 -> Prop)
    (body1 : B1 -> A -> M B1) (body2 : B2 -> A -> M B2) (xs : list A) (s : State) :
  (forall acc x, reads_files (body1 acc x)) ->
  (forall acc x, reads_files (body2 acc x)) ->
  (forall x acc1 acc2 acc1' acc2',
     R acc1 acc2 -> fst (body1 acc1 x s) = Ok acc1' -> fst (body2 acc2 x s) = Ok acc2' ->
     R acc1' acc2') ->
  forall acc1 acc2 acc1' acc2',
    R acc1 acc2 ->
    fst (for_fold xs acc1 body1 s) = Ok acc1' ->
    fst (for_fold xs acc2 body2 s) = Ok acc2' ->
    R acc1' acc2'.
Proof.
  intros Hreads1 Hreads2 Hstep.
  induction xs as [|x xs IH]; intros acc1 acc2 acc1' acc2' HR; simpl.
  - unfold ret. simpl. now intros [= <-] [= <-].
  - unfold bind.
    destruct (Hreads1 acc1 x s) as [Hs1 _]. destruct (Hreads2 acc2 x s) as [Hs2 _].
    pose proof (Hstep x acc1 acc2) as Hx.
    destruct (body1 acc1 x s) as [[r1|e1] s1]; [| discriminate].
    destruct (body2 acc2 x s) as [[r2|e2] s2]; [| discriminate].
    simpl in *. subst s1 s2. apply IH. now apply Hx.
Qed.

Lemma walk_related {B1 B2} (R : B1 -> B2 -> Prop)
    (body1 : B1 -> string -> M B1) (body2 : B2 -> string -> M B2)
    (annotations_path : string) (s : State) :
  (forall acc p, reads_files (body1 acc p)) ->
  (forall acc p, reads_files (body2 acc p)) ->
  (forall p acc1 acc2 acc1' acc2',
     R acc1 acc2 -> fst (body1 acc1 p s) = Ok acc1' -> fst (body2 acc2 p s) = Ok acc2' ->
     R acc1' acc2') ->
  forall acc1 acc2 acc1' acc2',
    R acc1 acc2 ->
    fst ((folders <- read_fs (fun f => os_listdir f annotations_path) ;;
          for_fold folders acc1 (fun acc annotation_folder =>
            let folder_path := os_path_join annotations_path annotation_folder in
            files <- read_fs (fun f => os_listdir f folder_path) ;;
            for_fold files acc (fun acc annotation_file =>
              body1 acc (os_path_join folder_path annotation_file)))) s) = Ok acc1' ->
    fst ((folders <- read_fs (fun f => os_listdir f annotations_path) ;;
          for_fold folders acc2 (fun acc annotation_folder =>
            let folder_path := os_path_join annotations_path annotation_folder in
            files <- read_fs (fun f => os_listdir f folder_path) ;;
            for_fold files acc (fun acc annotation_file =>
              body2 acc (os_path_join folder_path annotation_file)))) s) = Ok acc2' ->
    R acc1' acc2'.
Proof.
  intros Hreads1 Hreads2 Hstep acc1 acc2 acc1' acc2' HR H1 H2.
  unfold bind at 1, read_fs at 1 in H1. unfold bind at 1, read_fs at 1 in H2.
  destruct (os_listdir (fs s) annotations_path) as [folders|]; [| discriminate].
  revert H1 H2. apply for_fold_related; [| | | exact HR].
  - intros acc folder. apply reads_files_bind; [apply reads_files_read_fs | intros files].
    apply reads_files_for_fold. intros acc' file. apply Hreads1.
  - intros acc folder. apply reads_files_bind; [apply reads_files_read_fs | intros files].
    apply reads_files_for_fold. intros acc' file. apply Hreads2.
  - intros folder a1 a2 a1' a2' HR' H1 H2. cbv zeta in H1, H2.
    unfold bind at 1, read_fs at 1 in H1. unfold bind at 1, read_fs at 1 in H2.
    destruct (os_listdir (fs s) _) as [files|]; [| discriminate].
    revert H1 H2. apply for_fold_related; [| | | exact HR'].
    + intros acc file. apply Hreads1.
    + intros acc file. apply Hreads2.
    + intros file. apply Hstep.
Qed.

(** X8: the annotations that [load_and_preprocess_images] gathers beside the
    images are annotations of the table, in the order of the table: the list
    is what is left of the list of all annotations when the records without
    a readable image are taken out. *)
Theorem annotations_sublist_of_table
    (images_path annotations_path : string) (s : State)
    (table : list Annotation) (imgs : list (ndarray float)) (anns : list Annotation) :
  fst (load_annotations annotations_path s) = Ok table ->
  fst (preprocess_all images_path annotations_path s) = Ok (imgs, anns) ->
  anns `sublist_of` table.
Proof.
  unfold load_annotations, preprocess_all. intros Htable Hall.
  apply (walk_related (fun acc1 acc2 => snd acc2 `sublist_of` acc1)
           (fun annotations annotation_path =>
              annotation_data <- parse_annotation annotation_path ;;
              ret (annotations ++ [annotation_data]))
           (preprocess_record images_path) annotations_path s)
    with (acc1 := []) (acc2 := ([], [])) (acc1' := table) (acc2' := (imgs, anns));
    [| | | reflexivity | exact Htable | exact Hall].
  - intros acc p. apply reads_files_bind; [apply reads_files_parse_annotation |].
    intros d. apply reads_files_ret.
  - intros acc p. apply reads_files_preprocess_record.
  - intros p acc1 acc2 acc1' acc2' HR. unfold bind at 1, ret.
    destruct (parse_annotation p s) as [[d|e] s1] eqn:Hparse; [| discriminate].
    simpl. intros [= <-] Hstep.
    destruct (preprocess_record images_path acc2 p s) as [r s2] eqn:Hrun.
    simpl in Hstep. subst r.
    destruct (preprocess_record_result _ _ _ _ _ _ Hrun)
      as [-> | (d' & image & a & Hd' & _ & ->)].
    + now apply sublist_inserts_r.
    + rewrite Hparse in Hd'. simpl in Hd'. injection Hd' as <-. simpl.
      now apply sublist_app.
Qed.

End Loading.

Section LoadingRun.
Import Sample.



Lemma mixed_bands_fail_witness :
  fst (load_and_preprocess_images "all-dogs/" "Annotation/" start) = Raise ValueError.
Proof.
  eapply (mixed_bands_fail "all-dogs/" "Annotation/" start _ _ _ _
            colour_image grey_image
            (record "n02085620_7" 71 1 192 180) (record "n02085620_199" 25 10 276 498)).
  - reflexivity.
  - left. reflexivity.
  - right. left. reflexivity.
  - reflexivity.
  - reflexivity.
  - discriminate.
Defined.

Lemma annotations_sublist_of_table_witness :
  [record "n02085620_7" 71 1 192 180; record "n02085620_368" 10 20 300 200]
  `sublist_of`
  [record "n02085620_7" 71 1 192 180; record "n02085620_242" 0 0 100 90;
   record "n02085620_368" 10 20 300 200].
Proof.
  eapply (annotations_sublist_of_table "all-dogs/" "Annotation/" Colour.start).
  - reflexivity.
  - reflexivity.
Defined.

End LoadingRun.

(** ** Normalisation and the preview *)

Lemma byte_round_trip (overflow : float -> byte) (v : byte) :
  astype_uint8 overflow (float_of_byte v / 255 * 255)%float = v.
Proof. destruct v; vm_compute; reflexivity. Qed.

(** X9: the normalisation loses nothing: multiplying a normalised array by
    255 and casting it to unsigned bytes, as the preview does, gives back
    the bytes of the image exactly, on every platform. *)
Theorem normalisation_round_trip (overflow : float -> byte) (image : ndarray byte) :
  np_map (fun x => astype_uint8 overflow (x * 255)%float) (normalize_image image) = image.
Proof.
  destruct image as [sh bytes]. unfold normalize_image, np_map. simpl. f_equal.
  rewrite map_map. rewrite <- (map_id bytes) at 2. apply map_ext.
  intros v. apply byte_round_trip.
Qed.

Lemma in_all_bytes (v : byte) : In v all_bytes.
Proof.
  unfold all_bytes. apply in_map_iff. exists (N.to_nat (Byte.to_N v)). split.
  - now destruct v.
  - apply in_seq. pose proof (Byte.to_N_bounded v). lia.
Qed.

Lemma normalisation_order_checked :
  forallb (fun u =>
    forallb (fun v =>
      Bool.eqb (PrimFloat.ltb (float_of_byte u / 255) (float_of_byte v / 255))
               (Byte.to_N u <? Byte.to_N v)%N) all_bytes) all_bytes = true.
Proof. vm_compute. reflexivity. Qed.

(** X10: the normalisation keeps the order of the pixel values and nothing
    else: one normalised value is below another exactly when its byte is;
    and the ends of the range go to 0 and 1. *)
Theorem normalisation_increasing (u v : byte) :
  PrimFloat.ltb (float_of_byte u / 255) (float_of_byte v / 255)
    = (Byte.to_N u <? Byte.to_N v)%N /\
  (float_of_byte x00 / 255 = 0)%float /\
  (float_of_byte xff / 255 = 1)%float.
Proof.
  split; [| split; reflexivity].
  pose proof normalisation_order_checked as Hall.
  rewrite forallb_forall in Hall. specialize (Hall u (in_all_bytes u)).
  rewrite forallb_forall in Hall. specialize (Hall v (in_all_bytes v)).
  now apply Bool.eqb_prop.
Qed.

Lemma bgr2rgb3_nth (l : list byte) (n k c : nat) :
  length l = (3 * n)%nat -> (k < n)%nat -> (c < 3)%nat ->
  nth_error (bgr2rgb3 l) (3 * k + c) = nth_error l (3 * k + (2 - c)).
Proof.
  revert l k. induction n as [|n IH]; intros l k Hlen Hk Hc; [lia |].
  destruct l as [|b [|g [|r l]]]; simpl in Hlen; try lia.
  destruct k as [|k].
  - destruct c as [|[|[|c]]]; [reflexivity | reflexivity | reflexivity | lia].
  - replace (3 * S k + c)%nat with (S (S (S (3 * k + c)))) by lia.
    replace (3 * S k + (2 - c))%nat with (S (S (S (3 * k + (2 - c))))) by lia.
    cbn [bgr2rgb3 nth_error]. apply IH; lia.
Qed.

Section PreviewCell.
Context `{Runtime}.

Lemma preview_of_stack (overflow : float -> byte)
    (bytes : ndarray byte) (rest : list (ndarray float)) (arr : ndarray float) :
  np_stack (normalize_image bytes :: rest) = Ok arr ->
  Forall well_shaped (normalize_image bytes :: rest) ->
  preview overflow arr
  = Ok (match cv2_cvtColor_BGR2RGB bytes with
        | Some shown => Previewed shown
        | None => Cv2Error
        end).
Proof.
  intros Hstack Hwell.
  pose proof (np_row_stack _ _ _ 0%nat Hstack Hwell eq_refl) as Hrow.
  destruct (np_stack_shapes _ _ Hstack) as [Harr _].
  unfold preview, np_len. rewrite Harr at 1. cbn [shape length rbind].
  change (Z.of_nat 0) with 0 in Hrow. rewrite Hrow. cbn [rbind].
  destruct (Z.ltb_spec 0 (Z.of_nat (S (length rest)))); [| lia].
  assert (Hcast : np_map (fun x => astype_uint8 overflow (x * 255)%float)
                    (normalize_image bytes) = bytes).
  { destruct bytes as [sh l]. unfold normalize_image, np_map. simpl. f_equal.
    rewrite map_map. rewrite <- (map_id l) at 2. apply map_ext.
    intros v. apply byte_round_trip. }
  rewrite Hcast. now destruct (cv2_cvtColor_BGR2RGB bytes).
Qed.


End PreviewCell.

Section PreviewRun.
Import Sample.


End PreviewRun.

(** ** Annotation files with more than one object *)

Section FirstObject.
Context `{Runtime}.

Lemma select_child_app (t : string) (a b : list Element) :
  select_child t (a ++ b) = select_child t a ++ select_child t b.
Proof. unfold select_child. apply flat_map_app. Qed.

Lemma fold_select_app (path : list string) (a b : list Element) :
  fold_left (fun context t => select_child t context) path (a ++ b)
  = fold_left (fun context t => select_child t context) path a
    ++ fold_left (fun context t => select_child t context) path b.
Proof.
  revert a b. induction path as [|t path IH]; intros a b; [reflexivity |].
  cbn [fold_left]. rewrite select_child_app. apply IH.
Qed.

Lemma find_text_appended (tg : string) (tx : option string) (cs extra : list Element)
    (t : string) (path : list string) (v : option string) :
  find_text (Elem tg tx cs) (t :: path) = Ok v ->
  find_text (Elem tg tx (cs ++ extra)) (t :: path) = Ok v.
Proof.
  unfold find_text, find, findall. cbn [fold_left].
  unfold select_child at 2 4. cbn [flat_map children]. rewrite !app_nil_r.
  rewrite List.filter_app, fold_select_app.
  destruct (fold_left _ path (List.filter _ cs)) as [|e l]; [discriminate |].
  trivial.
Qed.

(** X12: only the first dog of a file is read.  When an annotation file
    parses into a record, the file with further elements after it, such as
    the [object] elements of more dogs, parses into the same record. *)
Theorem parse_annotation_first_object
    (annotation_file : string) (s s' : State)
    (tg : string) (tx : option string) (cs extra : list Element) (d : Annotation) :
  ET_parse (fs s) annotation_file = Ok (Elem tg tx cs) ->
  ET_parse (fs s') annotation_file = Ok (Elem tg tx (cs ++ extra)) ->
  fst (parse_annotation annotation_file s) = Ok d ->
  fst (parse_annotation annotation_file s') = Ok d.
Proof.
  intros Hs Hs'. unfold parse_annotation, bind, read_fs, lift. rewrite Hs, Hs'.
  cbn [fst].
  pose proof (fun t path v => find_text_appended tg tx cs extra t path v) as Happ.
  destruct (find_text (Elem tg tx cs) ["filename"]) as [filename|] eqn:E;
    [rewrite (Happ _ _ _ E); clear E | discriminate].
  cbn [rbind].
  do 2 (match goal with
        | |- context [find_text (Elem tg tx cs) ["size"; ?f]] =>
            destruct (find_text (Elem tg tx cs) ["size"; f]) as [?t|] eqn:E;
              [rewrite (Happ _ _ _ E); clear E | discriminate]
        end;
        cbn [rbind];
        match goal with
        | |- rbind (int_of_text ?t) _ = _ -> _ =>
            destruct (int_of_text t); [| discriminate]
        end;
        cbn [rbind]).
  destruct (find_text (Elem tg tx cs) ["object"; "name"]) as [class|] eqn:E;
    [rewrite (Happ _ _ _ E); clear E | discriminate].
  cbn [rbind].
  do 4 (match goal with
        | |- rbind (rbind (find_text (Elem tg tx cs) ?p) _) _ = _ -> _ =>
            destruct (find_text (Elem tg tx cs) p) as [?t|] eqn:E;
              [rewrite (Happ _ _ _ E); clear E | discriminate]
        end;
        cbn [rbind];
        match goal with
        | |- rbind (int_of_text ?t) _ = _ -> _ =>
            destruct (int_of_text t); [| discriminate]
        end;
        cbn [rbind]).
  trivial.
Qed.

End FirstObject.

Section FirstObjectRun.
Import Sample.

Lemma parse_annotation_first_object_witness :
  fst (parse_annotation "Annotation/n02085620-Chihuahua/n02085620_7" TwoDogs.start)
  = Ok (record "n02085620_7" 71 1 192 180).
Proof.
  apply (parse_annotation_first_object
           "Annotation/n02085620-Chihuahua/n02085620_7" start TwoDogs.start
           "annotation" None
           (children (annotation_xml "n02085620_7" "71" "1" "192" "180"))
           [TwoDogs.second_dog]).
  - reflexivity.
  - reflexivity.
  - reflexivity.
Defined.

End FirstObjectRun.

(** ** The files of a run *)

Lemma string_length_append (s1 s2 : string) :
  String.length (s1 +:+ s2) = (String.length s1 + String.length s2)%nat.
Proof. induction s1 as [|c s1 IH]; simpl; [reflexivity | now rewrite IH]. Qed.

Lemma string_app_inj_r (s1 s2 t : string) : s1 +:+ t = s2 +:+ t -> s1 = s2.
Proof.
  revert s2. induction s1 as [|c s1 IH]; intros [|c' s2] E.
  - reflexivity.
  - apply (f_equal String.length) in E.
    rewrite !string_length_append in E. simpl in E. lia.
  - apply (f_equal String.length) in E.
    rewrite !string_length_append in E. simpl in E. lia.
  - simpl in E. injection E as -> E. f_equal. now apply IH.
Qed.

Lemma str_of_int_inj (a b : Z) : str_of_int a = str_of_int b -> a = b.
Proof.
  unfold str_of_int. intros E. apply DecimalZ.to_int_inj.
  assert (Hread : forall z,
            NilZero.int_of_string (NilZero.string_of_int (Z.to_int z)) = Some (Z.to_int z)).
  { intros z. apply NilZero.isi; destruct z; simpl; try discriminate;
      intros [= E']; revert E'; apply DecimalPos.Unsigned.to_uint_nonnil. }
  pose proof (Hread a) as Ha. rewrite E, Hread in Ha. now injection Ha.
Qed.

Lemma image_name_inj (folder : string) (a b : Z) :
  image_name folder a = image_name folder b -> a = b.
Proof.
  unfold image_name. intros E.
  apply String.app_inj, String.app_inj, string_app_inj_r in E.
  now apply str_of_int_inj.
Qed.

Lemma written_of_grids (d : list Event) :
  omap written d
  = omap (fun g => match g with Saved path => Some path | Shown => None end)
         (omap grid_of d).
Proof.
  induction d as [|e d IH]; [reflexivity |].
  destruct e; simpl; first [exact IH | f_equal; exact IH].
Qed.

Lemma names_of_grids (epochs : list Z) :
  omap (fun g => match g with Saved path => Some path | Shown => None end)
       (flat_map grid_of_epoch epochs)
  = map (image_name "images/") epochs.
Proof. induction epochs as [|e l IH]; [reflexivity |]. simpl. f_equal. exact IH. Qed.

Lemma omap_prefix {A B} (f : A -> option B) (l1 l2 : list A) :
  l1 `prefix_of` l2 -> omap f l1 `prefix_of` omap f l2.
Proof. intros [k ->]. rewrite omap_app. now exists (omap f k). Qed.

Lemma NoDup_prefix {A} (l1 l2 : list A) : l1 `prefix_of` l2 -> NoDup l2 -> NoDup l1.
Proof. intros [k ->] Hnd. now apply NoDup_app in Hnd as [? _]. Qed.

Lemma NoDup_saving_epochs (epochs save_interval : Z) :
  NoDup (saving_epochs epochs save_interval).
Proof.
  unfold saving_epochs, py_range. apply NoDup_ListNoDup, List.NoDup_filter.
  apply NoDup_ListNoDup, (NoDup_fmap_2 Z.of_nat), NoDup_seq.
Qed.

Lemma saving_epochs_opp (epochs save_interval : Z) :
  saving_epochs epochs (- save_interval) = saving_epochs epochs save_interval.
Proof.
  unfold saving_epochs. apply filter_ext. intros epoch.
  destruct (Z.eq_dec save_interval 0) as [-> | Hsi]; [reflexivity |].
  destruct (Z.eqb_spec (epoch mod save_interval) 0) as [E|E].
  - apply Z.eqb_eq. now apply Z.mod_opp_r_z.
  - apply Z.eqb_neq. rewrite Z.mod_opp_r_nz by assumption.
    pose proof (Z.mod_bound_or epoch save_interval Hsi). lia.
Qed.

Section SavedFiles.
Context `{Runtime}.
Variables (processed_images : ndarray float) (gan generator discriminator : Model).
Variables (batch_size save_interval : Z).

(** X13: a run never writes a file twice.  The files written are, in order,
    those named after the saving epochs, or an initial part of them when the
    run raises, and the names of different epochs differ. *)
Theorem saved_files_distinct (epochs : Z) (s : State) :
  save_interval <> 0 ->
  exists d,
    log (snd (train_gan processed_images gan generator discriminator
                epochs batch_size save_interval s)) = log s ++ d /\
    (omap written d `prefix_of`
       map (image_name "images/") (saving_epochs epochs save_interval)) /\
    NoDup (omap written d) /\
    forall a b, image_name "images/" a = image_name "images/" b -> a = b.
Proof.
  intros Hsi.
  destruct (train_gan_saved processed_images gan generator discriminator
              batch_size save_interval epochs Hsi s) as (d & Hlog & Hgrids).
  exists d. split; [exact Hlog |].
  assert (Hprefix : omap written d `prefix_of`
            map (image_name "images/") (saving_epochs epochs save_interval)).
  { rewrite written_of_grids, <- names_of_grids. apply omap_prefix.
    destruct (fst (train_gan _ _ _ _ _ _ _ _)); [now rewrite Hgrids | exact Hgrids]. }
  split; [exact Hprefix |]. split; [| apply image_name_inj].
  apply (NoDup_prefix _ _ Hprefix), NoDup_fmap_2, NoDup_saving_epochs.
  intros a b. apply image_name_inj.
Qed.

(** X14: a negative [save_interval] is accepted and acts like its absolute
    value: the remainder of Python has the sign of the divisor and is zero
    for the same epochs, so the grids shown and written are those of the
    multiples of [- save_interval]. *)
Theorem negative_save_interval (epochs : Z) (s : State) :
  save_interval < 0 ->
  exists d,
    log (snd (train_gan processed_images gan generator discriminator
                epochs batch_size save_interval s)) = log s ++ d /\
    match fst (train_gan processed_images gan generator discriminator
                 epochs batch_size save_interval s) with
    | Ok _ =>
        omap grid_of d = flat_map grid_of_epoch (saving_epochs epochs (- save_interval))
    | Raise _ =>
        omap grid_of d `prefix_of`
          flat_map grid_of_epoch (saving_epochs epochs (- save_interval))
    end.
Proof.
  intros Hsi. rewrite saving_epochs_opp.
  apply (train_gan_saved processed_images gan generator discriminator
           batch_size save_interval epochs). lia.
Qed.

End SavedFiles.

Section SavedFilesRun.
Import Sample.

Lemma saved_files_distinct_witness :
  exists d,
    log (snd (train_gan processed_images gan generator discriminator 5 2 2 start))
      = log start ++ d /\
    (omap written d `prefix_of` map (image_name "images/") (saving_epochs 5 2)) /\
    NoDup (omap written d) /\
    forall a b, image_name "images/" a = image_name "images/" b -> a = b.
Proof.
  apply (saved_files_distinct processed_images gan generator discriminator 2 2 5 start).
  lia.
Defined.

Lemma negative_save_interval_witness :
  exists d,
    log (snd (train_gan processed_images gan generator discriminator 5 2 (-2) start))
      = log start ++ d /\
    match fst (train_gan processed_images gan generator discriminator 5 2 (-2) start) with
    | Ok _ => omap grid_of d = flat_map grid_of_epoch (saving_epochs 5 (- -2))
    | Raise _ => omap grid_of d `prefix_of` flat_map grid_of_epoch (saving_epochs 5 (- -2))
    end.
Proof.
  apply (negative_save_interval processed_images gan generator discriminator 2 (-2) 5 start).
  lia.
Defined.

End SavedFilesRun.

(** ** The report of a turn *)

Section Reports.
Context `{Runtime}.
Variables (processed_images : ndarray float) (gan generator discriminator : Model).
Variables (batch_size save_interval : Z).

Lemma train_step_run
    (valid fake : ndarray float) (s : State)
    (n : Z) (idx : list Z) (real_imgs noise gen_imgs noise' : ndarray float)
    (d_loss_real d_loss_fake d_sum g_loss : Loss) (rt1 rt2 rt3 rt4 rt5 rt6 rt7 : Rt) :
  shape0 processed_images = Ok n ->
  np_random_randint 0 n batch_size (rt s) = (Ok idx, rt1) ->
  np_take processed_images idx = Ok real_imgs ->
  np_random_normal batch_size 100 rt1 = (Ok noise, rt2) ->
  predict generator noise rt2 = (Ok gen_imgs, rt3) ->
  train_on_batch discriminator real_imgs valid rt3 = (Ok d_loss_real, rt4) ->
  train_on_batch discriminator gen_imgs fake rt4 = (Ok d_loss_fake, rt5) ->
  np_add d_loss_real d_loss_fake = Ok d_sum ->
  np_random_normal batch_size 100 rt5 = (Ok noise', rt6) ->
  train_on_batch gan noise' valid rt6 = (Ok g_loss, rt7) ->
  train_step processed_images gan generator discriminator batch_size valid fake s
  = (Ok (np_scale 0.5 d_sum, g_loss),
     mk_state (fs s) rt7
       (log s ++ turn_events batch_size n idx real_imgs noise gen_imgs noise' valid fake
                   d_loss_real d_loss_fake g_loss)).
Proof.
  intros Hn Hidx Hreal Hnoise Hgen Hd_real Hd_fake Hsum Hnoise' Hg.
  unfold train_step, bind, lift, call, ret. rewrite Hn. cbn [rt fs log].
  rewrite Hidx, Hreal. cbn [rt fs log].
  rewrite Hnoise. cbn [rt fs log]. rewrite Hgen. cbn [rt fs log].
  rewrite Hd_real. cbn [rt fs log]. rewrite Hd_fake, Hsum. cbn [rt fs log rbind].
  rewrite Hnoise'. cbn [rt fs log]. rewrite Hg. cbn [rt fs log].
  unfold turn_events. repeat rewrite <- app_assoc. reflexivity.
Qed.

(** X15: what a turn reports.  With a discriminator that returns its loss
    and its accuracy, the line printed in a saving epoch carries the mean of
    the two losses, a hundred times the mean of the two accuracies and the
    loss of the combined model; it is printed after the three updates and
    before the grid is drawn.  In any other epoch the turn ends with the
    update of the generator. *)
Theorem report_prints_means
    (valid fake : ndarray float) (epoch : Z) (s : State)
    (n : Z) (idx : list Z) (real_imgs noise gen_imgs noise' : ndarray float)
    (loss_real acc_real loss_fake acc_fake : float) (g_loss : Loss)
    (rt1 rt2 rt3 rt4 rt5 rt6 rt7 : Rt) :
  save_interval <> 0 ->
  shape0 processed_images = Ok n ->
  np_random_randint 0 n batch_size (rt s) = (Ok idx, rt1) ->
  np_take processed_images idx = Ok real_imgs ->
  np_random_normal batch_size 100 rt1 = (Ok noise, rt2) ->
  predict generator noise rt2 = (Ok gen_imgs, rt3) ->
  train_on_batch discriminator real_imgs valid rt3 = (Ok (Metrics [loss_real; acc_real]), rt4) ->
  train_on_batch discriminator gen_imgs fake rt4 = (Ok (Metrics [loss_fake; acc_fake]), rt5) ->
  np_random_normal batch_size 100 rt5 = (Ok noise', rt6) ->
  train_on_batch gan noise' valid rt6 = (Ok g_loss, rt7) ->
  let trained :=
    log s ++ turn_events batch_size n idx real_imgs noise gen_imgs noise' valid fake
               (Metrics [loss_real; acc_real]) (Metrics [loss_fake; acc_fake]) g_loss in
  train_iteration processed_images gan generator discriminator batch_size save_interval
    valid fake epoch s
  = if epoch mod save_interval =? 0
    then save_images generator epoch "images/"
           (mk_state (fs s) rt7
              (trained ++ [EvPrint epoch (0.5 * (loss_real + loss_fake))
                             (100 * (0.5 * (acc_real + acc_fake))) g_loss]))
    else (Ok tt, mk_state (fs s) rt7 trained).
Proof.
  intros Hsi Hn Hidx Hreal Hnoise Hgen Hd_real Hd_fake Hnoise' Hg trained.
  unfold train_iteration, bind at 1.
  rewrite (train_step_run valid fake s n idx real_imgs noise gen_imgs noise'
             _ _ (Metrics [loss_real + loss_fake; acc_real + acc_fake]%float) g_loss
             rt1 rt2 rt3 rt4 rt5 rt6 rt7
             Hn Hidx Hreal Hnoise Hgen Hd_real Hd_fake eq_refl Hnoise' Hg).
  cbn [fst snd]. unfold report, py_mod.
  destruct (Z.eqb_spec save_interval 0) as [E|_]; [contradiction |].
  unfold bind at 1, lift at 1.
  assert (Hcond : (epoch mod save_interval =? 0) || (epoch =? 0)
                  = (epoch mod save_interval =? 0)).
  { destruct (Z.eqb_spec epoch 0) as [-> | _]; [| apply orb_false_r].
    now rewrite Z.mod_0_l. }
  rewrite Hcond. destruct (epoch mod save_interval =? 0); reflexivity.
Qed.

(** X16: a discriminator compiled without a metric stops the run at its
    first report.  When its updates return a bare loss, the first turn
    trains both models and then raises an index error on [d_loss[0]]:
    nothing is printed or saved, and the remaining turns are not run. *)
Theorem loss_without_metric_stops_run
    (epochs : Z) (s : State)
    (n : Z) (idx : list Z) (real_imgs noise gen_imgs noise' : ndarray float)
    (loss_real loss_fake : float) (g_loss : Loss)
    (rt1 rt2 rt3 rt4 rt5 rt6 rt7 : Rt) :
  0 < epochs -> 0 <= batch_size -> save_interval <> 0 ->
  let valid := column 1 batch_size in
  let fake := column 0 batch_size in
  shape0 processed_images = Ok n ->
  np_random_randint 0 n batch_size (rt s) = (Ok idx, rt1) ->
  np_take processed_images idx = Ok real_imgs ->
  np_random_normal batch_size 100 rt1 = (Ok noise, rt2) ->
  predict generator noise rt2 = (Ok gen_imgs, rt3) ->
  train_on_batch discriminator real_imgs valid rt3 = (Ok (Scalar loss_real), rt4) ->
  train_on_batch discriminator gen_imgs fake rt4 = (Ok (Scalar loss_fake), rt5) ->
  np_random_normal batch_size 100 rt5 = (Ok noise', rt6) ->
  train_on_batch gan noise' valid rt6 = (Ok g_loss, rt7) ->
  train_gan processed_images gan generator discriminator epochs batch_size save_interval s
  = (Raise IndexError,
     mk_state (fs s) rt7
       (log s ++ turn_events batch_size n idx real_imgs noise gen_imgs noise' valid fake
                   (Scalar loss_real) (Scalar loss_fake) g_loss)).
Proof.
  intros Hepochs Hbs Hsi valid fake Hn Hidx Hreal Hnoise Hgen Hd_real Hd_fake Hnoise' Hg.
  unfold train_gan, np_ones, np_zeros, np_full.
  destruct (Z.ltb_spec batch_size 0) as [? | _]; [lia |]. cbn [orb Z.ltb Z.compare].
  unfold bind at 1, lift at 1. unfold bind at 1, lift at 1.
  change (Z.to_nat 1) with 1%nat.
  fold (column 1 batch_size) (column 0 batch_size). fold valid fake.
  unfold py_range. destruct (Z.to_nat epochs) as [|k] eqn:E; [lia |].
  cbn [seq map for_each]. change (Z.of_nat 0) with 0.
  unfold bind at 1, train_iteration at 1, bind at 1.
  rewrite (train_step_run valid fake s n idx real_imgs noise gen_imgs noise'
             _ _ (Scalar (loss_real + loss_fake)) g_loss
             rt1 rt2 rt3 rt4 rt5 rt6 rt7
             Hn Hidx Hreal Hnoise Hgen Hd_real Hd_fake eq_refl Hnoise' Hg).
  cbn [fst snd]. unfold report, py_mod.
  destruct (Z.eqb_spec save_interval 0) as [? | _]; [contradiction |].
  unfold bind at 1, lift at 1. rewrite Z.mod_0_l by exact Hsi.
  cbn [Z.eqb orb]. unfold bind at 1, lift at 1. reflexivity.
Qed.

End Reports.

Section ReportsRun.
Import Sample.

Lemma report_prints_means_witness :
  let valid := column 1 2 in
  let fake := column 0 2 in
  let real_imgs := mk_ndarray [2; 2]%nat [0; 0.125; 0.25; 0.375]%float in
  let trained :=
    log start ++ turn_events 2 3 [0; 1] real_imgs (noise 2 100) (answer (noise 2 100))
                   (noise 2 100) valid fake
                   (Metrics [0.75; 0.5]%float) (Metrics [0.75; 0.5]%float) (Scalar 1.5) in
  train_iteration processed_images gan generator discriminator 2 2 valid fake 0 start
  = if 0 mod 2 =? 0
    then save_images generator 0 "images/"
           (mk_state (fs start) 3%nat
              (trained ++ [EvPrint 0 (0.5 * (0.75 + 0.75)) (100 * (0.5 * (0.5 + 0.5)))
                             (Scalar 1.5)]))
    else (Ok tt, mk_state (fs start) 3%nat trained).
Proof.
  apply (report_prints_means processed_images gan generator discriminator 2 2
           (column 1 2) (column 0 2) 0 start
           3 [0; 1] (mk_ndarray [2; 2]%nat [0; 0.125; 0.25; 0.375]%float)
           (noise 2 100) (answer (noise 2 100)) (noise 2 100)
           0.75%float 0.5%float 0.75%float 0.5%float (Scalar 1.5)
           1%nat 2%nat 2%nat 2%nat 2%nat 3%nat 3%nat);
    [lia | reflexivity ..].
Defined.

Lemma loss_without_metric_stops_run_witness :
  let real_imgs := mk_ndarray [2; 2]%nat [0; 0.125; 0.25; 0.375]%float in
  train_gan processed_images gan generator gan 3 2 2 start
  = (Raise IndexError,
     mk_state (fs start) 3%nat
       (log start ++ turn_events 2 3 [0; 1] real_imgs (noise 2 100) (answer (noise 2 100))
                       (noise 2 100) (column 1 2) (column 0 2)
                       (Scalar 1.5) (Scalar 1.5) (Scalar 1.5))).
Proof.
  apply (loss_without_metric_stops_run processed_images gan generator gan 2 2
           3 start
           3 [0; 1] (mk_ndarray [2; 2]%nat [0; 0.125; 0.25; 0.375]%float)
           (noise 2 100) (answer (noise 2 100)) (noise 2 100)
           1.5%float 1.5%float (Scalar 1.5)
           1%nat 2%nat 2%nat 2%nat 2%nat 3%nat 3%nat);
    [lia | lia | lia | reflexivity ..].
Defined.

End ReportsRun.

(** ** The real batches of the training *)

Section RealBatch.
Context `{Runtime}.

Lemma Forall2_nth_error {A B} (P : A -> B -> Prop) (l1 : list A) (l2 : list B)
    (i : nat) (b : B) :
  Forall2 P l1 l2 -> nth_error l2 i = Some b ->
  exists a, nth_error l1 i = Some a /\ P a b.
Proof.
  intros Hall. revert i. induction Hall as [|a0 b0 l1 l2 H0 _ IH]; intros [|i] Hi;
    try discriminate.
  - injection Hi as <-. now exists a0.
  - now apply IH.
Qed.

Lemma processed_unit_interval (a : ndarray float) (d : Annotation) :
  processed a d -> Forall unit_interval (data a).
Proof.
  intros [_ [image Ha]]. now destruct (preprocess_image_shape_range _ _ _ Ha) as (_ & _ & ?).
Qed.

Lemma take_processed_rows (imgs : list (ndarray float)) (anns : list Annotation)
    (arr : ndarray float) (idx : list Z) :
  Forall2 processed imgs anns ->
  (forall i a, nth_error imgs i = Some a -> np_row arr (Z.of_nat i) = Ok a) ->
  Forall (fun i => 0 <= i < Z.of_nat (length anns)) idx ->
  exists rows,
    collect (map (np_row arr) idx) = Ok rows /\
    Forall2 (fun i row => exists d, nth_error anns (Z.to_nat i) = Some d /\ processed row d)
            idx rows.
Proof.
  intros Hpairs Hrow. induction 1 as [|i idx Hi _ (rows & Hrows & Hall)].
  - exists []. split; [reflexivity | constructor].
  - destruct (nth_error anns (Z.to_nat i)) as [d|] eqn:Hd.
    2: { apply nth_error_None in Hd. lia. }
    destruct (Forall2_nth_error _ _ _ _ _ Hpairs Hd) as (a & Ha & Hprocessed).
    exists (a :: rows). split.
    + cbn [map collect]. apply Hrow in Ha. rewrite Z2Nat.id in Ha by lia.
      now rewrite Ha, Hrows.
    + constructor; [now exists d | exact Hall].
Qed.


End RealBatch.

Section RealBatchRun.
Import Sample.


End RealBatchRun.

(** ** The search for hyperparameters *)

(** The order of the floats, read on their binary form. *)
Lemma SFltb_trans (x y z : spec_float) :
  SFltb x y = true -> SFltb y z = true -> SFltb x z = true.
Proof.
  unfold SFltb, SFcompare.
  destruct x as [sx|sx| |sx mx ex], y as [sy|sy| |sy my ey], z as [sz|sz| |sz mz ez];
    try discriminate; try reflexivity;
    repeat match goal with s : bool |- _ => destruct s end;
    try discriminate; try reflexivity; intros Hxy Hyz.
  all: change (PosDef.Pos.compare_cont Eq) with Pos.compare in *.
  all: destruct (Z.compare_spec ex ey); try discriminate;
       destruct (Z.compare_spec ey ez); try discriminate;
       destruct (Z.compare_spec ex ez); try reflexivity; try lia; subst.
  all: revert Hxy Hyz;
       destruct (Pos.compare_spec mx my); try discriminate;
       destruct (Pos.compare_spec my mz); try discriminate;
       destruct (Pos.compare_spec mx mz); try reflexivity; try lia; subst.
Qed.

Lemma SFltb_irrefl (x : spec_float) : SFltb x x = false.
Proof.
  unfold SFltb, SFcompare. destruct x as [s|s| |s m e]; try reflexivity;
    destruct s; try reflexivity.
  all: rewrite Z.compare_refl; change (PosDef.Pos.compare_cont Eq) with Pos.compare;
       now rewrite Pos.compare_refl.
Qed.

Lemma SFltb_below (x b y : spec_float) :
  SFltb x b = true -> SFltb y b = false -> SFltb y (S754_infinity false) = true ->
  SFltb x y = true.
Proof.
  unfold SFltb, SFcompare.
  destruct x as [sx|sx| |sx mx ex], b as [sb|sb| |sb mb eb], y as [sy|sy| |sy my ey];
    try discriminate; try reflexivity;
    repeat match goal with s : bool |- _ => destruct s end;
    try discriminate; try reflexivity; intros Hxb Hyb _.
  all: change (PosDef.Pos.compare_cont Eq) with Pos.compare in *.
  all: destruct (Z.compare_spec ex eb); try discriminate;
       destruct (Z.compare_spec ey eb); try discriminate;
       destruct (Z.compare_spec ex ey); try reflexivity; try lia; subst.
  all: revert Hxb Hyb;
       destruct (Pos.compare_spec mx mb); try discriminate;
       destruct (Pos.compare_spec my mb); try discriminate;
       destruct (Pos.compare_spec mx my); try reflexivity; try lia; subst.
Qed.

Lemma float_ltb_trans (x y z : float) :
  (x <? y)%float = true -> (y <? z)%float = true -> (x <? z)%float = true.
Proof. rewrite !FloatAxioms.ltb_spec. apply SFltb_trans. Qed.

Lemma float_ltb_irrefl (x : float) : (x <? x)%float = false.
Proof. rewrite FloatAxioms.ltb_spec. apply SFltb_irrefl. Qed.

Lemma float_ltb_below (x b y : float) :
  (x <? b)%float = true -> (y <? b)%float = false -> (y <? infinity)%float = true ->
  (x <? y)%float = true.
Proof. rewrite !FloatAxioms.ltb_spec. apply SFltb_below. Qed.

Lemma nth_error_snoc {A} (l : list A) (a b : A) (j : nat) :
  nth_error (l ++ [a]) j = Some b ->
  ((j < length l)%nat /\ nth_error l j = Some b) \/ (j = length l /\ b = a).
Proof.
  intros Hj. destruct (Nat.lt_ge_cases j (length l)) as [Hlt|Hge].
  - left. split; [exact Hlt |]. now rewrite nth_error_app1 in Hj.
  - right. rewrite nth_error_app2 in Hj by exact Hge.
    destruct (j - length l)%nat as [|[|i]] eqn:E; simpl in Hj; try discriminate.
    split; [lia | now injection Hj].
Qed.

(** What the loop of the search keeps from one trial to the next. *)
Lemma keep_best_first (done : list (Params * float)) (best : option Params * float)
    (trial : Params * float) :
  first_best done (fst best) ->
  match fst best with
  | None => snd best = infinity
  | Some params => exists k, nth_error done k = Some (params, snd best) /\
      (snd best <? infinity)%float = true /\
      (forall j t, nth_error done j = Some t -> (snd t <? snd best)%float = false) /\
      (forall j t, nth_error done j = Some t -> (j < k)%nat ->
         (snd best <? snd t)%float = true \/ (snd t <? infinity)%float = false)
  end ->
  let best' := keep_best best trial in
  first_best (done ++ [trial]) (fst best') /\
  match fst best' with
  | None => snd best' = infinity
  | Some params => exists k, nth_error (done ++ [trial]) k = Some (params, snd best') /\
      (snd best' <? infinity)%float = true /\
      (forall j t, nth_error (done ++ [trial]) j = Some t ->
         (snd t <? snd best')%float = false) /\
      (forall j t, nth_error (done ++ [trial]) j = Some t -> (j < k)%nat ->
         (snd best' <? snd t)%float = true \/ (snd t <? infinity)%float = false)
  end.
Proof.
  destruct best as [[params|] x], trial as [p y]; cbn [fst snd]; unfold keep_best;
    cbn [fst snd].
  - intros _ (k & Hk & Hx & Hleast & Hfirst).
    assert (Hlen : (k < length done)%nat) by (apply nth_error_Some; now rewrite Hk).
    destruct (y <? x)%float eqn:Hy; cbn [fst snd].
    + assert (Hnew : exists k', nth_error (done ++ [(p, y)]) k' = Some (p, y) /\
                (y <? infinity)%float = true /\
                (forall j t, nth_error (done ++ [(p, y)]) j = Some t ->
                   (snd t <? y)%float = false) /\
                (forall j t, nth_error (done ++ [(p, y)]) j = Some t -> (j < k')%nat ->
                   (y <? snd t)%float = true \/ (snd t <? infinity)%float = false)).
      { exists (length done). split; [| split; [| split]].
        - now rewrite nth_error_app2, Nat.sub_diag by lia.
        - exact (float_ltb_trans _ _ _ Hy Hx).
        - intros j t Hj. destruct (nth_error_snoc _ _ _ _ Hj) as [[_ Hold] | [_ ->]].
          + destruct (snd t <? y)%float eqn:E; [| reflexivity].
            rewrite <- (Hleast j t Hold). symmetry. exact (float_ltb_trans _ _ _ E Hy).
          + apply float_ltb_irrefl.
        - intros j t Hj Hlt. destruct (nth_error_snoc _ _ _ _ Hj) as [[_ Hold] | [? _]];
            [| lia].
          destruct (snd t <? infinity)%float eqn:E; [left | now right].
          exact (float_ltb_below _ _ _ Hy (Hleast j t Hold) E). }
      split; [| exact Hnew]. destruct Hnew as (k' & Hnew). now exists k', y.
    + assert (Hold : exists k', nth_error (done ++ [(p, y)]) k' = Some (params, x) /\
                (x <? infinity)%float = true /\
                (forall j t, nth_error (done ++ [(p, y)]) j = Some t ->
                   (snd t <? x)%float = false) /\
                (forall j t, nth_error (done ++ [(p, y)]) j = Some t -> (j < k')%nat ->
                   (x <? snd t)%float = true \/ (snd t <? infinity)%float = false)).
      { exists k. split; [| split; [| split]].
        - now rewrite nth_error_app1.
        - exact Hx.
        - intros j t Hj. destruct (nth_error_snoc _ _ _ _ Hj) as [[_ Ht] | [_ ->]].
          + exact (Hleast j t Ht).
          + exact Hy.
        - intros j t Hj Hlt. destruct (nth_error_snoc _ _ _ _ Hj) as [[_ Ht] | [? _]];
            [| lia].
          exact (Hfirst j t Ht Hlt). }
      split; [| exact Hold]. destruct Hold as (k' & Hold). now exists k', x.
  - intros Hnone ->. destruct (y <? infinity)%float eqn:Hy; cbn [fst snd].
    + assert (Hnew : exists k', nth_error (done ++ [(p, y)]) k' = Some (p, y) /\
                (y <? infinity)%float = true /\
                (forall j t, nth_error (done ++ [(p, y)]) j = Some t ->
                   (snd t <? y)%float = false) /\
                (forall j t, nth_error (done ++ [(p, y)]) j = Some t -> (j < k')%nat ->
                   (y <? snd t)%float = true \/ (snd t <? infinity)%float = false)).
      { assert (Hdone : forall j t, nth_error done j = Some t ->
                  (snd t <? infinity)%float = false).
        { intros j t Hj. apply nth_error_In in Hj.
          exact (proj1 (List.Forall_forall _ _) Hnone t Hj). }
        exists (length done). split; [| split; [| split]].
        - now rewrite nth_error_app2, Nat.sub_diag by lia.
        - exact Hy.
        - intros j t Hj. destruct (nth_error_snoc _ _ _ _ Hj) as [[_ Hold] | [_ ->]].
          + destruct (snd t <? y)%float eqn:E; [| reflexivity].
            rewrite <- (Hdone j t Hold). symmetry. exact (float_ltb_trans _ _ _ E Hy).
          + apply float_ltb_irrefl.
        - intros j t Hj Hlt. destruct (nth_error_snoc _ _ _ _ Hj) as [[_ Hold] | [? _]];
            [| lia].
          right. exact (Hdone j t Hold). }
      split; [| exact Hnew]. destruct Hnew as (k' & Hnew). now exists k', y.
    + split; [| reflexivity]. apply Forall_app. split; [exact Hnone |].
      constructor; [exact Hy | constructor].
Qed.

Lemma fold_keep_best (new done : list (Params * float)) (best : option Params * float) :
  first_best done (fst best) ->
  match fst best with
  | None => snd best = infinity
  | Some params => exists k, nth_error done k = Some (params, snd best) /\
      (snd best <? infinity)%float = true /\
      (forall j t, nth_error done j = Some t -> (snd t <? snd best)%float = false) /\
      (forall j t, nth_error done j = Some t -> (j < k)%nat ->
         (snd best <? snd t)%float = true \/ (snd t <? infinity)%float = false)
  end ->
  first_best (done ++ new) (fst (fold_left keep_best new best)).
Proof.
  revert done best. induction new as [|trial new IH]; intros done best Hfirst Hbest.
  - now rewrite app_nil_r.
  - cbn [fold_left]. replace (done ++ trial :: new) with ((done ++ [trial]) ++ new)
      by now rewrite <- app_assoc.
    destruct (keep_best_first done best trial Hfirst Hbest) as [Hfirst' Hbest'].
    now apply IH.
Qed.

Section Selection.
Context `{Search}.
Variables (processed_images : ndarray float) (param_grid : list (string * list Num)).

Lemma search_follows_trials (turns : list Z) (best : option Params * float)
    (done : list (Params * float)) (s : State) :
  match
    for_fold turns done (fun done _ =>
      params <- choose_params param_grid ;;
      performance <- train_gan_with_params processed_images params ;;
      ret (done ++ [(params, performance)])) s
  with
  | (Ok done', s') =>
      exists new,
        done' = done ++ new /\ length new = length turns /\
        for_fold turns best (fun best _ =>
          params <- choose_params param_grid ;;
          performance <- train_gan_with_params processed_images params ;;
          if (performance <? snd best)%float
          then ret (Some params, performance)
          else ret best) s
        = (Ok (fold_left keep_best new best), s')
  | (Raise e, s') =>
      for_fold turns best (fun best _ =>
        params <- choose_params param_grid ;;
        performance <- train_gan_with_params processed_images params ;;
        if (performance <? snd best)%float
        then ret (Some params, performance)
        else ret best) s
      = (Raise e, s')
  end.
Proof.
  revert best done s. induction turns as [|turn turns IH]; intros best done s.
  - cbn [for_fold]. unfold ret. exists []. now rewrite app_nil_r.
  - cbn [for_fold]. unfold bind in IH |- *.
    destruct (choose_params param_grid s) as [[params|e] s1]; [| reflexivity].
    destruct (train_gan_with_params processed_images params s1) as [[performance|e] s2];
      [| reflexivity].
    unfold ret at 1.
    assert (Hstep : (if (performance <? snd best)%float
                     then ret (Some params, performance) else ret best) s2
                    = (Ok (keep_best best (params, performance)), s2)).
    { unfold keep_best. cbn [fst snd]. now destruct (performance <? snd best)%float. }
    rewrite Hstep.
    specialize (IH (keep_best best (params, performance)) (done ++ [(params, performance)]) s2).
    destruct (for_fold turns (done ++ [(params, performance)]) _ s2) as [[done'|e] s'].
    + destruct IH as (new & -> & Hlen & Hrun). exists ((params, performance) :: new).
      rewrite <- app_assoc. split; [reflexivity |]. split; [simpl; now rewrite Hlen |].
      exact Hrun.
    + exact IH.
Qed.

(** X18: what the search returns.  [random_search] does what the trials
    do, one after the other, and returns the hyperparameters of the first
    trial whose measure none of the others is below; it returns [None] when
    no measure was below infinity, as when [n_iter] is not positive.  A trial
    that raises ends the search with its error. *)
Theorem random_search_first_best (n_iter : Z) (s : State) :
  match trials processed_images param_grid n_iter s with
  | (Ok done, s') =>
      length done = Z.to_nat n_iter /\
      exists best,
        random_search processed_images param_grid n_iter s = (Ok best, s') /\
        first_best done best
  | (Raise e, s') =>
      random_search processed_images param_grid n_iter s = (Raise e, s')
  end.
Proof.
  unfold trials, random_search.
  pose proof (search_follows_trials (py_range n_iter) (None, infinity) [] s) as Hrun.
  destruct (for_fold (py_range n_iter) [] _ s) as [[done|e] s'].
  - destruct Hrun as (new & -> & Hlen & Hrun). cbn [app]. split.
    + rewrite Hlen. unfold py_range. now rewrite length_map, length_seq.
    + exists (fst (fold_left keep_best new (None, infinity))). split.
      * unfold bind in Hrun |- *. now rewrite Hrun.
      * apply (fold_keep_best new [] (None, infinity)); [constructor | reflexivity].
  - unfold bind in Hrun |- *. now rewrite Hrun.
Qed.

End Selection.

Section SearchLog.
Context `{Search}.
Variables (processed_images : ndarray float) (param_grid : list (string * list Num)).

Lemma emits_quiet {A B} (f : Event -> option B) (g : Rt -> Result A * Rt) :
  emits f [] (quiet g).
Proof.
  intros s. exists []. unfold quiet. destruct (g (rt s)) as [[a|e] rt']; simpl;
    rewrite app_nil_r; (split; [reflexivity |]); [reflexivity | apply prefix_nil].
Qed.

Lemma emits_for_fold {A B C} (f : Event -> option B) (xs : list A) (acc : C)
    (body : C -> A -> M C) (pat : A -> list B) :
  (forall acc x, emits f (pat x) (body acc x)) ->
  emits f (flat_map pat xs) (for_fold xs acc body).
Proof.
  intros Hbody. revert acc. induction xs as [|x xs IH]; intros acc; simpl.
  - apply emits_ret.
  - apply emits_bind; [apply Hbody | intros acc'; apply IH].
Qed.

Lemma emits_for_fold_none {A B C} (f : Event -> option B) (xs : list A) (acc : C)
    (body : C -> A -> M C) :
  (forall acc x, emits f [] (body acc x)) -> emits f [] (for_fold xs acc body).
Proof.
  intros Hbody. revert acc. induction xs as [|x xs IH]; intros acc; simpl.
  - apply emits_ret.
  - apply emits_bind_none; [apply Hbody | intros acc'; apply IH].
Qed.

Lemma choose_params_saved : emits grid_of [] (choose_params param_grid).
Proof.
  unfold choose_params. apply emits_for_fold_none.
  intros params item. apply emits_bind_none; [apply emits_quiet | intros value].
  apply emits_ret.
Qed.

Lemma train_gan_with_params_saved (params : Params) :
  emits grid_of (flat_map grid_of_epoch (saving_epochs 5000 1000))
    (train_gan_with_params processed_images params).
Proof.
  unfold train_gan_with_params.
  apply emits_bind_none; [apply emits_lift | intros learning_rate].
  apply emits_bind_none; [apply emits_lift | intros beta1].
  apply emits_bind_none; [apply emits_lift | intros batch_size].
  apply emits_bind_none; [apply emits_quiet | intros [[gan generator] discriminator]].
  apply emits_bind_none; [apply emits_lift | intros size].
  rewrite <- (app_nil_r (flat_map _ _)).
  apply emits_bind; [| intros _; apply emits_quiet].
  apply train_gan_saved. discriminate.
Qed.

Lemma random_search_saved (n_iter : Z) :
  emits grid_of
    (flat_map (fun _ => flat_map grid_of_epoch (saving_epochs 5000 1000)) (py_range n_iter))
    (random_search processed_images param_grid n_iter).
Proof.
  unfold random_search. rewrite <- (app_nil_r (flat_map _ _)).
  apply emits_bind; [| intros best; apply emits_ret].
  apply emits_for_fold. intros best _.
  apply emits_bind_none; [apply choose_params_saved | intros params].
  rewrite <- (app_nil_r (flat_map _ _)).
  apply emits_bind; [apply train_gan_with_params_saved | intros performance].
  destruct (performance <? snd best)%float; apply emits_ret.
Qed.

Lemma names_of_trials (turns : list Z) (epochs : list Z) :
  omap (fun g => match g with Saved path => Some path | Shown => None end)
       (flat_map (fun _ => flat_map grid_of_epoch epochs) turns)
  = concat (map (fun _ => map (image_name "images/") epochs) turns).
Proof.
  induction turns as [|turn turns IH]; [reflexivity |].
  cbn [flat_map map concat]. rewrite omap_app, names_of_grids. f_equal. exact IH.
Qed.

(** X19: every trial of the search writes the same five files.  Each trial
    trains for 5000 epochs and saves the grids of the epochs 0, 1000, 2000,
    3000 and 4000 under names that do not tell the trials apart, so each
    trial overwrites the images of the one before, the best one included. *)
Theorem trials_overwrite_images (n_iter : Z) (s : State) :
  let files := map (image_name "images/") [0; 1000; 2000; 3000; 4000] in
  exists d,
    log (snd (random_search processed_images param_grid n_iter s)) = log s ++ d /\
    match fst (random_search processed_images param_grid n_iter s) with
    | Ok _ => omap written d = concat (map (fun _ => files) (py_range n_iter))
    | Raise _ => omap written d `prefix_of` concat (map (fun _ => files) (py_range n_iter))
    end.
Proof.
  intros files. destruct (random_search_saved n_iter s) as (d & Hlog & Hgrids).
  exists d. split; [exact Hlog |].
  assert (Hepochs : saving_epochs 5000 1000 = [0; 1000; 2000; 3000; 4000])
    by (vm_compute; reflexivity).
  rewrite Hepochs in Hgrids. unfold files.
  rewrite written_of_grids, <- names_of_trials.
  destruct (fst (random_search _ _ _ _)); [now rewrite Hgrids | now apply omap_prefix].
Qed.

End SearchLog.

Section SearchReturns.
Context `{Search}.
Variables (processed_images : ndarray float) (param_grid : list (string * list Num)).
Hypothesis contracts : search_dependable processed_images.
Hypothesis readable : searchable param_grid = true.

Lemma yields_quiet {A} (P : A -> Prop) (g : Rt -> Result A * Rt) :
  (forall rt, exists a rt', g rt = (Ok a, rt') /\ P a) -> yields P (quiet g).
Proof.
  intros Hg s. destruct (Hg (rt s)) as (a & rt' & Hcall & Ha).
  exists a, (mk_state (fs s) rt' (log s)). unfold quiet. now rewrite Hcall.
Qed.

Lemma yields_for_fold {A C} (I : C -> Prop) (xs : list A) (acc : C) (body : C -> A -> M C) :
  (forall acc x, I acc -> yields I (body acc x)) -> I acc -> yields I (for_fold xs acc body).
Proof.
  intros Hbody. revert acc. induction xs as [|x xs IH]; intros acc Hacc; simpl.
  - now apply yields_ret.
  - apply (yields_bind I); [now apply Hbody | exact IH].
Qed.

Lemma searchable_values (key : string) (values : list Num) :
  In (key, values) param_grid -> values <> [].
Proof.
  intros Hin. unfold searchable in readable.
  apply andb_prop in readable as [Hrest _]. apply andb_prop in Hrest as [Hfull _].
  rewrite forallb_forall in Hfull. specialize (Hfull _ Hin). cbn [snd] in Hfull.
  now destruct values.
Qed.

Lemma searchable_key (key : string) :
  In key ["learning_rate"; "beta1"; "batch_size"] ->
  exists values, In (key, values) param_grid.
Proof.
  intros Hkey. unfold searchable in readable.
  apply andb_prop in readable as [Hrest _]. apply andb_prop in Hrest as [_ Hkeys].
  rewrite forallb_forall in Hkeys. specialize (Hkeys _ Hkey). unfold has_key in Hkeys.
  apply existsb_exists in Hkeys as ([key' values] & Hin & Heq). cbn [fst] in Heq.
  apply String.eqb_eq in Heq. subst key'. now exists values.
Qed.

Lemma searchable_batch_size (values : list Num) (v : Num) :
  In ("batch_size", values) param_grid -> In v values -> exists z, v = Int z /\ 0 <= z.
Proof.
  intros Hin Hv. unfold searchable in readable.
  apply andb_prop in readable as [_ Hsizes].
  rewrite forallb_forall in Hsizes. specialize (Hsizes _ Hin). cbn [fst snd] in Hsizes.
  rewrite String.eqb_refl in Hsizes. cbn [negb orb] in Hsizes.
  rewrite forallb_forall in Hsizes. specialize (Hsizes _ Hv).
  destruct v as [z|x]; [| discriminate]. exists z. split; [reflexivity |].
  now apply Z.leb_le.
Qed.

Lemma choose_params_walk (done rest : list (string * list Num)) (params : Params) :
  grid_point done params ->
  (forall key values, In (key, values) rest -> values <> []) ->
  yields (grid_point (done ++ rest))
    (for_fold rest params (fun params item =>
       value <- quiet (random_choice (snd item)) ;;
       ret (<[fst item := value]> params))).
Proof.
  revert done params. induction rest as [|[key values] rest IH]; intros done params Hpoint Hfull.
  - rewrite app_nil_r. now apply yields_ret.
  - cbn [for_fold fst snd].
    apply (yields_bind (grid_point (done ++ [(key, values)]))).
    + apply (yields_bind (fun v => In v values)).
      * apply yields_quiet. intros rt0.
        apply (choice_in_values _ contracts). apply (Hfull key). now left.
      * intros v Hv. apply yields_ret. intros key'.
        destruct (decide (key' = key)) as [-> | Hne].
        -- rewrite lookup_insert_eq. exists values. split; [| exact Hv].
           apply in_or_app. right. now left.
        -- rewrite lookup_insert_ne by congruence. specialize (Hpoint key').
           destruct (params !! key') as [v'|].
           ++ destruct Hpoint as (values' & Hin & Hv'). exists values'.
              split; [| exact Hv']. apply in_or_app. now left.
           ++ intros values' Hin. apply in_app_or in Hin as [Hin | [[= ? _] | []]].
              ** exact (Hpoint values' Hin).
              ** congruence.
    + intros params' Hpoint'.
      replace (done ++ (key, values) :: rest) with ((done ++ [(key, values)]) ++ rest)
        by now rewrite <- app_assoc.
      apply IH; [exact Hpoint' |]. intros key' values' Hin. apply (Hfull key'). now right.
Qed.

Lemma choose_params_yields : yields (grid_point param_grid) (choose_params param_grid).
Proof.
  unfold choose_params. apply (choose_params_walk [] param_grid ∅).
  - intros key. rewrite lookup_empty. intros values [].
  - intros key values. apply searchable_values.
Qed.

Lemma param_of_grid_point (params : Params) (key : string) :
  grid_point param_grid params ->
  In key ["learning_rate"; "beta1"; "batch_size"] ->
  exists v values, param params key = Ok v /\ In (key, values) param_grid /\ In v values.
Proof.
  intros Hpoint Hkey. specialize (Hpoint key). unfold param.
  destruct (params !! key) as [v|].
  - destruct Hpoint as (values & Hin & Hv). now exists v, values.
  - destruct (searchable_key key Hkey) as [values Hin]. destruct (Hpoint values Hin).
Qed.

Lemma train_gan_with_params_yields (params : Params) :
  grid_point param_grid params ->
  yields (fun performance => (performance <? infinity)%float = true)
    (train_gan_with_params processed_images params).
Proof.
  intros Hpoint. unfold train_gan_with_params.
  destruct (param_of_grid_point params "learning_rate" Hpoint) as (lr & ? & Hlr & _);
    [now left |].
  destruct (param_of_grid_point params "beta1" Hpoint) as (b1 & ? & Hb1 & _);
    [right; now left |].
  destruct (param_of_grid_point params "batch_size" Hpoint) as (bs & values & Hbs & Hin & Hv);
    [right; right; now left |].
  destruct (searchable_batch_size values bs Hin Hv) as (z & -> & Hz).
  apply (yields_bind (fun v => v = lr)); [now apply (yields_lift _ _ lr) | intros ? ->].
  apply (yields_bind (fun v => v = b1)); [now apply (yields_lift _ _ b1) | intros ? ->].
  apply (yields_bind (fun v => v = Int z)); [now apply (yields_lift _ _ (Int z)) | intros ? ->].
  apply (yields_bind (fun models =>
           forall batch_size,
             dependable processed_images (fst (fst models)) (snd (fst models)) (snd models)
               batch_size)).
  { apply yields_quiet. intros rt0.
    destruct (models_dependable _ contracts lr b1 rt0)
      as (gan & generator & discriminator & rt' & Hcall & Hmodels).
    now exists (gan, generator, discriminator), rt'. }
  intros [[gan generator] discriminator] Hmodels. cbn [fst snd] in Hmodels.
  apply (yields_bind (fun v => v = z)); [now apply (yields_lift _ _ z) | intros ? ->].
  apply (yields_bind (fun _ => True)).
  { apply (train_gan_yields processed_images gan generator discriminator z 1000
             (Hmodels z) 5000); [exact Hz | discriminate]. }
  intros _ _. apply yields_quiet. intros rt0.
  destruct (measure_in_unit _ contracts rt0) as (performance & rt' & Hcall & _ & Hone).
  exists performance, rt'. split; [exact Hcall |].
  apply (float_ltb_trans performance 1 infinity Hone). reflexivity.
Qed.

Lemma trial_yields (best : option Params * float) :
  (fst best = None /\ snd best = infinity) \/
  (exists params, fst best = Some params /\ grid_point param_grid params) ->
  yields (fun best' => exists params, fst best' = Some params /\ grid_point param_grid params)
    (params <- choose_params param_grid ;;
     performance <- train_gan_with_params processed_images params ;;
     if (performance <? snd best)%float
     then ret (Some params, performance)
     else ret best).
Proof.
  intros Hbest.
  apply (yields_bind (grid_point param_grid)); [apply choose_params_yields |].
  intros params Hpoint.
  apply (yields_bind (fun performance => (performance <? infinity)%float = true));
    [now apply train_gan_with_params_yields |].
  intros performance Hperformance.
  destruct Hbest as [[_ Hinf] | Hbest].
  - rewrite Hinf, Hperformance. apply yields_ret. now exists params.
  - destruct (performance <? snd best)%float; apply yields_ret; [now exists params | exact Hbest].
Qed.


End SearchReturns.

Section SearchRun.
Import Sample Searching.

Lemma sample_search_dependable : search_dependable processed_images.
Proof.
  split.
  - intros values rt0 Hvalues. unfold random_choice, search, choice.
    destruct (nth_error values (Nat.modulo rt0 (length values))) as [v|] eqn:Hv.
    + exists v, (S rt0). split; [reflexivity |]. now apply nth_error_In in Hv.
    + apply nth_error_None in Hv.
      assert (length values <> 0%nat) by now destruct values.
      pose proof (Nat.mod_upper_bound rt0 (length values)). lia.
  - intros rt0. unfold random_random, search, measure. eexists _, _.
    split; [reflexivity |].
    pose proof (Nat.mod_upper_bound (5 * rt0) 8) as Hbound.
    destruct (Nat.modulo (5 * rt0) 8) as [|[|[|[|[|[|[|[|k]]]]]]]];
      try (split; reflexivity). lia.
  - intros learning_rate beta1 rt0. exists gan, generator, discriminator, rt0.
    split; [reflexivity |]. apply sample_dependable.
Qed.


End SearchRun.

(** ** The order of the table *)

Section Listing.
Context `{Runtime}.

Lemma parse_files_in_order (folder_path : string) (names : list string)
    (acc acc' : list Annotation) (s s' : State) :
  for_fold names acc (fun annotations annotation_file =>
    let annotation_path := os_path_join folder_path annotation_file in
    annotation_data <- parse_annotation annotation_path ;;
    ret (annotations ++ [annotation_data])) s = (Ok acc', s') ->
  s' = s /\
  exists new,
    acc' = acc ++ new /\
    Forall2 (fun path d => parse_annotation path s = (Ok d, s))
            (map (os_path_join folder_path) names) new.
Proof.
  revert acc. induction names as [|name names IH]; intros acc; cbn [for_fold map].
  - unfold ret. intros [= <- <-]. split; [reflexivity |]. exists [].
    split; [now rewrite app_nil_r | constructor].
  - unfold bind at 1 2, ret at 1. cbv zeta.
    destruct (parse_annotation (os_path_join folder_path name) s) as [[d|e] s1] eqn:Hparse;
      [| discriminate].
    assert (Hstate : parse_annotation (os_path_join folder_path name) s = (Ok d, s))
      by (apply parse_annotation_state; now rewrite Hparse).
    rewrite Hparse in Hstate. injection Hstate as ->.
    intros Hrest. destruct (IH _ Hrest) as (-> & new & -> & Hall).
    split; [reflexivity |]. exists (d :: new). split; [now rewrite <- app_assoc |].
    constructor; [exact Hparse | exact Hall].
Qed.

Lemma parse_folders_in_order (annotations_path : string) (folders : list string)
    (acc acc' : list Annotation) (s s' : State) :
  for_fold folders acc (fun annotations annotation_folder =>
    let folder_path := os_path_join annotations_path annotation_folder in
    files <- read_fs (fun f => os_listdir f folder_path) ;;
    for_fold files annotations (fun annotations annotation_file =>
      let annotation_path := os_path_join folder_path annotation_file in
      annotation_data <- parse_annotation annotation_path ;;
      ret (annotations ++ [annotation_data]))) s = (Ok acc', s') ->
  s' = s /\
  exists per_folder new,
    collect (map (fun annotation_folder =>
                    let folder_path := os_path_join annotations_path annotation_folder in
                    let? names := os_listdir (fs s) folder_path in
                    Ok (map (os_path_join folder_path) names))
                 folders) = Ok per_folder /\
    acc' = acc ++ new /\
    Forall2 (fun path d => parse_annotation path s = (Ok d, s)) (concat per_folder) new.
Proof.
  revert acc. induction folders as [|folder folders IH]; intros acc; cbn [for_fold map collect].
  - unfold ret. intros [= <- <-]. split; [reflexivity |]. exists [], [].
    split; [reflexivity |]. split; [now rewrite app_nil_r | constructor].
  - unfold bind at 1 2, read_fs at 1. cbv zeta.
    destruct (os_listdir (fs s) (os_path_join annotations_path folder)) as [names|e];
      [| discriminate].
    destruct (for_fold names acc _ s) as [[acc1|e] s1] eqn:Hinner; [| discriminate].
    destruct (parse_files_in_order _ _ _ _ _ _ Hinner) as (-> & new1 & -> & Hall1).
    intros Hrest. destruct (IH _ Hrest) as (-> & per_folder & new & Hlist & -> & Hall).
    split; [reflexivity |].
    exists (map (os_path_join (os_path_join annotations_path folder)) names :: per_folder),
           (new1 ++ new).
    cbv zeta in Hlist |- *. cbn [rbind]. rewrite Hlist. cbn [rbind]. split; [reflexivity |].
    split; [now rewrite <- app_assoc |].
    cbn [concat]. now apply Forall2_app.
Qed.

(** X21: the table follows the listing.  When the loop over the annotation
    folders returns, it has kept one record for every file of every folder,
    in the order in which [os.listdir] names the folders and their files, and
    each record is what [parse_annotation] returns for its file. *)
Theorem annotations_follow_listing
    (annotations_path : string) (s : State) (table : list Annotation) :
  fst (load_annotations annotations_path s) = Ok table ->
  exists paths,
    annotation_paths (fs s) annotations_path = Ok paths /\
    length table = length paths /\
    Forall2 (fun path d => parse_annotation path s = (Ok d, s)) paths table.
Proof.
  unfold load_annotations, annotation_paths, bind at 1, read_fs at 1.
  destruct (os_listdir (fs s) annotations_path) as [folders|e]; [| discriminate].
  destruct (for_fold folders [] _ s) as [r s'] eqn:Hrun. cbn [fst rbind].
  intros ->. destruct (parse_folders_in_order _ _ _ _ _ _ Hrun)
    as (_ & per_folder & new & Hlist & -> & Hall).
  cbv zeta in Hlist |- *. rewrite Hlist. cbn [rbind app]. exists (concat per_folder).
  split; [reflexivity |]. split; [| exact Hall].
  symmetry. exact (Forall2_length _ _ _ Hall).
Qed.

End Listing.

Section ListingRun.
Import Sample.

Lemma annotations_follow_listing_witness :
  exists paths,
    annotation_paths (fs Colour.start) "Annotation/" = Ok paths /\
    length [ record "n02085620_7" 71 1 192 180; record "n02085620_242" 0 0 100 90;
             record "n02085620_368" 10 20 300 200 ] = length paths /\
    Forall2 (fun path d => parse_annotation path Colour.start = (Ok d, Colour.start)) paths
      [ record "n02085620_7" 71 1 192 180; record "n02085620_242" 0 0 100 90;
        record "n02085620_368" 10 20 300 200 ].
Proof.
  apply (annotations_follow_listing "Annotation/" Colour.start). reflexivity.
Defined.

End ListingRun.

(** ** Two runs of the training *)

Section TwoRuns.
Context `{Runtime}.

(** X22: two runs write the same files.  The names of the files depend on
    [epochs] and [save_interval] alone: whatever the images, the models, the
    batch sizes and the states of two runs that return, the second writes,
    in the same order, the files that the first has written, as the run of
    the DCGAN does after the run of the GAN. *)
Theorem runs_write_same_files
    (images images' : ndarray float)
    (gan generator discriminator gan' generator' discriminator' : Model)
    (epochs batch_size batch_size' save_interval : Z) (s s' : State) :
  save_interval <> 0 ->
  fst (train_gan images gan generator discriminator epochs batch_size save_interval s)
    = Ok tt ->
  fst (train_gan images' gan' generator' discriminator' epochs batch_size' save_interval s')
    = Ok tt ->
  exists d d',
    log (snd (train_gan images gan generator discriminator
                epochs batch_size save_interval s)) = log s ++ d /\
    log (snd (train_gan images' gan' generator' discriminator'
                epochs batch_size' save_interval s')) = log s' ++ d' /\
    omap written d = map (image_name "images/") (saving_epochs epochs save_interval) /\
    omap written d' = omap written d.
Proof.
  intros Hsi Hrun Hrun'.
  destruct (train_gan_saved images gan generator discriminator
              batch_size save_interval epochs Hsi s) as (d & Hlog & Hgrids).
  destruct (train_gan_saved images' gan' generator' discriminator'
              batch_size' save_interval epochs Hsi s') as (d' & Hlog' & Hgrids').
  rewrite Hrun in Hgrids. rewrite Hrun' in Hgrids'.
  exists d, d'. split; [exact Hlog |]. split; [exact Hlog' |].
  rewrite !written_of_grids, Hgrids, Hgrids'. split; [apply names_of_grids | reflexivity].
Qed.

End TwoRuns.

Section TwoRunsRun.
Import Sample.

Lemma runs_write_same_files_witness :
  exists d d',
    log (snd (train_gan processed_images gan generator discriminator 3 2 2 start))
      = log start ++ d /\
    log (snd (train_gan processed_images gan generator discriminator 3 1 2 later))
      = log later ++ d' /\
    omap written d = map (image_name "images/") (saving_epochs 3 2) /\
    omap written d' = omap written d.
Proof.
  apply (runs_write_same_files processed_images processed_images
           gan generator discriminator gan generator discriminator 3 2 1 2 start later).
  - lia.
  - reflexivity.
  - reflexivity.
Defined.

End TwoRunsRun.
